(** * StockTrader: the transactional signal-to-position pipeline

    A shallow embedding of the Python sources

    - [app/signal/scorer.py], [app/signal/integrity.py], [app/risk/engine.py],
    - [app/nlp/ticker_mapper.py], [app/ingestion/news_feed.py],
    - [app/execution/broker_base.py], [app/execution/paper_broker.py],
      [app/execution/kis_broker.py],
    - [app/storage/db.py] and [app/main.py],

    followed by the properties of the three-phase protocol.

    Python [float] is IEEE binary64 and is embedded as Rocq's primitive
    [float]; Python [int] is [Z]; [str] is [string] (UTF-8 octets); a [dict]
    is a [gmap]; a table with an integer primary key is a [gmap Z row].

    The storage engine is modelled as far as the schema in [db.py] spells it
    out: primary keys, AUTOINCREMENT, UNIQUE, CHECK and NOT NULL constraints,
    transactions.  The [sqlite3] module binds a NaN as NULL: a [real not null]
    column refuses it, and the INSERT raises [IntegrityError].  Otherwise
    columns hold the values they are given ([int] within the 64-bit range;
    in a nullable [real] column a NaN stands for the NULL that is stored in
    its place); columns that only ever receive their [current_timestamp]
    default are left out. *)

From Stdlib Require Import ZArith Floats.
From stdpp Require Import gmap strings list fin_maps pretty.

Open Scope Z_scope.
Set Warnings "-inexact-float,-register-all".

(** ** Python values and exceptions *)

(** The exceptions that travel through the pipeline.  Every one of them is an
    [Exception], so [except Exception] catches them all. *)
Inductive exn : Type :=
| SqliteIntegrityError (msg : string)     (* sqlite3.IntegrityError *)
| SqliteOperationalError (msg : string)   (* sqlite3.OperationalError *)
| IllegalTransitionError (msg : string)   (* app.storage.db.IllegalTransitionError *)
| IntegrityError (msg : string)           (* app.signal.integrity.IntegrityError *)
| BrokerError (msg : string).             (* whatever [send_order] raises *)

Inductive Result (A : Type) : Type :=
| Ok (a : A)
| Raise (e : exn).
Arguments Ok {A} a.
Arguments Raise {A} e.

(** What [json.loads] returns and [json.dumps] takes. *)
Inductive json : Type :=
| JNull
| JBool (b : bool)
| JInt (z : Z)
| JFloat (f : float)
| JStr (s : string)
| JList (l : list json)
| JObj (kv : gmap string json).

(** Library functions of the Python runtime that the sources call but do not
    define: they are taken as they come.  [None] stands for a raised
    exception ([json.JSONDecodeError], [ValueError]). *)
Class PyRuntime : Type := {
  json_loads : string -> option json;
  json_dumps : json -> string;
  sha256_hexdigest : string -> string;
  float_of_str : string -> option float;
  repr_float : float -> string;
  (* SQL [current_timestamp], held fixed over a run *)
  current_timestamp : string
}.

(** [not v] is [negb (truthy v)]. *)
Definition truthy (v : json) : bool :=
  match v with
  | JNull => false
  | JBool b => b
  | JInt z => negb (z =? 0)
  | JFloat f => negb (PrimFloat.eqb f 0%float)
  | JStr s => negb (String.eqb s "")
  | JList l => negb (Nat.eqb (length l) 0)
  | JObj kv => negb (Nat.eqb (size kv) 0)
  end.

(** [v[k]] for a string key: [KeyError] on a dict without the key,
    [TypeError] on everything that is not a dict. *)
Definition subscript (v : json) (k : string) : option json :=
  match v with
  | JObj kv => kv !! k
  | _ => None
  end.

(** [float(z)] for an [int]: nearest binary64, [OverflowError] beyond range. *)
Definition float_of_int (z : Z) : option float :=
  let f := SF2Prim (binary_normalize prec emax z 0 false) in
  if PrimFloat.is_infinity f then None else Some f.

(** [float(v)]. *)
Definition py_float `{PyRuntime} (v : json) : option float :=
  match v with
  | JInt z => float_of_int z
  | JFloat f => Some f
  | JBool b => Some (if b then 1%float else 0%float)
  | JStr s => float_of_str s
  | JNull | JList _ | JObj _ => None
  end.

(** [str(z)] for an [int]. *)
Definition str_int (z : Z) : string := pretty z.

(** [x or d] for an optional string: [None] and [""] are both falsy. *)
Definition str_or (x : option string) (d : string) : string :=
  match x with
  | Some s => if String.eqb s "" then d else s
  | None => d
  end.

(** ** app/signal/scorer.py *)

Record ScoreInput : Type := {
  impact : float;
  source_reliability : float;
  novelty : float;
  market_reaction : float;
  liquidity : float;
  risk_penalty : float
}.

(** Python's two-argument [min(a, b)] keeps [a] unless [b < a], and
    [max(a, b)] keeps [a] unless [b > a]. *)
Definition py_min (a b : float) : float := if PrimFloat.ltb b a then b else a.
Definition py_max (a b : float) : float := if PrimFloat.ltb a b then b else a.

Definition clamp (v lo hi : float) : float := py_max lo (py_min hi v).

Definition DEFAULT_WEIGHTS : gmap string float :=
  list_to_map [("impact", 0.30%float); ("source_reliability", 0.20%float);
               ("novelty", 0.20%float); ("market_reaction", 0.15%float);
               ("liquidity", 0.15%float)].

(** [w[k]]; the merged dict always holds the five default keys, so the
    [KeyError] branch is never taken. *)
Definition weight (w : gmap string float) (k : string) : float :=
  default 0%float (w !! k).

Definition compute_scores (inp : ScoreInput) (weights : option (gmap string float))
  : float * float :=
  (* {**DEFAULT_WEIGHTS, **(weights or {})}: later entries win *)
  let w := default ∅ weights ∪ DEFAULT_WEIGHTS in
  let raw_score :=
    (weight w "impact" * impact inp
     + weight w "source_reliability" * source_reliability inp
     + weight w "novelty" * novelty inp
     + weight w "market_reaction" * market_reaction inp
     + weight w "liquidity" * liquidity inp
     - risk_penalty inp)%float in
  let total_score := clamp raw_score 0%float 100%float in
  (raw_score, total_score).

(** ** app/risk/engine.py *)

Record RiskDecision : Type := {
  allowed : bool;
  reason_code : option string
}.

Record KillSwitch : Type := { enabled : bool }.

Definition KillSwitch_init : KillSwitch := {| enabled := false |}.
Definition KillSwitch_on (_ : KillSwitch) : KillSwitch := {| enabled := true |}.
Definition KillSwitch_off (_ : KillSwitch) : KillSwitch := {| enabled := false |}.

(** [account_state] is the risk-state dict; [can_trade] reads one
    integer-valued entry of it, so the dict is kept as its integer entries.
    The module-level [kill_switch] is passed in explicitly. *)
Definition can_trade (kill_switch : KillSwitch) (account_state : option (gmap string Z))
  : RiskDecision :=
  if enabled kill_switch then
    {| allowed := false; reason_code := Some "KILL_SWITCH_ON" |}
  else
    match account_state with
    | Some d =>
        let trading_enabled := default 1 (d !! "trading_enabled") in
        if negb (trading_enabled =? 1) then
          {| allowed := false; reason_code := Some "RISK_DISABLED" |}
        else {| allowed := true; reason_code := None |}
    | None => {| allowed := true; reason_code := None |}
    end.

(** ** app/signal/integrity.py *)

Record EventTicker : Type := {
  et_id : Z;
  et_news_id : Z;
  et_map_confidence : float
}.

Definition default_min_conf : float := 0.92%float.

Definition validate_signal_binding (input_news_id : Z) (event_ticker : EventTicker)
    (min_conf : float) : Result unit :=
  if negb (et_news_id event_ticker =? input_news_id) then
    Raise (IntegrityError "NEWS_MISMATCH")
  else if PrimFloat.ltb (et_map_confidence event_ticker) min_conf then
    Raise (IntegrityError "LOW_CONFIDENCE")
  else Ok tt.

(** ** app/nlp/ticker_mapper.py *)

Record MappingResult : Type := {
  mr_ticker : string;
  mr_company_name : string;
  mr_confidence : float;
  mr_method : string
}.

(** [len(s)] of a [str] held as UTF-8: the octets that do not continue a
    code point (those outside 0x80..0xBF). *)
Fixpoint py_len (s : string) : nat :=
  match s with
  | EmptyString => 0%nat
  | String c r =>
      let n := Ascii.nat_of_ascii c in
      if (Nat.leb 128 n && Nat.ltb n 192)%bool then py_len r else S (py_len r)
  end.

(** [k in text]. *)
Fixpoint str_contains (k text : string) : bool :=
  if String.prefix k text then true
  else match text with
       | EmptyString => false
       | String _ r => str_contains k r
       end.

Definition ALIASES : list (string * (string * string * float)) :=
  [("삼성전자", ("005930", "삼성전자", 0.98%float));
   ("SK하이닉스", ("000660", "SK하이닉스", 0.98%float));
   ("삼성", ("", "AMBIGUOUS", 0.20%float))].

(** [sorted(keys, key=len, reverse=True)]: longest first, and keys of equal
    length in their original order.  [insert_by_len k l] puts [k], which
    comes before all of [l] in the original order, into the sorted [l]. *)
Fixpoint insert_by_len (k : string) (l : list string) : list string :=
  match l with
  | [] => [k]
  | h :: t => if Nat.leb (py_len h) (py_len k) then k :: l else h :: insert_by_len k t
  end.

Definition sorted_by_len_desc (l : list string) : list string :=
  foldr insert_by_len [] l.

Fixpoint alias_get (k : string) (l : list (string * (string * string * float)))
  : option (string * string * float) :=
  match l with
  | [] => None
  | (k', v) :: t => if String.eqb k k' then Some v else alias_get k t
  end.

Fixpoint map_ticker_scan (keys : list string) (text : string) : option MappingResult :=
  match keys with
  | [] => None
  | k :: rest =>
      if str_contains k text then
        match alias_get k ALIASES with
        | Some (ticker, name, conf) =>
            if String.eqb ticker "" then None
            else Some {| mr_ticker := ticker; mr_company_name := name;
                         mr_confidence := conf; mr_method := "alias_dict" |}
        | None => None
        end
      else map_ticker_scan rest text
  end.

Definition map_ticker (text : string) : option MappingResult :=
  map_ticker_scan (sorted_by_len_desc (fst <$> ALIASES)) text.

(** ** app/ingestion/news_feed.py *)

(** [published_at] is kept as its [isoformat()] text, the only form in which
    the pipeline uses it. *)
Record NewsItem : Type := {
  ni_source : string;
  ni_tier : Z;
  ni_title : string;
  ni_body : string;
  ni_url : string;
  ni_published_at : string
}.

Definition build_hash `{PyRuntime} (item : NewsItem) : string :=
  sha256_hexdigest (ni_source item +:+ "|" +:+ ni_url item +:+ "|" +:+ ni_title item).

(** [now] is the reading of [datetime.now(timezone.utc)]. *)
Definition sample_news (now : string) : NewsItem :=
  {| ni_source := "sample";
     ni_tier := 2;
     ni_title := "삼성전자, 신규 반도체 투자 발표";
     ni_body := "샘플 뉴스 본문";
     ni_url := "https://example.com/news/1";
     ni_published_at := now |}.

(** ** app/execution/broker_base.py, app/execution/paper_broker.py *)

Record OrderRequest : Type := {
  rq_signal_id : Z;
  rq_ticker : string;
  rq_side : string;
  rq_qty : float;
  rq_order_type : string;
  rq_expected_price : option float
}.

Record OrderResult : Type := {
  res_status : string;
  res_filled_qty : float;
  res_avg_price : float;
  res_reason_code : option string
}.

(** The broker capability as the pipeline consumes it: [send_order] returns
    a result or raises. *)
Class BrokerBase : Type := {
  send_order : OrderRequest -> Result OrderResult
}.

(** [PaperBroker.send_order]; the simulated latency is not part of the result. *)
Definition PaperBroker_send_order (req : OrderRequest) : Result OrderResult :=
  let mock_price := default 100%float (rq_expected_price req) in
  Ok {| res_status := "FILLED"; res_filled_qty := rq_qty req;
        res_avg_price := mock_price; res_reason_code := None |}.

Definition PaperBroker : BrokerBase := {| send_order := PaperBroker_send_order |}.

(** ** app/storage/db.py: the schema *)

(** A table with [integer primary key autoincrement]: its rows by rowid, and
    the [sqlite_sequence] entry (the largest rowid ever handed out). *)
Record Table (A : Type) : Type := {
  rows : gmap Z A;
  seq : Z
}.
Arguments rows {A} _.
Arguments seq {A} _.

Definition empty_table {A : Type} : Table A := {| rows := ∅; seq := 0 |}.

Definition max_rowid {A : Type} (m : gmap Z A) : Z :=
  map_fold (λ k _ acc, Z.max k acc) 0 m.

(** AUTOINCREMENT: one more than the largest rowid that ever existed. *)
Definition next_rowid {A : Type} (t : Table A) : Z :=
  Z.max (seq t) (max_rowid (rows t)) + 1.

Definition table_insert {A : Type} (row : A) (t : Table A) : Z * Table A :=
  let id := next_rowid t in
  (id, {| rows := <[id := row]> (rows t); seq := id |}).

(** [news_events]; also the [item] dict of [insert_news_if_new]. *)
Record NewsRow : Type := {
  nr_source : string;
  nr_tier : Z;
  nr_published_at : string;
  nr_title : string;
  nr_body : string;
  nr_url : string;
  nr_raw_hash : string
}.

(** [event_tickers] *)
Record EventTickerRow : Type := {
  etr_news_id : Z;
  etr_ticker : string;
  etr_company_name : string;
  etr_map_confidence : float;
  etr_mapping_method : string
}.

(** [signal_scores]; also the [payload] dict of [insert_signal]. *)
Record SignalRow : Type := {
  sr_news_id : Z;
  sr_event_ticker_id : Z;
  sr_ticker : string;
  sr_raw_score : float;
  sr_total_score : float;
  sr_components : string;
  sr_priced_in_flag : string;
  sr_decision : string
}.

(** The [status] column of [positions]; the code only ever writes the
    literals below. *)
Inductive PositionStatus : Type :=
| PENDING_ENTRY | OPEN | PARTIAL_EXIT | CLOSED | CANCELLED.

#[global] Instance PositionStatus_eq_dec : EqDecision PositionStatus.
Proof. solve_decision. Defined.

(** [positions] *)
Record PositionRow : Type := {
  pos_ticker : string;
  pos_signal_id : Z;
  pos_status : PositionStatus;
  pos_qty : float;
  pos_avg_entry_price : option float;
  pos_opened_value : option float;
  pos_leverage : float;
  pos_closed_at : option string;
  pos_exit_reason_code : option string
}.

(** [orders] *)
Record OrderRow : Type := {
  ord_position_id : Z;
  ord_signal_id : Z;
  ord_ticker : string;
  ord_side : string;
  ord_qty : float;
  ord_order_type : string;
  ord_price : option float;
  ord_status : string;
  ord_broker_order_id : option string;
  ord_attempt_no : Z;
  ord_filled_at : option string
}.

(** [position_events] *)
Record PositionEventRow : Type := {
  pev_position_id : Z;
  pev_event_type : string;
  pev_action : string;
  pev_reason_code : string;
  pev_detail_json : string;
  pev_idempotency_key : option string
}.

(** [risk_state], keyed by [trade_date] *)
Record RiskStateRow : Type := {
  rs_daily_realized_pnl : float;
  rs_daily_unrealized_pnl : float;
  rs_daily_loss_limit_hit : Z;
  rs_consecutive_losses : Z;
  rs_cooldown_until : option string;
  rs_trading_enabled : Z
}.

(** [parameter_registry], keyed by its unique [name] *)
Record ParameterRow : Type := {
  par_id : Z;
  par_value_json : string;
  par_scope : string;
  par_tune_required : Z;
  par_target_phase : option string;
  par_rationale : option string;
  par_evidence_link : option string
}.

Record Store : Type := {
  news_events : Table NewsRow;
  event_tickers : Table EventTickerRow;
  signal_scores : Table SignalRow;
  positions : Table PositionRow;
  orders : Table OrderRow;
  position_events : Table PositionEventRow;
  risk_state : gmap string RiskStateRow;
  parameter_registry : gmap string ParameterRow
}.

Definition empty_store : Store :=
  {| news_events := empty_table; event_tickers := empty_table;
     signal_scores := empty_table; positions := empty_table;
     orders := empty_table; position_events := empty_table;
     risk_state := ∅; parameter_registry := ∅ |}.

Definition set_news_events (t : Table NewsRow) (s : Store) : Store :=
  {| news_events := t; event_tickers := event_tickers s;
     signal_scores := signal_scores s; positions := positions s;
     orders := orders s; position_events := position_events s;
     risk_state := risk_state s; parameter_registry := parameter_registry s |}.

Definition set_event_tickers (t : Table EventTickerRow) (s : Store) : Store :=
  {| news_events := news_events s; event_tickers := t;
     signal_scores := signal_scores s; positions := positions s;
     orders := orders s; position_events := position_events s;
     risk_state := risk_state s; parameter_registry := parameter_registry s |}.

Definition set_signal_scores (t : Table SignalRow) (s : Store) : Store :=
  {| news_events := news_events s; event_tickers := event_tickers s;
     signal_scores := t; positions := positions s;
     orders := orders s; position_events := position_events s;
     risk_state := risk_state s; parameter_registry := parameter_registry s |}.

Definition set_positions (t : Table PositionRow) (s : Store) : Store :=
  {| news_events := news_events s; event_tickers := event_tickers s;
     signal_scores := signal_scores s; positions := t;
     orders := orders s; position_events := position_events s;
     risk_state := risk_state s; parameter_registry := parameter_registry s |}.

Definition set_orders (t : Table OrderRow) (s : Store) : Store :=
  {| news_events := news_events s; event_tickers := event_tickers s;
     signal_scores := signal_scores s; positions := positions s;
     orders := t; position_events := position_events s;
     risk_state := risk_state s; parameter_registry := parameter_registry s |}.

Definition set_position_events (t : Table PositionEventRow) (s : Store) : Store :=
  {| news_events := news_events s; event_tickers := event_tickers s;
     signal_scores := signal_scores s; positions := positions s;
     orders := orders s; position_events := t;
     risk_state := risk_state s; parameter_registry := parameter_registry s |}.

Definition set_risk_state (m : gmap string RiskStateRow) (s : Store) : Store :=
  {| news_events := news_events s; event_tickers := event_tickers s;
     signal_scores := signal_scores s; positions := positions s;
     orders := orders s; position_events := position_events s;
     risk_state := m; parameter_registry := parameter_registry s |}.

Definition set_parameter_registry (m : gmap string ParameterRow) (s : Store) : Store :=
  {| news_events := news_events s; event_tickers := event_tickers s;
     signal_scores := signal_scores s; positions := positions s;
     orders := orders s; position_events := position_events s;
     risk_state := risk_state s; parameter_registry := m |}.

(** ** app/storage/db.py: the connection *)

(** A [sqlite3] connection: the committed database and, while a transaction
    is open, the transaction's working copy. *)
Record DB : Type := {
  committed : Store;
  tx : option Store
}.

(** What a statement of this connection sees. *)
Definition view (db : DB) : Store := default (committed db) (tx db).

Definition connect (s : Store) : DB := {| committed := s; tx := None |}.

(** A [DB] method: it returns or raises, and leaves a connection behind. *)
Definition Sql (A : Type) : Type := DB -> Result A * DB.

(** [conn.execute("BEGIN")] *)
Definition begin : Sql unit := λ db,
  match tx db with
  | None => (Ok tt, {| committed := committed db; tx := Some (committed db) |})
  | Some _ =>
      (Raise (SqliteOperationalError "cannot start a transaction within a transaction"), db)
  end.

Definition commit (db : DB) : DB := {| committed := view db; tx := None |}.

Definition rollback (db : DB) : DB := {| committed := committed db; tx := None |}.

(** An INSERT or UPDATE: the [sqlite3] module opens a transaction first when
    none is open; the statement then rewrites the working copy. *)
Definition execute_dml (f : Store -> Store) (db : DB) : DB :=
  {| committed := committed db; tx := Some (f (view db)) |}.

(** [if autocommit: self.conn.commit()] *)
Definition maybe_commit (autocommit : bool) (db : DB) : DB :=
  if autocommit then commit db else db.

(** ** app/storage/db.py: the methods *)

(** A [float] bound to a [real not null] column: the [sqlite3] module hands a
    NaN to the engine as NULL, which the column refuses. *)
Definition not_null_real (column : string) (f : float) : option string :=
  if PrimFloat.is_nan f then Some ("NOT NULL constraint failed: " +:+ column) else None.

(** The first constraint of [news_events] that an INSERT of [r] violates. *)
Definition news_violation (r : NewsRow) (m : gmap Z NewsRow) : option string :=
  if negb (bool_decide (nr_tier r ∈ [1; 2; 3])) then
    Some "CHECK constraint failed: tier in (1,2,3)"
  else if bool_decide (map_Exists (λ _ r', nr_url r' = nr_url r) m) then
    Some "UNIQUE constraint failed: news_events.url"
  else if bool_decide (map_Exists (λ _ r', nr_raw_hash r' = nr_raw_hash r) m) then
    Some "UNIQUE constraint failed: news_events.raw_hash"
  else None.

(** [cur.execute("insert into news_events ...")] *)
Definition sql_insert_news (r : NewsRow) : Sql Z := λ db,
  match news_violation r (rows (news_events (view db))) with
  | Some msg => (Raise (SqliteIntegrityError msg), execute_dml id db)
  | None =>
      let '(rowid, t) := table_insert r (news_events (view db)) in
      (Ok rowid, execute_dml (set_news_events t) db)
  end.

Definition insert_news_if_new (item : NewsRow) (autocommit : bool) : Sql (option Z) := λ db,
  match sql_insert_news item db with
  | (Ok rowid, db') => (Ok (Some rowid), maybe_commit autocommit db')
  | (Raise (SqliteIntegrityError _), db') => (Ok None, db')
  | (Raise e, db') => (Raise e, db')
  end.

Definition insert_event_ticker (news_id : Z) (ticker company_name : string)
    (confidence : float) (method : string) (autocommit : bool) : Sql Z := λ db,
  let r := {| etr_news_id := news_id; etr_ticker := ticker;
              etr_company_name := company_name; etr_map_confidence := confidence;
              etr_mapping_method := method |} in
  match not_null_real "event_tickers.map_confidence" confidence with
  | Some msg => (Raise (SqliteIntegrityError msg), execute_dml id db)
  | None =>
      let '(rowid, t) := table_insert r (event_tickers (view db)) in
      (Ok rowid, maybe_commit autocommit (execute_dml (set_event_tickers t) db))
  end.

(** [dict(row)]: the row together with its [id]. *)
Definition get_event_ticker (event_ticker_id : Z) (db : DB) : option (Z * EventTickerRow) :=
  (λ r, (event_ticker_id, r)) <$> rows (event_tickers (view db)) !! event_ticker_id.

(** The NOT NULL constraints of [signal_scores] that a NaN score violates;
    the engine tests them before the CHECKs. *)
Definition signal_not_null (r : SignalRow) : option string :=
  match not_null_real "signal_scores.raw_score" (sr_raw_score r) with
  | Some msg => Some msg
  | None => not_null_real "signal_scores.total_score" (sr_total_score r)
  end.

(** The first CHECK constraint of [signal_scores] that [r] violates. *)
Definition signal_violation (r : SignalRow) : option string :=
  if negb (PrimFloat.leb 0 (sr_total_score r) && PrimFloat.leb (sr_total_score r) 100) then
    Some "CHECK constraint failed: total_score >= 0 and total_score <= 100"
  else if negb (bool_decide (sr_priced_in_flag r ∈ ["LOW"; "MEDIUM"; "HIGH"])) then
    Some "CHECK constraint failed: priced_in_flag in ('LOW','MEDIUM','HIGH')"
  else if negb (bool_decide (sr_decision r ∈ ["BUY"; "HOLD"; "IGNORE"; "BLOCK"])) then
    Some "CHECK constraint failed: decision in ('BUY','HOLD','IGNORE','BLOCK')"
  else None.

Definition insert_signal (payload : SignalRow) (autocommit : bool) : Sql Z := λ db,
  match signal_not_null payload with
  | Some msg => (Raise (SqliteIntegrityError msg), execute_dml id db)
  | None =>
      match signal_violation payload with
      | Some msg => (Raise (SqliteIntegrityError msg), execute_dml id db)
      | None =>
          let '(rowid, t) := table_insert payload (signal_scores (view db)) in
          (Ok rowid, maybe_commit autocommit (execute_dml (set_signal_scores t) db))
      end
  end.

(** The row of [insert into positions(ticker,signal_id,status,qty)
    values(?,?,'PENDING_ENTRY',?)]. *)
Definition pending_position (ticker : string) (signal_id : Z) (qty : float) : PositionRow :=
  {| pos_ticker := ticker; pos_signal_id := signal_id;
     pos_status := PENDING_ENTRY; pos_qty := qty;
     pos_avg_entry_price := None; pos_opened_value := None;
     pos_leverage := 1%float; pos_closed_at := None;
     pos_exit_reason_code := None |}.

Definition create_position (ticker : string) (signal_id : Z) (qty : float)
    (autocommit : bool) : Sql Z := λ db,
  match not_null_real "positions.qty" qty with
  | Some msg => (Raise (SqliteIntegrityError msg), execute_dml id db)
  | None =>
      let '(rowid, t) := table_insert (pending_position ticker signal_id qty)
                           (positions (view db)) in
      (Ok rowid, maybe_commit autocommit (execute_dml (set_positions t) db))
  end.

(** [set status='OPEN', avg_entry_price=?, opened_value=?] *)
Definition opened (avg_entry_price opened_value : float) (p : PositionRow) : PositionRow :=
  {| pos_ticker := pos_ticker p; pos_signal_id := pos_signal_id p;
     pos_status := OPEN; pos_qty := pos_qty p;
     pos_avg_entry_price := Some avg_entry_price;
     pos_opened_value := Some opened_value;
     pos_leverage := pos_leverage p; pos_closed_at := pos_closed_at p;
     pos_exit_reason_code := pos_exit_reason_code p |}.

(** [set status='CLOSED', closed_at=current_timestamp, exit_reason_code=?] *)
Definition closed `{PyRuntime} (reason_code : string) (p : PositionRow) : PositionRow :=
  {| pos_ticker := pos_ticker p; pos_signal_id := pos_signal_id p;
     pos_status := CLOSED; pos_qty := pos_qty p;
     pos_avg_entry_price := pos_avg_entry_price p;
     pos_opened_value := pos_opened_value p;
     pos_leverage := pos_leverage p;
     pos_closed_at := Some current_timestamp;
     pos_exit_reason_code := Some reason_code |}.

(** [update positions set ... where position_id=? and status=expected]:
    the rewritten table and [cur.rowcount]. *)
Definition update_position_where (position_id : Z) (expected : PositionStatus)
    (f : PositionRow -> PositionRow) (t : Table PositionRow) : Table PositionRow * Z :=
  match rows t !! position_id with
  | Some p =>
      if decide (pos_status p = expected)
      then ({| rows := <[position_id := f p]> (rows t); seq := seq t |}, 1)
      else (t, 0)
  | None => (t, 0)
  end.

Definition set_position_open (position_id : Z) (avg_entry_price opened_value : float)
    (autocommit : bool) : Sql unit := λ db,
  let '(t, rowcount) :=
    update_position_where position_id PENDING_ENTRY (opened avg_entry_price opened_value)
      (positions (view db)) in
  let db' := execute_dml (set_positions t) db in
  if rowcount =? 0 then
    (Raise (IllegalTransitionError
              ("Invalid transition to OPEN for position_id=" +:+ str_int position_id)), db')
  else (Ok tt, maybe_commit autocommit db').

Definition set_position_closed `{PyRuntime} (position_id : Z) (reason_code : string)
    (autocommit : bool) : Sql unit := λ db,
  let '(t, rowcount) :=
    update_position_where position_id OPEN (closed reason_code) (positions (view db)) in
  let db' := execute_dml (set_positions t) db in
  if rowcount =? 0 then
    (Raise (IllegalTransitionError
              ("Invalid transition to CLOSED for position_id=" +:+ str_int position_id)), db')
  else (Ok tt, maybe_commit autocommit db').

(** The first CHECK constraint of [orders] that [r] violates. *)
Definition order_violation (r : OrderRow) : option string :=
  if negb (bool_decide (ord_side r ∈ ["BUY"; "SELL"])) then
    Some "CHECK constraint failed: side in ('BUY','SELL')"
  else if negb (bool_decide (ord_order_type r ∈ ["MARKET"; "LIMIT"; "STOP"; "STOP_LIMIT"])) then
    Some "CHECK constraint failed: order_type in ('MARKET','LIMIT','STOP','STOP_LIMIT')"
  else if negb (bool_decide (ord_status r ∈
      ["NEW"; "SENT"; "PARTIAL_FILLED"; "FILLED"; "CANCELLED"; "REJECTED"; "EXPIRED"])) then
    Some "CHECK constraint failed: status"
  else None.

(** The row of [insert into orders(...)]; the other columns take their
    defaults. *)
Definition new_order (position_id signal_id : Z) (ticker side : string) (qty : float)
    (order_type status : string) (price : option float) : OrderRow :=
  {| ord_position_id := position_id; ord_signal_id := signal_id;
     ord_ticker := ticker; ord_side := side; ord_qty := qty;
     ord_order_type := order_type; ord_price := price; ord_status := status;
     ord_broker_order_id := None; ord_attempt_no := 1;
     ord_filled_at := None |}.

Definition insert_order (position_id signal_id : Z) (ticker side : string) (qty : float)
    (order_type status : string) (price : option float) (autocommit : bool) : Sql Z := λ db,
  let r := new_order position_id signal_id ticker side qty order_type status price in
  match not_null_real "orders.qty" qty with
  | Some msg => (Raise (SqliteIntegrityError msg), execute_dml id db)
  | None =>
      match order_violation r with
      | Some msg => (Raise (SqliteIntegrityError msg), execute_dml id db)
      | None =>
          let '(rowid, t) := table_insert r (orders (view db)) in
          (Ok rowid, maybe_commit autocommit (execute_dml (set_orders t) db))
      end
  end.

Definition fill_order `{PyRuntime} (price : float) (o : OrderRow) : OrderRow :=
  {| ord_position_id := ord_position_id o; ord_signal_id := ord_signal_id o;
     ord_ticker := ord_ticker o; ord_side := ord_side o; ord_qty := ord_qty o;
     ord_order_type := ord_order_type o; ord_price := Some price;
     ord_status := "FILLED"; ord_broker_order_id := ord_broker_order_id o;
     ord_attempt_no := ord_attempt_no o; ord_filled_at := Some current_timestamp |}.

(** [update orders set status='FILLED', price=?, filled_at=current_timestamp
    where id=?] *)
Definition mark_order_filled `{PyRuntime} (order_id : Z) (price : float) (s : Store) : Store :=
  set_orders {| rows := alter (fill_order price) order_id (rows (orders s));
                seq := seq (orders s) |} s.

Definition update_order_filled `{PyRuntime} (order_id : Z) (price : float)
    (autocommit : bool) : Sql unit := λ db,
  (Ok tt, maybe_commit autocommit (execute_dml (mark_order_filled order_id price) db)).

Definition position_event_violation (r : PositionEventRow) (m : gmap Z PositionEventRow)
  : option string :=
  if negb (bool_decide (pev_event_type r ∈
      ["ENTRY"; "ADD"; "PARTIAL_EXIT"; "FULL_EXIT"; "BLOCK"])) then
    Some "CHECK constraint failed: event_type"
  else if negb (bool_decide (pev_action r ∈ ["EXECUTED"; "SKIPPED"; "BLOCKED"])) then
    Some "CHECK constraint failed: action in ('EXECUTED','SKIPPED','BLOCKED')"
  else
    match pev_idempotency_key r with
    | Some k =>
        if bool_decide (map_Exists (λ _ r', pev_idempotency_key r' = Some k) m) then
          Some "UNIQUE constraint failed: position_events.idempotency_key"
        else None
    | None => None   (* NULL keys never collide *)
    end.

(** [cur.execute("insert into position_events ...")] *)
Definition sql_insert_position_event (r : PositionEventRow) : Sql Z := λ db,
  match position_event_violation r (rows (position_events (view db))) with
  | Some msg => (Raise (SqliteIntegrityError msg), execute_dml id db)
  | None =>
      let '(rowid, t) := table_insert r (position_events (view db)) in
      (Ok rowid, execute_dml (set_position_events t) db)
  end.

(** The row of [insert into position_events(...)]. *)
Definition new_position_event (position_id : Z)
    (event_type action reason_code detail_json : string)
    (idempotency_key : option string) : PositionEventRow :=
  {| pev_position_id := position_id; pev_event_type := event_type;
     pev_action := action; pev_reason_code := reason_code;
     pev_detail_json := detail_json;
     pev_idempotency_key := idempotency_key |}.

Definition insert_position_event (position_id : Z)
    (event_type action reason_code detail_json : string)
    (idempotency_key : option string) (autocommit : bool) : Sql (option Z) := λ db,
  let r := new_position_event position_id event_type action reason_code detail_json
             idempotency_key in
  match sql_insert_position_event r db with
  | (Ok rowid, db') => (Ok (Some rowid), maybe_commit autocommit db')
  | (Raise (SqliteIntegrityError _), db') => (Ok None, db')   (* idempotency key conflict *)
  | (Raise e, db') => (Raise e, db')
  end.

Definition default_risk_state : RiskStateRow :=
  {| rs_daily_realized_pnl := 0%float; rs_daily_unrealized_pnl := 0%float;
     rs_daily_loss_limit_hit := 0; rs_consecutive_losses := 0;
     rs_cooldown_until := None; rs_trading_enabled := 1 |}.

(** [insert or ignore into risk_state(trade_date) values(?)] *)
Definition insert_or_ignore_risk_state (trade_date : string) (s : Store) : Store :=
  match risk_state s !! trade_date with
  | Some _ => s
  | None => set_risk_state (<[trade_date := default_risk_state]> (risk_state s)) s
  end.

Definition ensure_risk_state_today (trade_date : string) (autocommit : bool) : Sql unit := λ db,
  (Ok tt, maybe_commit autocommit (execute_dml (insert_or_ignore_risk_state trade_date) db)).

(** [dict(row)] of a [risk_state] row, as its integer-valued entries. *)
Definition risk_state_dict (r : RiskStateRow) : gmap string Z :=
  list_to_map [("daily_loss_limit_hit", rs_daily_loss_limit_hit r);
               ("consecutive_losses", rs_consecutive_losses r);
               ("trading_enabled", rs_trading_enabled r)].

Definition get_risk_state (trade_date : string) (db : DB) : option (gmap string Z) :=
  risk_state_dict <$> risk_state (view db) !! trade_date.

(** Python's [None] is [JNull]: a missing row, unparsable text and the JSON
    text [null] all come back as [None]. *)
Definition get_parameter `{PyRuntime} (name : string) (db : DB) : json :=
  match parameter_registry (view db) !! name with
  | None => JNull
  | Some row => default JNull (json_loads (par_value_json row))
  end.

Definition score_weight_keys : list string :=
  ["impact"; "source_reliability"; "novelty"; "market_reaction"; "liquidity"].

(** [{k: float(raw[k]) for k in keys}]: [None] when a step raises. *)
Fixpoint collect_weights `{PyRuntime} (raw : json) (keys : list string)
  : option (gmap string float) :=
  match keys with
  | [] => Some ∅
  | k :: rest =>
      match subscript raw k with
      | Some v =>
          match py_float v with
          | Some f =>
              match collect_weights raw rest with
              | Some m => Some (<[k := f]> m)
              | None => None
              end
          | None => None
          end
      | None => None
      end
  end.

Definition get_score_weights `{PyRuntime} (db : DB) : option (gmap string float) :=
  let raw := get_parameter "score_weights" db in
  if negb (truthy raw) then None
  else collect_weights raw score_weight_keys.

(** The text that [init] seeds: [{"impact":0.30,...,"liquidity":0.15}], with
    the quote character written by its code. *)
Definition quoted (k : string) : string :=
  String (Ascii.ascii_of_nat 34) (k +:+ String (Ascii.ascii_of_nat 34) EmptyString).

Definition seed_score_weights : string :=
  "{" +:+ quoted "impact" +:+ ":0.30," +:+ quoted "source_reliability" +:+ ":0.20,"
      +:+ quoted "novelty" +:+ ":0.20," +:+ quoted "market_reaction" +:+ ":0.15,"
      +:+ quoted "liquidity" +:+ ":0.15}".

(** [init]: the tables are there from the start in this model, so what is
    left is the [insert or ignore] of the seed parameter, and the commit. *)
Definition insert_or_ignore_seed (s : Store) : Store :=
  match parameter_registry s !! "score_weights" with
  | Some _ => s
  | None =>
      set_parameter_registry
        (<["score_weights" :=
             {| par_id := 1 + map_fold (λ _ r acc, Z.max (par_id r) acc) 0 (parameter_registry s);
                par_value_json := seed_score_weights; par_scope := "global";
                par_tune_required := 0; par_target_phase := None;
                par_rationale := Some "v1.2.3 base"; par_evidence_link := None |}]>
           (parameter_registry s)) s
  end.

Definition init (db : DB) : DB := commit (execute_dml insert_or_ignore_seed db).

(** ** app/main.py: the process state and its effects *)

(** What a run of the pipeline can touch: the connection, the module-level
    [kill_switch], the lines handed to [log_and_notify], and the storage
    engine's failures.  [faults = Some n] lets [n] more storage calls through
    and makes the next one raise [sqlite3.OperationalError]; [None] is a
    healthy engine. *)
Record World : Type := {
  conn : DB;
  kill_switch : KillSwitch;
  log : list string;
  faults : option nat
}.

Definition set_conn (db : DB) (w : World) : World :=
  {| conn := db; kill_switch := kill_switch w; log := log w; faults := faults w |}.

Definition set_log (l : list string) (w : World) : World :=
  {| conn := conn w; kill_switch := kill_switch w; log := l; faults := faults w |}.

Definition set_faults (f : option nat) (w : World) : World :=
  {| conn := conn w; kill_switch := kill_switch w; log := log w; faults := f |}.

(** A computation of the pipeline: it returns or raises, and leaves a world. *)
Definition M (A : Type) : Type := World -> Result A * World.

#[global] Instance M_ret : MRet M := λ A a w, (Ok a, w).

#[global] Instance M_bind : MBind M := λ A B k m w,
  match m w with
  | (Ok a, w') => k a w'
  | (Raise e, w') => (Raise e, w')
  end.

Definition lift_result {A : Type} (r : Result A) : M A := λ w, (r, w).

Definition storage_fault : M unit := λ w,
  match faults w with
  | Some O => (Raise (SqliteOperationalError "disk I/O error"), set_faults None w)
  | Some (S n) => (Ok tt, set_faults (Some n) w)
  | None => (Ok tt, w)
  end.

(** A call of a [DB] method that runs SQL. *)
Definition run_sql {A : Type} (op : Sql A) : M A := λ w,
  let '(r, db') := op (conn w) in (r, set_conn db' w).

Definition db_call {A : Type} (op : Sql A) : M A := storage_fault ;; run_sql op.

(** A call of a [DB] method that only SELECTs. *)
Definition db_read {A : Type} (q : DB -> A) : M A :=
  db_call (λ db, (Ok (q db), db)).

Definition db_commit : M unit := db_call (λ db, (Ok tt, commit db)).

Definition db_rollback : M unit := λ w, (Ok tt, set_conn (rollback (conn w)) w).

(** [kill_switch.enabled], as [can_trade] finds it. *)
Definition read_kill_switch : M KillSwitch := λ w, (Ok (kill_switch w), w).

(** [log_and_notify]: the line is logged; the notification is best effort and
    swallows its own failures. *)
Definition log_and_notify (text : string) : M unit := λ w,
  (Ok tt, set_log (log w ++ [text]) w).

(** [try: body  except Exception: db.rollback(); raise] *)
Definition try_rollback_raise {A : Type} (body : M A) : M A := λ w,
  match body w with
  | (Raise e, w') => (Raise e, set_conn (rollback (conn w')) w')
  | r => r
  end.

(** ** app/main.py: Tx #1 *)

Record SignalBundle : Type := {
  signal_id : Z;
  ticker : string
}.

Definition components : json :=
  JObj (list_to_map [("impact", JInt 75); ("source_reliability", JInt 70);
                     ("novelty", JInt 90); ("market_reaction", JInt 50);
                     ("liquidity", JInt 50); ("risk_penalty", JInt 10);
                     ("freshness_weight", JFloat 1%float)]).

Definition components_input : ScoreInput :=
  {| impact := 75; source_reliability := 70; novelty := 90;
     market_reaction := 50; liquidity := 50; risk_penalty := 10 |}.

(** The [OrderRequest] of the entry order. *)
Definition buy_request (signal_id : Z) (ticker : string) (qty : float) : OrderRequest :=
  {| rq_signal_id := signal_id; rq_ticker := ticker; rq_side := "BUY"; rq_qty := qty;
     rq_order_type := "MARKET"; rq_expected_price := Some 83500%float |}.

(** The [item] dict that Tx #1 hands to [insert_news_if_new]. *)
Definition news_item (news : NewsItem) (raw_hash : string) : NewsRow :=
  {| nr_source := ni_source news; nr_tier := ni_tier news;
     nr_published_at := ni_published_at news;
     nr_title := ni_title news; nr_body := ni_body news;
     nr_url := ni_url news; nr_raw_hash := raw_hash |}.

Section Pipeline.
Context `{PyRuntime}.

(** The body of [ingest_and_create_signal], for the item that the feed hands
    over and the mapper in use. *)
Definition ingest_and_create_signal_from (news : NewsItem)
    (mapper : string -> option MappingResult) : M (option SignalBundle) :=
  let raw_hash := build_hash news in
  db_call begin ;;
  try_rollback_raise (
    news_id ← db_call (insert_news_if_new (news_item news raw_hash) false);
    match news_id with
    | None => db_rollback ;; log_and_notify "DUP_NEWS_SKIPPED" ;; mret None
    | Some news_id =>
      match mapper (ni_title news +:+ " " +:+ ni_body news) with
      | None => db_rollback ;; log_and_notify "NO_MAPPING" ;; mret None
      | Some mapping =>
        event_ticker_id ← db_call (insert_event_ticker news_id (mr_ticker mapping)
                             (mr_company_name mapping) (mr_confidence mapping)
                             (mr_method mapping) false);
        row ← db_read (get_event_ticker event_ticker_id);
        match row with
        | None => db_rollback ;; log_and_notify "EVENT_TICKER_NOT_FOUND" ;; mret None
        | Some (row_id, row) =>
          let event_ticker :=
            {| et_id := row_id; et_news_id := etr_news_id row;
               et_map_confidence := etr_map_confidence row |} in
          lift_result (validate_signal_binding news_id event_ticker default_min_conf) ;;
          weights ← db_read get_score_weights;
          let '(raw_score, total_score) := compute_scores components_input weights in
          signal_id ← db_call (insert_signal
                         {| sr_news_id := news_id; sr_event_ticker_id := event_ticker_id;
                            sr_ticker := mr_ticker mapping; sr_raw_score := raw_score;
                            sr_total_score := total_score;
                            sr_components := json_dumps components;
                            sr_priced_in_flag := "LOW"; sr_decision := "BUY" |} false);
          db_commit ;;
          mret (Some {| signal_id := signal_id; ticker := mr_ticker mapping |})
        end
      end
    end).

(** [ingest_and_create_signal(db)]; [now] is the clock reading that
    [sample_news] stamps on the item. *)
Definition ingest_and_create_signal (now : string) : M (option SignalBundle) :=
  ingest_and_create_signal_from (sample_news now) map_ticker.

(** ** app/main.py: Tx #2 and Tx #3 *)

Context `{BrokerBase}.

(** Tx #2.  [None]: the function has returned [False]; [Some position_id]:
    the entry is committed and control falls through to Tx #3. *)
Definition execute_signal_entry (trade_date : string) (signal_id : Z) (ticker : string)
    (qty : float) : M (option Z) :=
  db_call begin ;;
  try_rollback_raise (
    db_call (ensure_risk_state_today trade_date false) ;;
    rs ← db_read (get_risk_state trade_date);
    match rs with
    | None => db_rollback ;; log_and_notify "BLOCKED:RISK_STATE_MISSING" ;; mret None
    | Some _ =>
      ks ← read_kill_switch;
      let risk := can_trade ks rs in
      if negb (allowed risk) then
        db_rollback ;;
        log_and_notify ("BLOCKED:" +:+ default "None" (reason_code risk)) ;;
        mret None
      else
        position_id ← db_call (create_position ticker signal_id qty false);
        order_id ← db_call (insert_order position_id signal_id ticker "BUY" qty
                              "MARKET" "SENT" None false);
        result ← lift_result (send_order (buy_request signal_id ticker qty));
        if negb (String.eqb (res_status result) "FILLED") then
          db_call (insert_position_event position_id "BLOCK" "BLOCKED"
                     (str_or (res_reason_code result) "ORDER_NOT_FILLED")
                     (json_dumps (JObj (list_to_map [("signal_id", JInt signal_id);
                                                     ("order_id", JInt order_id)])))
                     (Some ("block:" +:+ str_int position_id +:+ ":" +:+ str_int order_id))
                     false) ;;
          db_rollback ;;
          log_and_notify ("BLOCKED:" +:+ str_or (res_reason_code result) "ORDER_NOT_FILLED") ;;
          mret None
        else
          db_call (update_order_filled order_id (res_avg_price result) false) ;;
          db_call (set_position_open position_id (res_avg_price result)
                     (res_avg_price result * qty)%float false) ;;
          let entry_key := "entry:" +:+ str_int position_id +:+ ":" +:+ str_int order_id in
          first_event_id ← db_call (insert_position_event position_id "ENTRY" "EXECUTED"
                     "ENTRY_FILLED"
                     (json_dumps (JObj (list_to_map
                        [("signal_id", JInt signal_id); ("order_id", JInt order_id);
                         ("filled_qty", JFloat (res_filled_qty result));
                         ("avg_price", JFloat (res_avg_price result))])))
                     (Some entry_key) false);
          db_commit ;;
          log_and_notify ("ORDER_FILLED:" +:+ ticker +:+ "@" +:+ repr_float (res_avg_price result)
                          +:+ " (signal_id=" +:+ str_int signal_id
                          +:+ ", position_id=" +:+ str_int position_id
                          +:+ ", entry_event_id=" +:+ from_option str_int "None" first_event_id
                          +:+ ")") ;;
          mret (Some position_id)
    end).

(** Tx #3: simple close simulation (OPEN -> CLOSED). *)
Definition execute_signal_exit (signal_id : Z) (ticker : string) (qty : float)
    (position_id : Z) : M bool :=
  db_call begin ;;
  try_rollback_raise (
    exit_order_id ← db_call (insert_order position_id signal_id ticker "SELL" qty
                               "MARKET" "SENT" None false);
    db_call (update_order_filled exit_order_id 83600%float false) ;;
    db_call (set_position_closed position_id "TIME_EXIT" false) ;;
    db_call (insert_position_event position_id "FULL_EXIT" "EXECUTED" "TIME_EXIT"
               (json_dumps (JObj (list_to_map
                  [("signal_id", JInt signal_id); ("exit_order_id", JInt exit_order_id);
                   ("exit_price", JFloat 83600%float)])))
               (Some ("exit:" +:+ str_int position_id +:+ ":" +:+ str_int exit_order_id))
               false) ;;
    db_commit ;;
    log_and_notify ("POSITION_CLOSED:" +:+ str_int position_id +:+ " reason=TIME_EXIT") ;;
    mret true).

(** [execute_signal(db, signal_id, ticker, qty)]; [trade_date] is the reading
    of [datetime.now().date().isoformat()]. *)
Definition execute_signal (trade_date : string) (signal_id : Z) (ticker : string)
    (qty : float) : M bool :=
  entered ← execute_signal_entry trade_date signal_id ticker qty;
  match entered with
  | None => mret false
  | Some position_id => execute_signal_exit signal_id ticker qty position_id
  end.

End Pipeline.

(** [run_happy_path_demo] after [DB(...)]: [init], Tx #1, then Tx #2 and #3. *)
Definition run_happy_path_demo `{PyRuntime} `{BrokerBase} (now trade_date : string)
  : M unit :=
  run_sql (λ db, (Ok tt, init db)) ;;
  bundle ← ingest_and_create_signal now;
  match bundle with
  | None => mret tt
  | Some b => execute_signal trade_date (signal_id b) (ticker b) 1%float ;; mret tt
  end.

(** ** Specification-side definitions *)

(** The documented weights: the weight supplied for a component, and the
    built-in default for any weight not supplied. *)
Definition builtin_weight (k : string) : float :=
  if String.eqb k "impact" then 0.30%float
  else if String.eqb k "source_reliability" then 0.20%float
  else if String.eqb k "novelty" then 0.20%float
  else if String.eqb k "market_reaction" then 0.15%float
  else if String.eqb k "liquidity" then 0.15%float
  else 0%float.

Definition supplied_or_builtin (weights : option (gmap string float)) (k : string) : float :=
  match weights with
  | Some m => default (builtin_weight k) (m !! k)
  | None => builtin_weight k
  end.

(** The documented raw score: the weighted sum of the five components minus
    the risk penalty. *)
Definition weighted_sum_minus_penalty (inp : ScoreInput)
    (weights : option (gmap string float)) : float :=
  (supplied_or_builtin weights "impact" * impact inp
   + supplied_or_builtin weights "source_reliability" * source_reliability inp
   + supplied_or_builtin weights "novelty" * novelty inp
   + supplied_or_builtin weights "market_reaction" * market_reaction inp
   + supplied_or_builtin weights "liquidity" * liquidity inp
   - risk_penalty inp)%float.

(** The documented total score: the raw score clamped to [0, 100] -- the raw
    score itself when it lies strictly between the bounds, 100 when it is not
    below 100, and 0 otherwise. *)
Definition clamped_to_0_100 (v : float) : float :=
  if PrimFloat.ltb v 100 then (if PrimFloat.ltb 0 v then v else 0%float) else 100%float.

(** The documented fall-back: the weighted sum under the five built-in
    weights, minus the penalty. *)
Definition builtin_weighted_sum (inp : ScoreInput) : float :=
  (0.30 * impact inp + 0.20 * source_reliability inp + 0.20 * novelty inp
   + 0.15 * market_reaction inp + 0.15 * liquidity inp - risk_penalty inp)%float.

(** The three-rule risk gate as documented, first match first. *)
Definition risk_gate_rules (kill_switch_engaged : bool) (account_state : option (gmap string Z))
  : RiskDecision :=
  if kill_switch_engaged then {| allowed := false; reason_code := Some "KILL_SWITCH_ON" |}
  else match account_state with
       | Some d =>
           match d !! "trading_enabled" with
           | Some flag =>
               if decide (flag = 1) then {| allowed := true; reason_code := None |}
               else {| allowed := false; reason_code := Some "RISK_DISABLED" |}
           | None => {| allowed := true; reason_code := None |}
           end
       | None => {| allowed := true; reason_code := None |}
       end.

(** The table [position_events] after an INSERT of [r] was attempted: one
    more row, or the table as it was when a constraint refused the row; and
    the id the method hands back. *)
Definition after_insert_event (r : PositionEventRow) (t : Table PositionEventRow)
  : Table PositionEventRow :=
  match position_event_violation r (rows t) with
  | Some _ => t
  | None => (table_insert r t).2
  end.

Definition inserted_event_id (r : PositionEventRow) (t : Table PositionEventRow) : option Z :=
  match position_event_violation r (rows t) with
  | Some _ => None
  | None => Some (next_rowid t)
  end.

(** The same for [news_events]. *)
Definition after_insert_news (r : NewsRow) (t : Table NewsRow) : Table NewsRow :=
  match news_violation r (rows t) with
  | Some _ => t
  | None => (table_insert r t).2
  end.

(** How a computation treats the committed store and the engine's faults. *)

(** It never commits. *)
Definition keeps_committed {A : Type} (m : M A) : Prop :=
  ∀ w r w', m w = (r, w') → committed (conn w') = committed (conn w).

(** When it raises, it has not committed. *)
Definition raises_uncommitted {A : Type} (m : M A) : Prop :=
  ∀ w e w', m w = (Raise e, w') → committed (conn w') = committed (conn w).

Definition never_raises {A : Type} (m : M A) : Prop :=
  ∀ w e w', m w ≠ (Raise e, w').

Definition sql_keeps_committed {A : Type} (op : Sql A) : Prop :=
  ∀ db r db', op db = (r, db') → committed db' = committed db.

(** A run that returns did not meet a fault: on a healthy engine it returns
    the same value and leaves the same world. *)
Definition fault_blind {A : Type} (m : M A) : Prop :=
  ∀ w a w', m w = (Ok a, w') → m (set_faults None w) = (Ok a, set_faults None w').

(** ** Concrete runtimes, stores and worlds for the examples *)

(** A runtime whose [json.loads] reads the seeded weights text and nothing
    else, and whose other library functions are the simplest ones. *)
Definition toy_runtime : PyRuntime :=
  {| json_loads := λ s, if String.eqb s seed_score_weights
                        then Some (JObj (JFloat <$> DEFAULT_WEIGHTS)) else None;
     json_dumps := λ _, "{}";
     sha256_hexdigest := λ s, s;
     float_of_str := λ _, None;
     repr_float := λ _, "<float>";
     current_timestamp := "2026-01-01 00:00:00" |}.

(** A registry whose [score_weights] row holds a tuned weight for [impact]
    and nothing for the other four keys, and a runtime that parses it. *)
Definition partial_weights_text : string := "{" +:+ quoted "impact" +:+ ":0.9}".

Definition partial_runtime : PyRuntime :=
  {| json_loads := λ s, if String.eqb s partial_weights_text
                        then Some (JObj {["impact" := JFloat 0.9%float]}) else None;
     json_dumps := λ _, "{}";
     sha256_hexdigest := λ s, s;
     float_of_str := λ _, None;
     repr_float := λ _, "<float>";
     current_timestamp := "2026-01-01 00:00:00" |}.

Definition store_with_partial_weights : Store :=
  set_parameter_registry
    {["score_weights" :=
        {| par_id := 1; par_value_json := partial_weights_text; par_scope := "global";
           par_tune_required := 0; par_target_phase := None;
           par_rationale := None; par_evidence_link := None |}]} empty_store.

(** A registry whose [score_weights] row holds NaN for every weight, and a
    runtime that parses it ([json.loads] reads the literal NaN). *)
Definition nan_weights_text : string :=
  "{" +:+ quoted "impact" +:+ ":NaN," +:+ quoted "source_reliability" +:+ ":NaN,"
      +:+ quoted "novelty" +:+ ":NaN," +:+ quoted "market_reaction" +:+ ":NaN,"
      +:+ quoted "liquidity" +:+ ":NaN}".

Definition nan_runtime : PyRuntime :=
  {| json_loads := λ s, if String.eqb s nan_weights_text
                        then Some (JObj (JFloat <$> ((λ _, PrimFloat.nan) <$> DEFAULT_WEIGHTS)))
                        else None;
     json_dumps := λ _, "{}";
     sha256_hexdigest := λ s, s;
     float_of_str := λ _, None;
     repr_float := λ _, "<float>";
     current_timestamp := "2026-01-01 00:00:00" |}.

Definition store_with_nan_weights : Store :=
  set_parameter_registry
    {["score_weights" :=
        {| par_id := 1; par_value_json := nan_weights_text; par_scope := "global";
           par_tune_required := 0; par_target_phase := None;
           par_rationale := None; par_evidence_link := None |}]} empty_store.

(** A broker that rejects every order, as the tests patch it in. *)
Definition RejectingBroker : BrokerBase :=
  {| send_order := λ _, Ok {| res_status := "REJECTED"; res_filled_qty := 0;
                              res_avg_price := 0; res_reason_code := Some "SIM_REJECT" |} |}.

(** The process after [DB(...)]; [init()]: seeded store, kill switch off,
    nothing logged, healthy engine. *)
Definition world0 : World :=
  {| conn := init (connect empty_store); kill_switch := KillSwitch_init;
     log := []; faults := None |}.

Definition position_in (st : PositionStatus) : PositionRow :=
  {| pos_ticker := "005930"; pos_signal_id := 1; pos_status := st; pos_qty := 1;
     pos_avg_entry_price := None; pos_opened_value := None; pos_leverage := 1;
     pos_closed_at := None; pos_exit_reason_code := None |}.

(** A store holding one position, in the given status. *)
Definition store_with_position (st : PositionStatus) : Store :=
  set_positions {| rows := {[1 := position_in st]}; seq := 1 |} empty_store.

(** A mapper that binds every text to one instrument with confidence 0.50. *)
Definition low_confidence_mapper (_ : string) : option MappingResult :=
  Some {| mr_ticker := "005930"; mr_company_name := "Samsung Electronics";
          mr_confidence := 0.5%float; mr_method := "alias_dict" |}.

(** A news item like [sample_news] but of tier 4, which the CHECK of
    [news_events] refuses. *)
Definition tier4_news : NewsItem :=
  {| ni_source := "sample"; ni_tier := 4;
     ni_title := "삼성전자, 신규 반도체 투자 발표"; ni_body := "샘플 뉴스 본문";
     ni_url := "https://example.com/news/4";
     ni_published_at := "2026-01-01T00:00:00+00:00" |}.

(** A store whose event log already holds the key [entry:1:1]. *)
Definition store_with_entry_key : Store :=
  set_position_events
    {| rows := {[1 := new_position_event 1 "ENTRY" "EXECUTED" "ENTRY_FILLED" "{}"
                        (Some "entry:1:1")]};
       seq := 1 |} empty_store.

(** ** app/execution/kis_broker.py *)

(** [repr] of a list or a dict, which [str] falls back to for containers. *)
Class PyRepr : Type := {
  repr_container : json -> string
}.

(** [str(v)] *)
Definition py_str `{PyRuntime} `{PyRepr} (v : json) : string :=
  match v with
  | JNull => "None"
  | JBool b => if b then "True" else "False"
  | JInt z => str_int z
  | JFloat f => repr_float f
  | JStr s => s
  | JList _ | JObj _ => repr_container v
  end.

(** [d.get(k, dflt)]: only a dict has the method, every other value raises
    [AttributeError]. *)
Definition json_get (d : json) (k : string) (dflt : json) : Result json :=
  match d with
  | JObj kv => Ok (default dflt (kv !! k))
  | _ => Raise (BrokerError "AttributeError: object has no attribute 'get'")
  end.

(** [a or b] *)
Definition py_or (a b : json) : json := if truthy a then a else b.

(** [x or d] for an optional float: [None] and zero are both falsy. *)
Definition float_or (x : option float) (d : float) : float :=
  match x with
  | Some f => if PrimFloat.eqb f 0 then d else f
  | None => d
  end.

Definition Result_bind {A B : Type} (r : Result A) (k : A -> Result B) : Result B :=
  match r with
  | Ok a => k a
  | Raise e => Raise e
  end.

(** [m / d] rounded to the nearest integer, ties to the even one. *)
Definition round_half_even (m d : Z) : Z :=
  let q := m / d in
  let r := m mod d in
  if 2 * r <? d then q
  else if d <? 2 * r then q + 1
  else if Z.even q then q else q + 1.

(** [int(round(x))]: the integer nearest to [x], ties to even; [ValueError]
    on NaN and [OverflowError] on an infinity. *)
Definition py_round (x : float) : Result Z :=
  match Prim2SF x with
  | S754_nan => Raise (BrokerError "ValueError: cannot convert float NaN to integer")
  | S754_infinity _ =>
      Raise (BrokerError "OverflowError: cannot convert float infinity to integer")
  | S754_zero _ => Ok 0
  | S754_finite s m e =>
      let n := if 0 <=? e then Z.pos m * 2 ^ e
               else round_half_even (Z.pos m) (2 ^ (- e)) in
      Ok (if s then - n else n)
  end.

(** The float that an [int] field of a dataclass reads as. *)
Definition Z_to_float (z : Z) : float := SF2Prim (binary_normalize prec emax z 0 false).

(** The HTTP exchange of [_order_cash] for an order of [qty] shares, the token
    exchange included: the decoded body [r.json()], or the exception raised
    ([KISBrokerError], a transport error). *)
Class KISTransport : Type := {
  post_order_cash : OrderRequest -> Z -> Result json
}.

(** [_order_cash]: the quantity sent is [max(1, int(round(req.qty)))]. *)
Definition KISBroker_order_cash `{KISTransport} (req : OrderRequest) : Result json :=
  Result_bind (py_round (rq_qty req)) (λ n, post_order_cash req (Z.max 1 n)).

(** [KISBroker.send_order].  [filled_qty] is the [int] 0 or
    [max(1, int(round(req.qty)))]; the record holds it as that number. *)
Definition KISBroker_send_order `{PyRuntime} `{PyRepr} `{KISTransport} (req : OrderRequest)
  : Result OrderResult :=
  Result_bind (KISBroker_order_cash req) (λ data,
  Result_bind (json_get data "rt_cd" (JStr "")) (λ rt_cd,
  if negb (String.eqb (py_str rt_cd) "0") then
    Result_bind (json_get data "msg1" JNull) (λ msg1,
    Result_bind (json_get data "msg_cd" JNull) (λ msg_cd,
    let msg := py_or msg1 (py_or msg_cd (JStr "KIS_ORDER_REJECTED")) in
    Ok {| res_status := "REJECTED"; res_filled_qty := Z_to_float 0;
          res_avg_price := 0%float; res_reason_code := Some (py_str msg) |}))
  else
    Result_bind (json_get data "output" (JObj ∅)) (λ out,
    Result_bind (json_get out "ODNO" JNull) (λ odno_upper,
    Result_bind (json_get out "odno" JNull) (λ odno_lower,
    let ord_no := py_or odno_upper (py_or odno_lower (JStr "")) in
    let avg := float_or (rq_expected_price req) 0%float in
    Result_bind (py_round (rq_qty req)) (λ n,
    Ok {| res_status := "FILLED"; res_filled_qty := Z_to_float (Z.max 1 n);
          res_avg_price := avg;
          res_reason_code :=
            Some (if truthy ord_no then "ORDER_ACCEPTED:" +:+ py_str ord_no
                  else "ORDER_ACCEPTED") |})))))).

Definition KISBroker `{PyRuntime} `{PyRepr} `{KISTransport} : BrokerBase :=
  {| send_order := KISBroker_send_order |}.

(** ** Further concrete values for the examples *)

Definition toy_repr : PyRepr := {| repr_container := λ _, "<container>" |}.

(** A venue that accepts every order, answering as the fake session of
    [tests/test_kis_broker.py] does. *)
Definition accepting_transport : KISTransport :=
  {| post_order_cash := λ _ _,
       Ok (JObj (list_to_map
             [("rt_cd", JStr "0");
              ("output", JObj (list_to_map [("ODNO", JStr "12345")]))])) |}.

(** A venue that rejects every order. *)
Definition rejecting_transport : KISTransport :=
  {| post_order_cash := λ _ _,
       Ok (JObj (list_to_map [("rt_cd", JStr "1"); ("msg1", JStr "rejected")])) |}.

(** A broker whose transport fails. *)
Definition RaisingBroker : BrokerBase :=
  {| send_order := λ _, Raise (BrokerError "order failed: HTTP 500") |}.

(** A score input whose first component is NaN. *)
Definition nan_input : ScoreInput :=
  {| impact := PrimFloat.nan; source_reliability := 70; novelty := 90;
     market_reaction := 50; liquidity := 50; risk_penalty := 10 |}.

(** A news item that names no known company. *)
Definition unmapped_news : NewsItem :=
  {| ni_source := "sample"; ni_tier := 2;
     ni_title := "LG에너지솔루션, 신규 투자 발표"; ni_body := "본문";
     ni_url := "https://example.com/news/2";
     ni_published_at := "2026-01-01T00:00:00+00:00" |}.

(** The request that [tests/test_kis_broker.py] sends. *)
Definition kis_test_request : OrderRequest :=
  {| rq_signal_id := 1; rq_ticker := "005930"; rq_side := "BUY"; rq_qty := 1;
     rq_order_type := "MARKET"; rq_expected_price := Some 83500%float |}.

(** A store with one order, already CANCELLED. *)
Definition store_with_cancelled_order : Store :=
  set_orders {| rows := {[1 := new_order 1 1 "005930" "BUY" 1 "MARKET" "CANCELLED" None]};
                seq := 1 |} empty_store.

(** A store in which trading is disabled on 2026-01-01. *)
Definition store_with_disabled_day : Store :=
  set_risk_state {["2026-01-01" :=
     {| rs_daily_realized_pnl := 0; rs_daily_unrealized_pnl := 0;
        rs_daily_loss_limit_hit := 1; rs_consecutive_losses := 3;
        rs_cooldown_until := None; rs_trading_enabled := 0 |}]} empty_store.

(** ** Transaction discipline of the [DB] methods *)

(** A method called with [autocommit=True] that returns a value on which it
    has written: the connection is left idle, everything it saw -- its own
    row and whatever was pending before the call -- is committed, and it shows
    what the deferred call shows. *)
Definition commits_on_return {A : Type} (op : bool -> Sql A) (written : A -> bool) : Prop :=
  ∀ db a db', op true db = (Ok a, db') → written a = true →
    tx db' = None ∧ committed db' = view db'
    ∧ ∃ db'', op false db = (Ok a, db'') ∧ view db'' = view db'.

(** A call on an idle connection that has left the implicit transaction of
    its statement open: nothing is committed, a rollback brings the
    connection back, and until then [begin] is refused. *)
Definition left_in_transaction (db db' : DB) : Prop :=
  tx db' = Some (committed db)
  ∧ committed db' = committed db
  ∧ rollback db' = db
  ∧ begin db'
    = (Raise (SqliteOperationalError "cannot start a transaction within a transaction"), db').

(** A venue that answers with an empty object. *)
Definition silent_transport : KISTransport :=
  {| post_order_cash := λ _ _, Ok (JObj ∅) |}.

(** A connection inside a transaction that has written one position. *)
Definition db_with_pending_position : DB :=
  {| committed := empty_store; tx := Some (store_with_position OPEN) |}.

(** * Properties *)

(** ** Risk gate *)

(** C6. [can_trade] is the documented first-match-wins gate: an engaged kill
    switch blocks with KILL_SWITCH_ON whatever the risk state; otherwise a
    present [account_state] whose [trading_enabled] is not 1 blocks with
    RISK_DISABLED; otherwise trading is allowed.  Toggling the switch is seen
    by the next evaluation. *)
Theorem can_trade_first_match (ks : KillSwitch) (account_state : option (gmap string Z)) :
  can_trade ks account_state = risk_gate_rules (enabled ks) account_state
  ∧ can_trade (KillSwitch_on ks) account_state
    = {| allowed := false; reason_code := Some "KILL_SWITCH_ON" |}
  ∧ (∀ d flag, account_state = Some d → d !! "trading_enabled" = Some flag → flag ≠ 1 →
       can_trade (KillSwitch_off ks) account_state
       = {| allowed := false; reason_code := Some "RISK_DISABLED" |})
  ∧ ((account_state = None
      ∨ ∃ d, account_state = Some d ∧
             (d !! "trading_enabled" = None ∨ d !! "trading_enabled" = Some 1)) →
       can_trade (KillSwitch_off ks) account_state
       = {| allowed := true; reason_code := None |}).
Proof.
  repeat split.
  - unfold can_trade, risk_gate_rules.
    destruct (enabled ks); [done|].
    destruct account_state as [d|]; [|done].
    destruct (d !! "trading_enabled") as [flag|]; simpl; [|done].
    destruct (decide (flag = 1)) as [->|Hne]; [done|].
    by apply Z.eqb_neq in Hne as ->.
  - intros d flag -> Hflag Hne. unfold can_trade. simpl. rewrite Hflag. simpl.
    by apply Z.eqb_neq in Hne as ->.
  - intros [->|(d & -> & [Hflag|Hflag])]; unfold can_trade; simpl; by rewrite ?Hflag.
Qed.

Lemma can_trade_first_match_witness :
  can_trade (KillSwitch_off KillSwitch_init) (Some {["trading_enabled" := 0]})
  = {| allowed := false; reason_code := Some "RISK_DISABLED" |}
  ∧ can_trade (KillSwitch_off KillSwitch_init) (Some {["trading_enabled" := 1]})
    = {| allowed := true; reason_code := None |}.
Proof.
  split.
  - apply (can_trade_first_match KillSwitch_init (Some {["trading_enabled" := 0]}))
      with (d := {["trading_enabled" := 0]}) (flag := 0); [reflexivity|reflexivity|lia].
  - apply (can_trade_first_match KillSwitch_init (Some {["trading_enabled" := 1]})).
    right. exists {["trading_enabled" := 1]}. split; [reflexivity|right; reflexivity].
Defined.

(** ** Scorer *)

Lemma default_weights_lookup (k : string) :
  k ∈ score_weight_keys → DEFAULT_WEIGHTS !! k = Some (builtin_weight k).
Proof.
  unfold score_weight_keys. rewrite !elem_of_cons, elem_of_nil.
  intros [->|[->|[->|[->|[->|[]]]]]]; vm_compute; reflexivity.
Qed.

Lemma weight_merged (weights : option (gmap string float)) (k : string) :
  k ∈ score_weight_keys →
  weight (default ∅ weights ∪ DEFAULT_WEIGHTS) k = supplied_or_builtin weights k.
Proof.
  intros Hk. unfold weight, supplied_or_builtin.
  rewrite lookup_union, (default_weights_lookup k Hk).
  destruct weights as [m|]; simpl.
  - by destruct (m !! k).
  - by rewrite lookup_empty.
Qed.

(** Comparison on binary64: strictly below implies below-or-equal. *)
Lemma float_ltb_leb (x y : float) : PrimFloat.ltb x y = true → PrimFloat.leb x y = true.
Proof.
  rewrite ltb_spec, leb_spec. unfold SFltb, SFleb.
  by destruct (SFcompare (Prim2SF x) (Prim2SF y)) as [[]|].
Qed.

Lemma SFcompare_refl (s : spec_float) : s ≠ S754_nan → SFcompare s s = Some Eq.
Proof.
  destruct s as [[]|[]| |[] m e]; intros Hs; try done; cbn;
    by rewrite Z.compare_refl, Pos.compare_cont_refl.
Qed.

(** A NaN is below nothing, and nothing is below or equal to it. *)
Lemma float_nan_ltb (x y : float) : PrimFloat.is_nan x = true → PrimFloat.ltb x y = false.
Proof.
  unfold PrimFloat.is_nan. rewrite FloatAxioms.eqb_spec, ltb_spec. unfold SFeqb, SFltb.
  destruct (Prim2SF x) as [s|s| |s m e]; [| |done|]; by rewrite SFcompare_refl.
Qed.

Lemma float_ltb_not_nan (x y : float) :
  PrimFloat.ltb x y = true → PrimFloat.is_nan x = false.
Proof.
  intros Hlt. destruct (PrimFloat.is_nan x) eqn:Hnan; [|done].
  by rewrite float_nan_ltb in Hlt.
Qed.

Lemma float_leb_not_nan (x y : float) :
  PrimFloat.leb x y = true → PrimFloat.is_nan y = false.
Proof.
  unfold PrimFloat.is_nan. rewrite FloatAxioms.eqb_spec, leb_spec. unfold SFeqb, SFleb.
  destruct (Prim2SF y) as [s|s| |s m e]; try (by rewrite SFcompare_refl).
  by destruct (Prim2SF x).
Qed.

(** Whatever the raw score (NaN and infinities included), the clamped score
    passes the CHECK of [signal_scores]. *)
Lemma clamp_in_range (v : float) :
  PrimFloat.leb 0 (clamp v 0 100) = true ∧ PrimFloat.leb (clamp v 0 100) 100 = true.
Proof.
  unfold clamp, py_max, py_min.
  destruct (PrimFloat.ltb v 100) eqn:Hhi.
  - destruct (PrimFloat.ltb 0 v) eqn:Hlo.
    + split; by apply float_ltb_leb.
    + split; vm_compute; reflexivity.
  - split; vm_compute; reflexivity.
Qed.

Lemma clamp_cases (v : float) :
  (PrimFloat.ltb 0 v = true → PrimFloat.ltb v 100 = true → clamp v 0 100 = v)
  ∧ (PrimFloat.ltb v 100 = false → clamp v 0 100 = 100%float)
  ∧ (PrimFloat.ltb v 100 = true → PrimFloat.ltb 0 v = false → clamp v 0 100 = 0%float).
Proof.
  unfold clamp, py_max, py_min. split_and!.
  - intros Hlo Hhi. by rewrite Hhi, Hlo.
  - intros Hhi. by rewrite Hhi.
  - intros Hhi Hlo. by rewrite Hhi, Hlo.
Qed.

(** [max(lo, min(hi, v))] at the bounds 0 and 100 is the documented clamp. *)
Lemma clamp_documented (v : float) : clamp v 0 100 = clamped_to_0_100 v.
Proof.
  unfold clamp, clamped_to_0_100, py_max, py_min.
  by destruct (PrimFloat.ltb v 100).
Qed.

(** The stored total is the clamp of the stored raw score. *)
Lemma compute_scores_total (inp : ScoreInput) (weights : option (gmap string float)) :
  (compute_scores inp weights).2 = clamp (compute_scores inp weights).1 0 100.
Proof. reflexivity. Qed.

(** C8. For every input and every (possibly absent) weight mapping,
    [compute_scores] returns as raw score the weighted sum of the five
    components, each weight being the one supplied or else its built-in
    default 0.30/0.20/0.20/0.15/0.15, minus the risk penalty; and as total
    score that raw score clamped to [0, 100]: the total lies between 0 and
    100, it is the raw score when that lies strictly between the bounds, 100
    when the raw score is not below 100, and 0 otherwise. *)
Theorem compute_scores_weighted_sum (inp : ScoreInput) (weights : option (gmap string float)) :
  let raw := weighted_sum_minus_penalty inp weights in
  let total := (compute_scores inp weights).2 in
  compute_scores inp weights = (raw, clamped_to_0_100 raw)
  ∧ PrimFloat.leb 0 total = true ∧ PrimFloat.leb total 100 = true
  ∧ (PrimFloat.ltb 0 raw = true → PrimFloat.ltb raw 100 = true → total = raw)
  ∧ (PrimFloat.ltb raw 100 = false → total = 100%float)
  ∧ (PrimFloat.ltb raw 100 = true → PrimFloat.ltb 0 raw = false → total = 0%float)
  ∧ builtin_weight <$> score_weight_keys
    = [0.30%float; 0.20%float; 0.20%float; 0.15%float; 0.15%float].
Proof.
  intros raw total.
  assert (compute_scores inp weights = (raw, clamp raw 0 100)) as Heq.
  { unfold compute_scores, raw, weighted_sum_minus_penalty.
    rewrite !weight_merged; [reflexivity|unfold score_weight_keys; set_solver..]. }
  unfold total. rewrite Heq. cbn [fst snd].
  destruct (clamp_in_range raw) as [Hlo Hhi].
  destruct (clamp_cases raw) as (Hin & Habove & Hbelow).
  split_and!; try done.
  by rewrite clamp_documented.
Qed.

(** ** Signal integrity *)

Lemma validate_signal_binding_cases (input_news_id : Z) (et : EventTicker) (min_conf : float) :
  validate_signal_binding input_news_id et min_conf
  = if decide (et_news_id et = input_news_id)
    then if PrimFloat.ltb (et_map_confidence et) min_conf
         then Raise (IntegrityError "LOW_CONFIDENCE") else Ok tt
    else Raise (IntegrityError "NEWS_MISMATCH").
Proof.
  unfold validate_signal_binding.
  destruct (decide (et_news_id et = input_news_id)) as [Heq|Hne].
  - apply Z.eqb_eq in Heq. by rewrite Heq.
  - apply Z.eqb_neq in Hne. by rewrite Hne.
Qed.

(** ** Event store: connection *)

Lemma view_commit (db : DB) : view (commit db) = view db.
Proof. reflexivity. Qed.

Lemma view_execute_dml (f : Store → Store) (db : DB) : view (execute_dml f db) = f (view db).
Proof. reflexivity. Qed.

Lemma view_maybe_commit (ac : bool) (db : DB) : view (maybe_commit ac db) = view db.
Proof. by destruct ac. Qed.

Lemma committed_execute_dml (f : Store → Store) (db : DB) :
  committed (execute_dml f db) = committed db.
Proof. reflexivity. Qed.

Lemma set_positions_same (s : Store) : set_positions (positions s) s = s.
Proof. by destruct s. Qed.

(** ** Event store: guarded transitions *)

Lemma update_position_where_miss (position_id : Z) (expected : PositionStatus)
    (f : PositionRow → PositionRow) (t : Table PositionRow) :
  (∀ p, rows t !! position_id = Some p → pos_status p ≠ expected) →
  update_position_where position_id expected f t = (t, 0).
Proof.
  intros Hmiss. unfold update_position_where.
  destruct (rows t !! position_id) as [p|] eqn:Hp; [|done].
  destruct (decide (pos_status p = expected)) as [Heq|]; [|done].
  by destruct (Hmiss p).
Qed.

Lemma update_position_where_hit (position_id : Z) (expected : PositionStatus)
    (f : PositionRow → PositionRow) (t : Table PositionRow) (p : PositionRow) :
  rows t !! position_id = Some p → pos_status p = expected →
  update_position_where position_id expected f t
  = ({| rows := <[position_id := f p]> (rows t); seq := seq t |}, 1).
Proof.
  intros Hp Hst. unfold update_position_where. rewrite Hp.
  by destruct (decide (pos_status p = expected)).
Qed.

Section GuardedTransitions.
Context `{PyRuntime}.

(** C3. [set_position_open] on a position that is not PENDING_ENTRY (or is
    not there at all) raises IllegalTransition and changes no row, committed
    or not; likewise [set_position_closed] on a position that is not OPEN.
    The status test of the conditional update is the only guard: whenever
    the status is the expected one the transition is made. *)
Theorem guarded_transitions (db : DB) (position_id : Z) :
  (∀ avg val ac,
     (∀ p, rows (positions (view db)) !! position_id = Some p → pos_status p ≠ PENDING_ENTRY) →
     ∃ msg db', set_position_open position_id avg val ac db
                = (Raise (IllegalTransitionError msg), db')
                ∧ view db' = view db ∧ committed db' = committed db)
  ∧ (∀ reason ac,
     (∀ p, rows (positions (view db)) !! position_id = Some p → pos_status p ≠ OPEN) →
     ∃ msg db', set_position_closed position_id reason ac db
                = (Raise (IllegalTransitionError msg), db')
                ∧ view db' = view db ∧ committed db' = committed db)
  ∧ (∀ avg val ac p,
     rows (positions (view db)) !! position_id = Some p → pos_status p = PENDING_ENTRY →
     ∃ db' p', set_position_open position_id avg val ac db = (Ok tt, db')
               ∧ rows (positions (view db')) !! position_id = Some p'
               ∧ pos_status p' = OPEN
               ∧ pos_avg_entry_price p' = Some avg ∧ pos_opened_value p' = Some val)
  ∧ (∀ reason ac p,
     rows (positions (view db)) !! position_id = Some p → pos_status p = OPEN →
     ∃ db' p', set_position_closed position_id reason ac db = (Ok tt, db')
               ∧ rows (positions (view db')) !! position_id = Some p'
               ∧ pos_status p' = CLOSED ∧ pos_exit_reason_code p' = Some reason).
Proof.
  repeat split.
  - intros avg val ac Hmiss. unfold set_position_open.
    rewrite update_position_where_miss by done. simpl.
    eexists _, _. split; [reflexivity|].
    by rewrite view_execute_dml, set_positions_same.
  - intros reason ac Hmiss. unfold set_position_closed.
    rewrite update_position_where_miss by done. simpl.
    eexists _, _. split; [reflexivity|].
    by rewrite view_execute_dml, set_positions_same.
  - intros avg val ac p Hp Hst. unfold set_position_open.
    erewrite update_position_where_hit by done. simpl.
    eexists _, _. split; [reflexivity|].
    rewrite view_maybe_commit, view_execute_dml. simpl.
    by rewrite lookup_insert_eq.
  - intros reason ac p Hp Hst. unfold set_position_closed.
    erewrite update_position_where_hit by done. simpl.
    eexists _, _. split; [reflexivity|].
    rewrite view_maybe_commit, view_execute_dml. simpl.
    by rewrite lookup_insert_eq.
Qed.

End GuardedTransitions.

Lemma guarded_transitions_witness :
  (∃ msg db', @set_position_open 1 83500 83500 true (connect (store_with_position OPEN))
              = (Raise (IllegalTransitionError msg), db')
              ∧ view db' = store_with_position OPEN
              ∧ committed db' = store_with_position OPEN)
  ∧ (∃ msg db', @set_position_closed toy_runtime 1 "TIME_EXIT" true
                  (connect (store_with_position PENDING_ENTRY))
                = (Raise (IllegalTransitionError msg), db')
                ∧ view db' = store_with_position PENDING_ENTRY
                ∧ committed db' = store_with_position PENDING_ENTRY).
Proof.
  split.
  - apply (@guarded_transitions toy_runtime (connect (store_with_position OPEN)) 1).
    intros p Hp. vm_compute in Hp. by injection Hp as <-.
  - apply (@guarded_transitions toy_runtime (connect (store_with_position PENDING_ENTRY)) 1).
    intros p Hp. vm_compute in Hp. by injection Hp as <-.
Defined.

(** ** Event store: rowids *)

Lemma max_rowid_ge {A : Type} (m : gmap Z A) (k : Z) (x : A) :
  m !! k = Some x → k ≤ max_rowid m.
Proof.
  unfold max_rowid. revert k x.
  apply (map_fold_weak_ind (λ r m, ∀ k x, m !! k = Some x → k ≤ r)).
  - intros k x Hk. by rewrite lookup_empty in Hk.
  - intros i y m' r Hi IH k x Hk.
    destruct (decide (i = k)) as [->|Hne].
    + lia.
    + rewrite lookup_insert_ne in Hk by done. specialize (IH k x Hk). lia.
Qed.

Lemma next_rowid_fresh {A : Type} (t : Table A) : rows t !! next_rowid t = None.
Proof.
  destruct (rows t !! next_rowid t) as [x|] eqn:Hx; [|done].
  apply max_rowid_ge in Hx. unfold next_rowid in Hx. lia.
Qed.

Lemma table_insert_rows {A : Type} (row : A) (t : Table A) :
  rows (table_insert row t).2 = <[(table_insert row t).1 := row]> (rows t)
  ∧ rows t !! (table_insert row t).1 = None
  ∧ size (rows (table_insert row t).2) = S (size (rows t)).
Proof.
  unfold table_insert. simpl. split_and!; [done|apply next_rowid_fresh|].
  apply map_size_insert_None, next_rowid_fresh.
Qed.

(** ** Event store: idempotent position events *)

Lemma position_event_violation_ok (r : PositionEventRow) (m : gmap Z PositionEventRow) :
  pev_event_type r ∈ ["ENTRY"; "ADD"; "PARTIAL_EXIT"; "FULL_EXIT"; "BLOCK"] →
  pev_action r ∈ ["EXECUTED"; "SKIPPED"; "BLOCKED"] →
  (∀ k, pev_idempotency_key r = Some k →
        ¬ map_Exists (λ _ r', pev_idempotency_key r' = Some k) m) →
  position_event_violation r m = None.
Proof.
  intros Het Hact Hkey. unfold position_event_violation.
  rewrite !bool_decide_eq_true_2 by done. simpl.
  destruct (pev_idempotency_key r) as [k|]; [|done].
  by rewrite bool_decide_eq_false_2 by by apply Hkey.
Qed.

Lemma position_event_violation_taken (r : PositionEventRow) (m : gmap Z PositionEventRow)
    (k : string) :
  pev_idempotency_key r = Some k →
  map_Exists (λ _ r', pev_idempotency_key r' = Some k) m →
  is_Some (position_event_violation r m).
Proof.
  intros Hk Hex. unfold position_event_violation.
  repeat (case_match; [by eexists|]).
  rewrite Hk. by rewrite bool_decide_eq_true_2 by done.
Qed.

(** The second of two inserts under one key: no id, no row. *)
Lemma insert_position_event_taken (db : DB) (position_id : Z)
    (event_type action reason_code detail_json key : string) (ac : bool) :
  map_Exists (λ _ r', pev_idempotency_key r' = Some key) (rows (position_events (view db))) →
  ∃ db', insert_position_event position_id event_type action reason_code detail_json
           (Some key) ac db = (Ok None, db')
         ∧ view db' = view db ∧ committed db' = committed db.
Proof.
  intros Hex. unfold insert_position_event, sql_insert_position_event.
  edestruct position_event_violation_taken as [msg ->]; [|exact Hex|]; [done|].
  eexists. split; [reflexivity|]. done.
Qed.

(** The first insert under a fresh key: an id, and exactly one new row. *)
Lemma insert_position_event_fresh (db : DB) (position_id : Z)
    (event_type action reason_code detail_json : string) (key : option string) (ac : bool) :
  event_type ∈ ["ENTRY"; "ADD"; "PARTIAL_EXIT"; "FULL_EXIT"; "BLOCK"] →
  action ∈ ["EXECUTED"; "SKIPPED"; "BLOCKED"] →
  (∀ k, key = Some k →
        ¬ map_Exists (λ _ r', pev_idempotency_key r' = Some k)
            (rows (position_events (view db)))) →
  let row := new_position_event position_id event_type action reason_code detail_json key in
  let rowid := next_rowid (position_events (view db)) in
  insert_position_event position_id event_type action reason_code detail_json key ac db
  = (Ok (Some rowid),
     maybe_commit ac (execute_dml
       (set_position_events {| rows := <[rowid := row]> (rows (position_events (view db)));
                               seq := rowid |}) db)).
Proof.
  intros Het Hact Hkey row rowid. unfold insert_position_event, sql_insert_position_event.
  by rewrite position_event_violation_ok.
Qed.

(** ** Pipeline: running a computation step by step *)

Lemma set_conn_same (w : World) : set_conn (conn w) w = w.
Proof. by destruct w. Qed.

Lemma run_bind {A B : Type} (m : M A) (k : A → M B) (w : World) :
  (m ≫= k) w = match m w with
               | (Ok a, w') => k a w'
               | (Raise e, w') => (Raise e, w')
               end.
Proof. reflexivity. Qed.

Lemma run_db_call {A : Type} (op : Sql A) (w : World) :
  faults w = None → db_call op w = ((op (conn w)).1, set_conn (op (conn w)).2 w).
Proof.
  intros Hf. unfold db_call. rewrite run_bind. unfold storage_fault. rewrite Hf.
  unfold run_sql. by destruct (op (conn w)).
Qed.

Lemma bind_db_call {A B : Type} (op : Sql A) (k : A → M B) (w : World) :
  faults w = None →
  (db_call op ≫= k) w = match (op (conn w)).1 with
                        | Ok a => k a (set_conn (op (conn w)).2 w)
                        | Raise e => (Raise e, set_conn (op (conn w)).2 w)
                        end.
Proof. intros Hf. rewrite run_bind, run_db_call by done. by destruct (op (conn w)).1. Qed.

Lemma bind_db_read {A B : Type} (q : DB → A) (k : A → M B) (w : World) :
  faults w = None → (db_read q ≫= k) w = k (q (conn w)) w.
Proof. intros Hf. unfold db_read. rewrite bind_db_call by done. simpl. by rewrite set_conn_same. Qed.

Lemma bind_db_commit {B : Type} (k : unit → M B) (w : World) :
  faults w = None → (db_commit ≫= k) w = k tt (set_conn (commit (conn w)) w).
Proof. intros Hf. unfold db_commit. by rewrite bind_db_call. Qed.

Lemma bind_db_rollback {B : Type} (k : unit → M B) (w : World) :
  (db_rollback ≫= k) w = k tt (set_conn (rollback (conn w)) w).
Proof. reflexivity. Qed.

Lemma bind_log_and_notify {B : Type} (text : string) (k : unit → M B) (w : World) :
  (log_and_notify text ≫= k) w = k tt (set_log (log w ++ [text]) w).
Proof. reflexivity. Qed.

Lemma bind_read_kill_switch {B : Type} (k : KillSwitch → M B) (w : World) :
  (read_kill_switch ≫= k) w = k (kill_switch w) w.
Proof. reflexivity. Qed.

Lemma bind_lift_result {A B : Type} (r : Result A) (k : A → M B) (w : World) :
  (lift_result r ≫= k) w = match r with Ok a => k a w | Raise e => (Raise e, w) end.
Proof. by destruct r. Qed.

Lemma run_mret {A : Type} (a : A) (w : World) : (mret a : M A) w = (Ok a, w).
Proof. reflexivity. Qed.

Lemma run_try_rollback_raise {A : Type} (body : M A) (w : World) :
  try_rollback_raise body w = match body w with
                              | (Raise e, w') => (Raise e, set_conn (rollback (conn w')) w')
                              | (Ok a, w') => (Ok a, w')
                              end.
Proof. unfold try_rollback_raise. by destruct (body w) as [[]]. Qed.

#[local] Arguments str_int : simpl never.
#[local] Arguments can_trade : simpl never.
#[local] Arguments next_rowid : simpl never.
#[local] Arguments risk_state_dict : simpl never.
#[local] Arguments String.append : simpl never.
#[local] Arguments compute_scores : simpl never.
#[local] Arguments validate_signal_binding : simpl never.
#[local] Arguments insert_or_ignore_risk_state : simpl never.
#[local] Arguments pending_position : simpl never.
#[local] Arguments new_order : simpl never.
#[local] Arguments opened : simpl never.
#[local] Arguments closed : simpl never.
#[local] Arguments fill_order : simpl never.
#[local] Arguments begin : simpl never.
#[local] Arguments insert_news_if_new : simpl never.
#[local] Arguments insert_event_ticker : simpl never.
#[local] Arguments get_event_ticker : simpl never.
#[local] Arguments get_score_weights : simpl never.
#[local] Arguments insert_signal : simpl never.
#[local] Arguments create_position : simpl never.
#[local] Arguments set_position_open : simpl never.
#[local] Arguments set_position_closed : simpl never.
#[local] Arguments insert_order : simpl never.
#[local] Arguments update_order_filled : simpl never.
#[local] Arguments insert_position_event : simpl never.
#[local] Arguments ensure_risk_state_today : simpl never.
#[local] Arguments get_risk_state : simpl never.

(** One step of a healthy run. *)
Ltac step :=
  first [ rewrite bind_db_call by reflexivity
        | rewrite bind_db_read by reflexivity
        | rewrite bind_db_commit by reflexivity
        | rewrite bind_db_rollback
        | rewrite bind_log_and_notify
        | rewrite bind_read_kill_switch
        | rewrite bind_lift_result
        | rewrite run_try_rollback_raise
        | rewrite run_mret
        | rewrite run_bind ];
  cbn.

(** ** Event store: the methods inside an open transaction *)

Section InTransaction.
Context `{PyRuntime}.
Implicit Types (c s : Store).

Lemma begin_idle c : begin (connect c) = (Ok tt, {| committed := c; tx := Some c |}).
Proof. reflexivity. Qed.

Lemma ensure_risk_state_today_in_tx td c s :
  ensure_risk_state_today td false {| committed := c; tx := Some s |}
  = (Ok tt, {| committed := c; tx := Some (insert_or_ignore_risk_state td s) |}).
Proof. reflexivity. Qed.

Lemma insert_or_ignore_risk_state_lookup td s :
  risk_state (insert_or_ignore_risk_state td s) !! td
  = Some (default default_risk_state (risk_state s !! td)).
Proof.
  unfold insert_or_ignore_risk_state.
  destruct (risk_state s !! td) as [r|] eqn:Hrs; cbn.
  - by rewrite Hrs.
  - by rewrite lookup_insert_eq.
Qed.

Lemma insert_or_ignore_risk_state_tables td s :
  news_events (insert_or_ignore_risk_state td s) = news_events s
  ∧ event_tickers (insert_or_ignore_risk_state td s) = event_tickers s
  ∧ signal_scores (insert_or_ignore_risk_state td s) = signal_scores s
  ∧ positions (insert_or_ignore_risk_state td s) = positions s
  ∧ orders (insert_or_ignore_risk_state td s) = orders s
  ∧ position_events (insert_or_ignore_risk_state td s) = position_events s
  ∧ parameter_registry (insert_or_ignore_risk_state td s) = parameter_registry s.
Proof. unfold insert_or_ignore_risk_state. by destruct (risk_state s !! td). Qed.

Lemma positions_ensured td s : positions (insert_or_ignore_risk_state td s) = positions s.
Proof. apply insert_or_ignore_risk_state_tables. Qed.

Lemma orders_ensured td s : orders (insert_or_ignore_risk_state td s) = orders s.
Proof. apply insert_or_ignore_risk_state_tables. Qed.

Lemma position_events_ensured td s :
  position_events (insert_or_ignore_risk_state td s) = position_events s.
Proof. apply insert_or_ignore_risk_state_tables. Qed.

Lemma get_risk_state_in_tx td c s :
  get_risk_state td {| committed := c; tx := Some (insert_or_ignore_risk_state td s) |}
  = Some (risk_state_dict (default default_risk_state (risk_state s !! td))).
Proof.
  unfold get_risk_state. cbn. by rewrite insert_or_ignore_risk_state_lookup.
Qed.

Lemma create_position_in_tx tk sid qty c s :
  PrimFloat.is_nan qty = false →
  create_position tk sid qty false {| committed := c; tx := Some s |}
  = (Ok (next_rowid (positions s)),
     {| committed := c;
        tx := Some (set_positions
                      {| rows := <[next_rowid (positions s) := pending_position tk sid qty]>
                                   (rows (positions s));
                         seq := next_rowid (positions s) |} s) |}).
Proof. intros Hqty. unfold create_position, not_null_real. by rewrite Hqty. Qed.

(** A NaN quantity is refused by [positions.qty real not null]. *)
Lemma create_position_in_tx_nan tk sid qty c s :
  PrimFloat.is_nan qty = true →
  create_position tk sid qty false {| committed := c; tx := Some s |}
  = (Raise (SqliteIntegrityError "NOT NULL constraint failed: positions.qty"),
     {| committed := c; tx := Some s |}).
Proof. intros Hqty. unfold create_position, not_null_real. by rewrite Hqty. Qed.

Lemma insert_order_in_tx pid sid tk side qty ot st price c s :
  PrimFloat.is_nan qty = false →
  order_violation (new_order pid sid tk side qty ot st price) = None →
  insert_order pid sid tk side qty ot st price false {| committed := c; tx := Some s |}
  = (Ok (next_rowid (orders s)),
     {| committed := c;
        tx := Some (set_orders
                      {| rows := <[next_rowid (orders s) :=
                                     new_order pid sid tk side qty ot st price]>
                                   (rows (orders s));
                         seq := next_rowid (orders s) |} s) |}).
Proof. intros Hqty Hv. unfold insert_order, not_null_real. by rewrite Hqty, Hv. Qed.

(** A NaN quantity is refused by [orders.qty real not null]. *)
Lemma insert_order_in_tx_nan pid sid tk side qty ot st price c s :
  PrimFloat.is_nan qty = true →
  insert_order pid sid tk side qty ot st price false {| committed := c; tx := Some s |}
  = (Raise (SqliteIntegrityError "NOT NULL constraint failed: orders.qty"),
     {| committed := c; tx := Some s |}).
Proof. intros Hqty. unfold insert_order, not_null_real. by rewrite Hqty. Qed.

Lemma update_order_filled_in_tx oid price c s :
  update_order_filled oid price false {| committed := c; tx := Some s |}
  = (Ok tt, {| committed := c; tx := Some (mark_order_filled oid price s) |}).
Proof. reflexivity. Qed.

Lemma set_position_open_in_tx pid avg val c s p :
  rows (positions s) !! pid = Some p → pos_status p = PENDING_ENTRY →
  set_position_open pid avg val false {| committed := c; tx := Some s |}
  = (Ok tt,
     {| committed := c;
        tx := Some (set_positions {| rows := <[pid := opened avg val p]> (rows (positions s));
                                     seq := seq (positions s) |} s) |}).
Proof.
  intros Hp Hst. unfold set_position_open. cbn.
  by erewrite update_position_where_hit.
Qed.

Lemma set_position_closed_in_tx pid reason c s p :
  rows (positions s) !! pid = Some p → pos_status p = OPEN →
  set_position_closed pid reason false {| committed := c; tx := Some s |}
  = (Ok tt,
     {| committed := c;
        tx := Some (set_positions {| rows := <[pid := closed reason p]> (rows (positions s));
                                     seq := seq (positions s) |} s) |}).
Proof.
  intros Hp Hst. unfold set_position_closed. cbn.
  by erewrite update_position_where_hit.
Qed.

End InTransaction.

Lemma set_position_events_same (s : Store) : set_position_events (position_events s) s = s.
Proof. by destruct s. Qed.

Lemma set_news_events_same (s : Store) : set_news_events (news_events s) s = s.
Proof. by destruct s. Qed.

Lemma insert_position_event_in_tx (pid : Z) (et act rc dj : string) (key : option string)
    (c s : Store) :
  let r := new_position_event pid et act rc dj key in
  insert_position_event pid et act rc dj key false {| committed := c; tx := Some s |}
  = (Ok (inserted_event_id r (position_events s)),
     {| committed := c;
        tx := Some (set_position_events (after_insert_event r (position_events s)) s) |}).
Proof.
  intros r. unfold insert_position_event, sql_insert_position_event,
    inserted_event_id, after_insert_event. fold r. cbn.
  destruct (position_event_violation r (rows (position_events s))); cbn.
  - by rewrite set_position_events_same.
  - reflexivity.
Qed.

Lemma after_insert_event_keeps (r : PositionEventRow) (t : Table PositionEventRow)
    (k : Z) (x : PositionEventRow) :
  rows t !! k = Some x → rows (after_insert_event r t) !! k = Some x.
Proof.
  intros Hk. unfold after_insert_event.
  destruct (position_event_violation r (rows t)); [done|]. cbn.
  rewrite lookup_insert_ne; [done|]. intros <-. by rewrite next_rowid_fresh in Hk.
Qed.

Lemma after_insert_event_size (r : PositionEventRow) (t : Table PositionEventRow) :
  (size (rows t) ≤ size (rows (after_insert_event r t)))%nat.
Proof.
  unfold after_insert_event.
  destruct (position_event_violation r (rows t)); [done|].
  destruct (table_insert_rows r t) as (_ & _ & ->). lia.
Qed.

(** After the attempt the key is in the table, whoever put it there. *)
Lemma after_insert_event_key (pid : Z) (et act rc dj key : string)
    (t : Table PositionEventRow) :
  et ∈ ["ENTRY"; "ADD"; "PARTIAL_EXIT"; "FULL_EXIT"; "BLOCK"] →
  act ∈ ["EXECUTED"; "SKIPPED"; "BLOCKED"] →
  map_Exists (λ _ r, pev_idempotency_key r = Some key)
    (rows (after_insert_event (new_position_event pid et act rc dj (Some key)) t)).
Proof.
  intros Het Hact. unfold after_insert_event.
  destruct (decide (map_Exists (λ _ r, pev_idempotency_key r = Some key) (rows t)))
    as [Hex|Hnex].
  - edestruct position_event_violation_taken as [msg ->]; [|exact Hex|]; done.
  - rewrite position_event_violation_ok; [|done|done|by intros k [= <-]].
    cbn. apply map_Exists_lookup. eexists _, _.
    split; [apply lookup_insert_eq|done].
Qed.

Lemma order_violation_market (pid sid : Z) (tk side : string) (qty : float)
    (price : option float) :
  side ∈ ["BUY"; "SELL"] →
  order_violation (new_order pid sid tk side qty "MARKET" "SENT" price) = None.
Proof.
  intros Hside. unfold order_violation. cbn.
  rewrite (bool_decide_eq_true_2 _ Hside). cbn.
  rewrite !bool_decide_eq_true_2 by (rewrite !elem_of_cons; auto). done.
Qed.

(** ** Pipeline: Tx #2 on a healthy engine *)

Section Entry.
Context `{PyRuntime} `{BrokerBase}.

Lemma entry_gate_blocked (s : Store) (ks : KillSwitch) (lg : list string)
    (td : string) (sid : Z) (tk : string) (qty : float) :
  let risk := can_trade ks (Some (risk_state_dict
                (default default_risk_state (risk_state s !! td)))) in
  allowed risk = false →
  execute_signal_entry td sid tk qty
    {| conn := connect s; kill_switch := ks; log := lg; faults := None |}
  = (Ok None,
     {| conn := connect s; kill_switch := ks;
        log := lg ++ ["BLOCKED:" +:+ default "None" (reason_code risk)];
        faults := None |}).
Proof.
  intros risk Hblk. unfold execute_signal_entry.
  step. rewrite begin_idle. cbn.
  step. step. rewrite ensure_risk_state_today_in_tx. cbn.
  step. rewrite get_risk_state_in_tx.
  step. fold risk. rewrite Hblk. cbn.
  repeat step. reflexivity.
Qed.

Lemma entry_not_filled (s : Store) (ks : KillSwitch) (lg : list string)
    (td : string) (sid : Z) (tk : string) (qty : float) (r : OrderResult) :
  PrimFloat.is_nan qty = false →
  allowed (can_trade ks (Some (risk_state_dict
             (default default_risk_state (risk_state s !! td))))) = true →
  send_order (buy_request sid tk qty) = Ok r →
  res_status r ≠ "FILLED" →
  execute_signal_entry td sid tk qty
    {| conn := connect s; kill_switch := ks; log := lg; faults := None |}
  = (Ok None,
     {| conn := connect s; kill_switch := ks;
        log := lg ++ ["BLOCKED:" +:+ str_or (res_reason_code r) "ORDER_NOT_FILLED"];
        faults := None |}).
Proof.
  intros Hqty Hok Hsend Hst. unfold execute_signal_entry, buy_request in *.
  step. rewrite begin_idle. cbn.
  step. step. rewrite ensure_risk_state_today_in_tx. cbn.
  step. rewrite get_risk_state_in_tx.
  step. rewrite Hok. cbn.
  step. rewrite create_position_in_tx by done. cbn.
  step. rewrite insert_order_in_tx
    by first [done | by apply order_violation_market; set_solver]. cbn.
  step. rewrite Hsend. cbn.
  apply String.eqb_neq in Hst. rewrite Hst. cbn.
  step. rewrite insert_position_event_in_tx. cbn.
  repeat step. reflexivity.
Qed.

Lemma entry_broker_raises (s : Store) (ks : KillSwitch) (lg : list string)
    (td : string) (sid : Z) (tk : string) (qty : float) (e : exn) :
  PrimFloat.is_nan qty = false →
  allowed (can_trade ks (Some (risk_state_dict
             (default default_risk_state (risk_state s !! td))))) = true →
  send_order (buy_request sid tk qty) = Raise e →
  execute_signal_entry td sid tk qty
    {| conn := connect s; kill_switch := ks; log := lg; faults := None |}
  = (Raise e, {| conn := connect s; kill_switch := ks; log := lg; faults := None |}).
Proof.
  intros Hqty Hok Hsend. unfold execute_signal_entry, buy_request in *.
  step. rewrite begin_idle. cbn.
  step. step. rewrite ensure_risk_state_today_in_tx. cbn.
  step. rewrite get_risk_state_in_tx.
  step. rewrite Hok. cbn.
  step. rewrite create_position_in_tx by done. cbn.
  step. rewrite insert_order_in_tx
    by first [done | by apply order_violation_market; set_solver]. cbn.
  step. rewrite Hsend. cbn. reflexivity.
Qed.

(** With the gate open, a NaN quantity stops the entry at its first INSERT,
    before the broker is asked. *)
Lemma entry_nan_qty (s : Store) (ks : KillSwitch) (lg : list string)
    (td : string) (sid : Z) (tk : string) (qty : float) :
  PrimFloat.is_nan qty = true →
  allowed (can_trade ks (Some (risk_state_dict
             (default default_risk_state (risk_state s !! td))))) = true →
  execute_signal_entry td sid tk qty
    {| conn := connect s; kill_switch := ks; log := lg; faults := None |}
  = (Raise (SqliteIntegrityError "NOT NULL constraint failed: positions.qty"),
     {| conn := connect s; kill_switch := ks; log := lg; faults := None |}).
Proof.
  intros Hqty Hok. unfold execute_signal_entry.
  step. rewrite begin_idle. cbn.
  step. step. rewrite ensure_risk_state_today_in_tx. cbn.
  step. rewrite get_risk_state_in_tx.
  step. rewrite Hok. cbn.
  step. rewrite create_position_in_tx_nan by done. cbn. reflexivity.
Qed.

(** The store that a filled entry commits. *)
Lemma entry_filled (s : Store) (ks : KillSwitch) (lg : list string)
    (td : string) (sid : Z) (tk : string) (qty : float) (r : OrderResult) :
  PrimFloat.is_nan qty = false →
  allowed (can_trade ks (Some (risk_state_dict
             (default default_risk_state (risk_state s !! td))))) = true →
  send_order (buy_request sid tk qty) = Ok r →
  res_status r = "FILLED" →
  let pid := next_rowid (positions s) in
  let oid := next_rowid (orders s) in
  let ev := new_position_event pid "ENTRY" "EXECUTED" "ENTRY_FILLED"
              (json_dumps (JObj (list_to_map
                 [("signal_id", JInt sid); ("order_id", JInt oid);
                  ("filled_qty", JFloat (res_filled_qty r));
                  ("avg_price", JFloat (res_avg_price r))])))
              (Some ("entry:" +:+ str_int pid +:+ ":" +:+ str_int oid)) in
  let s1 := insert_or_ignore_risk_state td s in
  let s2 := set_positions
              {| rows := <[pid := opened (res_avg_price r) (res_avg_price r * qty)
                                    (pending_position tk sid qty)]> (rows (positions s));
                 seq := pid |} s1 in
  let s3 := set_orders
              {| rows := <[oid := fill_order (res_avg_price r)
                                    (new_order pid sid tk "BUY" qty "MARKET" "SENT" None)]>
                           (rows (orders s));
                 seq := oid |} s2 in
  let s4 := set_position_events (after_insert_event ev (position_events s)) s3 in
  execute_signal_entry td sid tk qty
    {| conn := connect s; kill_switch := ks; log := lg; faults := None |}
  = (Ok (Some pid),
     {| conn := connect s4; kill_switch := ks;
        log := lg ++ ["ORDER_FILLED:" +:+ tk +:+ "@" +:+ repr_float (res_avg_price r)
                      +:+ " (signal_id=" +:+ str_int sid
                      +:+ ", position_id=" +:+ str_int pid
                      +:+ ", entry_event_id="
                      +:+ from_option str_int "None"
                            (inserted_event_id ev (position_events s))
                      +:+ ")"];
        faults := None |}).
Proof.
  intros Hqty Hok Hsend Hst pid oid ev s1 s2 s3 s4.
  unfold execute_signal_entry, buy_request in *.
  step. rewrite begin_idle. cbn.
  step. step. rewrite ensure_risk_state_today_in_tx. cbn.
  step. rewrite get_risk_state_in_tx.
  step. rewrite Hok. cbn.
  step. rewrite create_position_in_tx by done. cbn.
  step. rewrite insert_order_in_tx
    by first [done | by apply order_violation_market; set_solver]. cbn.
  step. rewrite Hsend. cbn.
  rewrite Hst. cbn.
  step. rewrite update_order_filled_in_tx. cbn.
  step. erewrite set_position_open_in_tx; [|cbn; apply lookup_insert_eq|reflexivity]. cbn.
  step. rewrite insert_position_event_in_tx. cbn.
  rewrite !positions_ensured, !orders_ensured, !position_events_ensured.
  repeat step.
  unfold s4, s3, s2, s1, ev, pid, oid, mark_order_filled, set_log, set_conn, commit, connect.
  cbn. rewrite insert_insert_eq, alter_insert_eq.
  rewrite ?positions_ensured, ?orders_ensured, ?position_events_ensured.
  reflexivity.
Qed.

End Entry.

(** ** Pipeline: Tx #3 on a healthy engine *)

Section Exit.
Context `{PyRuntime}.

(** The store that the settlement of an OPEN position commits. *)
Lemma exit_closes (s : Store) (ks : KillSwitch) (lg : list string)
    (sid : Z) (tk : string) (qty : float) (pid : Z) (p : PositionRow) :
  PrimFloat.is_nan qty = false →
  rows (positions s) !! pid = Some p → pos_status p = OPEN →
  let oid := next_rowid (orders s) in
  let ev := new_position_event pid "FULL_EXIT" "EXECUTED" "TIME_EXIT"
              (json_dumps (JObj (list_to_map
                 [("signal_id", JInt sid); ("exit_order_id", JInt oid);
                  ("exit_price", JFloat 83600%float)])))
              (Some ("exit:" +:+ str_int pid +:+ ":" +:+ str_int oid)) in
  let s1 := set_orders
              {| rows := <[oid := fill_order 83600
                                    (new_order pid sid tk "SELL" qty "MARKET" "SENT" None)]>
                           (rows (orders s));
                 seq := oid |} s in
  let s2 := set_positions
              {| rows := <[pid := closed "TIME_EXIT" p]> (rows (positions s));
                 seq := seq (positions s) |} s1 in
  let s3 := set_position_events (after_insert_event ev (position_events s)) s2 in
  execute_signal_exit sid tk qty pid
    {| conn := connect s; kill_switch := ks; log := lg; faults := None |}
  = (Ok true,
     {| conn := connect s3; kill_switch := ks;
        log := lg ++ ["POSITION_CLOSED:" +:+ str_int pid +:+ " reason=TIME_EXIT"];
        faults := None |}).
Proof.
  intros Hqty Hp Hst oid ev s1 s2 s3. unfold execute_signal_exit.
  step. rewrite begin_idle. cbn.
  step. step. rewrite insert_order_in_tx
    by first [done | by apply order_violation_market; set_solver]. cbn.
  step. rewrite update_order_filled_in_tx. cbn.
  step. erewrite set_position_closed_in_tx; [|cbn; exact Hp|exact Hst]. cbn.
  step. rewrite insert_position_event_in_tx. cbn.
  repeat step.
  unfold s3, s2, s1, ev, oid, mark_order_filled, set_log, set_conn, commit, connect.
  cbn. rewrite alter_insert_eq. reflexivity.
Qed.

End Exit.

(** ** Phase 2: a blocked entry *)

Lemma risk_state_dict_flag (r : RiskStateRow) :
  risk_state_dict r !! "trading_enabled" = Some (rs_trading_enabled r).
Proof. reflexivity. Qed.

Lemma can_trade_today (ks : KillSwitch) (r : RiskStateRow) :
  can_trade ks (Some (risk_state_dict r))
  = if enabled ks then {| allowed := false; reason_code := Some "KILL_SWITCH_ON" |}
    else if rs_trading_enabled r =? 1 then {| allowed := true; reason_code := None |}
    else {| allowed := false; reason_code := Some "RISK_DISABLED" |}.
Proof.
  unfold can_trade. rewrite risk_state_dict_flag. cbn.
  destruct (enabled ks); [done|]. by destruct (rs_trading_enabled r =? 1).
Qed.

Section Blocked.
Context `{PyRuntime} `{BrokerBase}.

(** C1. Whenever entry is blocked -- the gate disallows trading (kill switch
    engaged, or today's [trading_enabled] is not 1), or the broker answers
    with a status other than FILLED (the quantity being a number, so that the
    order reaches the broker) -- [execute_signal] returns [False], and
    the connection is left exactly as it was found: no transaction open and
    the committed store unchanged, so no Position, Order or PositionEvent row
    of that transaction persists.  The one thing added is the log line. *)
Theorem blocked_entry_leaves_no_trace (w : World) (td : string) (sid : Z) (tk : string)
    (qty : float) :
  tx (conn w) = None → faults w = None →
  let today := default default_risk_state (risk_state (committed (conn w)) !! td) in
  (enabled (kill_switch w) = true ∨ rs_trading_enabled today ≠ 1)
  ∨ (PrimFloat.is_nan qty = false
     ∧ ∃ r, send_order (buy_request sid tk qty) = Ok r ∧ res_status r ≠ "FILLED") →
  ∃ w' reason,
    execute_signal td sid tk qty w = (Ok false, w')
    ∧ conn w' = conn w
    ∧ positions (committed (conn w')) = positions (committed (conn w))
    ∧ orders (committed (conn w')) = orders (committed (conn w))
    ∧ position_events (committed (conn w')) = position_events (committed (conn w))
    ∧ tx (conn w') = None
    ∧ kill_switch w' = kill_switch w
    ∧ log w' = log w ++ ["BLOCKED:" +:+ reason].
Proof.
  destruct w as [[s t] ks lg f]. cbn. intros -> -> Hblk.
  unfold execute_signal. rewrite run_bind.
  destruct (allowed (can_trade ks (Some (risk_state_dict
              (default default_risk_state (risk_state s !! td)))))) eqn:Hgate.
  - destruct Hblk as [Hgate'|(Hqty & r & Hsend & Hst)].
    + exfalso. rewrite can_trade_today in Hgate.
      destruct Hgate' as [Hks|Hflag]; [by rewrite Hks in Hgate|].
      apply Z.eqb_neq in Hflag. rewrite Hflag in Hgate. by destruct (enabled ks).
    + fold (connect s). rewrite (entry_not_filled s ks lg td sid tk qty r) by done.
      cbn. by eexists _, _.
  - fold (connect s). rewrite entry_gate_blocked by done.
    cbn. by eexists _, _.
Qed.

End Blocked.

Lemma blocked_entry_leaves_no_trace_witness :
  ∃ w' reason,
    @execute_signal toy_runtime RejectingBroker "2026-01-01" 1 "005930" 1 world0
    = (Ok false, w')
    ∧ conn w' = conn world0
    ∧ positions (committed (conn w')) = positions (committed (conn world0))
    ∧ orders (committed (conn w')) = orders (committed (conn world0))
    ∧ position_events (committed (conn w')) = position_events (committed (conn world0))
    ∧ tx (conn w') = None
    ∧ kill_switch w' = kill_switch world0
    ∧ log w' = log world0 ++ ["BLOCKED:" +:+ reason].
Proof.
  apply (@blocked_entry_leaves_no_trace toy_runtime RejectingBroker world0);
    [reflexivity|reflexivity|].
  right. split; [reflexivity|]. eexists. split; [reflexivity|]. discriminate.
Defined.

(** ** Transactions under a faulty engine *)

Lemma keeps_committed_ret {A : Type} (a : A) : keeps_committed (mret a : M A).
Proof. by intros w r w' [= <- <-]. Qed.

Lemma keeps_committed_bind {A B : Type} (m : M A) (k : A → M B) :
  keeps_committed m → (∀ a, keeps_committed (k a)) → keeps_committed (m ≫= k).
Proof.
  intros Hm Hk w r w'. rewrite run_bind.
  destruct (m w) as [[a|e] w1] eqn:Hmw.
  - intros Hkw. rewrite (Hk _ _ _ _ Hkw). by eapply Hm.
  - intros [= <- <-]. by eapply Hm.
Qed.

Lemma keeps_committed_storage_fault : keeps_committed storage_fault.
Proof.
  intros w r w'. unfold storage_fault.
  by destruct (faults w) as [[|n]|]; intros [= <- <-].
Qed.

Lemma keeps_committed_db_call {A : Type} (op : Sql A) :
  sql_keeps_committed op → keeps_committed (db_call op).
Proof.
  intros Hop. apply keeps_committed_bind; [apply keeps_committed_storage_fault|].
  intros _ w r w'. unfold run_sql. destruct (op (conn w)) as [r1 db1] eqn:Hopw.
  intros [= <- <-]. cbn. by eapply Hop.
Qed.

Lemma keeps_committed_db_read {A : Type} (q : DB → A) : keeps_committed (db_read q).
Proof. apply keeps_committed_db_call. by intros db r db' [= <- <-]. Qed.

Lemma keeps_committed_db_rollback : keeps_committed db_rollback.
Proof. by intros w r w' [= <- <-]. Qed.

Lemma keeps_committed_log_and_notify (text : string) : keeps_committed (log_and_notify text).
Proof. by intros w r w' [= <- <-]. Qed.

Lemma keeps_committed_read_kill_switch : keeps_committed read_kill_switch.
Proof. by intros w r w' [= <- <-]. Qed.

Lemma keeps_committed_lift_result {A : Type} (r : Result A) : keeps_committed (lift_result r).
Proof. by intros w r' w' [= <- <-]. Qed.

Lemma raises_uncommitted_keeps {A : Type} (m : M A) : keeps_committed m → raises_uncommitted m.
Proof. intros Hm w e w' Hw. by eapply Hm. Qed.

Lemma raises_uncommitted_bind {A B : Type} (m : M A) (k : A → M B) :
  keeps_committed m → (∀ a, raises_uncommitted (k a)) → raises_uncommitted (m ≫= k).
Proof.
  intros Hm Hk w e w'. rewrite run_bind.
  destruct (m w) as [[a|e1] w1] eqn:Hmw.
  - intros Hkw. rewrite (Hk _ _ _ _ Hkw). by eapply Hm.
  - intros [= <- <-]. by eapply Hm.
Qed.

Lemma never_raises_log_ret {A : Type} (text : string) (a : A) :
  never_raises (log_and_notify text ≫= λ _, mret a).
Proof. by intros w e w'. Qed.

Lemma never_raises_ret {A : Type} (a : A) : never_raises (mret a : M A).
Proof. by intros w e w'. Qed.

(** A commit followed by code that cannot fail: an exception can only come
    from the commit itself, which then has not happened. *)
Lemma raises_uncommitted_commit {B : Type} (k : unit → M B) :
  never_raises (k tt) → raises_uncommitted (db_commit ≫= k).
Proof.
  intros Hk w e w'. rewrite run_bind. unfold db_commit, db_call.
  rewrite run_bind. unfold storage_fault.
  destruct (faults w) as [[|n]|]; cbn.
  - by intros [= <- <-].
  - intros Hkw. by apply Hk in Hkw.
  - intros Hkw. by apply Hk in Hkw.
Qed.

(** [begin; try: body except: rollback; raise] -- when it raises, the
    connection is back where it started. *)
Lemma transaction_rolls_back {A : Type} (body : M A) (w : World) (e : exn) (w' : World) :
  raises_uncommitted body → tx (conn w) = None →
  (db_call begin ≫= λ _, try_rollback_raise body) w = (Raise e, w') →
  conn w' = conn w.
Proof.
  intros Hbody Hidle. rewrite run_bind. unfold db_call. rewrite run_bind.
  destruct w as [[c t] ks lg f]. cbn in Hidle. subst t.
  unfold storage_fault, run_sql, begin. cbn.
  destruct f as [[|n]|]; cbn.
  - by intros [= <- <-].
  - rewrite run_try_rollback_raise.
    destruct (body _) as [[a|e1] w1] eqn:Hb; [done|].
    intros [= <- <-]. apply Hbody in Hb. cbn in *. unfold rollback. by rewrite Hb.
  - rewrite run_try_rollback_raise.
    destruct (body _) as [[a|e1] w1] eqn:Hb; [done|].
    intros [= <- <-]. apply Hbody in Hb. cbn in *. unfold rollback. by rewrite Hb.
Qed.

(** The methods called with [autocommit=False] do not commit. *)
Ltac sql_frame :=
  intros db r db';
  repeat first [ progress cbn | case_match ];
  try (intros [= <- <-]); try done; simplify_eq; try done.

Section Frames.
Context `{PyRuntime}.

Lemma insert_news_if_new_keeps item : sql_keeps_committed (insert_news_if_new item false).
Proof. unfold insert_news_if_new, sql_insert_news. sql_frame. Qed.

Lemma insert_event_ticker_keeps nid tk cn conf meth :
  sql_keeps_committed (insert_event_ticker nid tk cn conf meth false).
Proof. unfold insert_event_ticker, not_null_real. sql_frame. Qed.

Lemma insert_signal_keeps payload : sql_keeps_committed (insert_signal payload false).
Proof. unfold insert_signal, signal_not_null, not_null_real. sql_frame. Qed.

Lemma ensure_risk_state_today_keeps td :
  sql_keeps_committed (ensure_risk_state_today td false).
Proof. unfold ensure_risk_state_today. sql_frame. Qed.

Lemma create_position_keeps tk sid qty : sql_keeps_committed (create_position tk sid qty false).
Proof. unfold create_position, not_null_real. sql_frame. Qed.

Lemma insert_order_keeps pid sid tk side qty ot st price :
  sql_keeps_committed (insert_order pid sid tk side qty ot st price false).
Proof. unfold insert_order, not_null_real. sql_frame. Qed.

Lemma update_order_filled_keeps oid price :
  sql_keeps_committed (update_order_filled oid price false).
Proof. unfold update_order_filled. sql_frame. Qed.

Lemma set_position_open_keeps pid avg val :
  sql_keeps_committed (set_position_open pid avg val false).
Proof. unfold set_position_open. sql_frame. Qed.

Lemma set_position_closed_keeps pid reason :
  sql_keeps_committed (set_position_closed pid reason false).
Proof. unfold set_position_closed. sql_frame. Qed.

Lemma insert_position_event_keeps pid et act rc dj key :
  sql_keeps_committed (insert_position_event pid et act rc dj key false).
Proof. unfold insert_position_event, sql_insert_position_event. sql_frame. Qed.

End Frames.

Create HintDb frames discriminated.
#[local] Hint Resolve insert_news_if_new_keeps insert_event_ticker_keeps insert_signal_keeps
  ensure_risk_state_today_keeps create_position_keeps insert_order_keeps
  update_order_filled_keeps set_position_open_keeps set_position_closed_keeps
  insert_position_event_keeps : frames.

Ltac keeps :=
  repeat first
    [ apply keeps_committed_db_read
    | apply keeps_committed_db_call; solve [eauto with frames]
    | apply keeps_committed_bind; [|intros ?]
    | apply keeps_committed_db_rollback
    | apply keeps_committed_log_and_notify
    | apply keeps_committed_read_kill_switch
    | apply keeps_committed_lift_result
    | apply keeps_committed_ret
    | progress cbv zeta
    | case_match ].

Ltac uncommitted :=
  repeat first
    [ apply raises_uncommitted_commit;
      first [ apply never_raises_log_ret | apply never_raises_ret ]
    | apply raises_uncommitted_bind; [solve [keeps]|intros ?]
    | apply raises_uncommitted_keeps; solve [keeps]
    | progress cbv zeta
    | case_match ].

Section RaiseRestores.
Context `{PyRuntime} `{BrokerBase}.

(** Whatever is raised inside Tx #1, #2 or #3, and wherever, the connection
    ends as it began: rolled back, with the committed store untouched. *)
Lemma ingest_raise_restores news mapper (w : World) (e : exn) (w' : World) :
  tx (conn w) = None →
  ingest_and_create_signal_from news mapper w = (Raise e, w') → conn w' = conn w.
Proof.
  intros Hidle Hrun. eapply transaction_rolls_back; [|exact Hidle|exact Hrun].
  uncommitted.
Qed.

Lemma entry_raise_restores td sid tk qty (w : World) (e : exn) (w' : World) :
  tx (conn w) = None →
  execute_signal_entry td sid tk qty w = (Raise e, w') → conn w' = conn w.
Proof.
  intros Hidle Hrun. eapply transaction_rolls_back; [|exact Hidle|exact Hrun].
  uncommitted.
Qed.

Lemma exit_raise_restores sid tk qty pid (w : World) (e : exn) (w' : World) :
  tx (conn w) = None →
  execute_signal_exit sid tk qty pid w = (Raise e, w') → conn w' = conn w.
Proof.
  intros Hidle Hrun. eapply transaction_rolls_back; [|exact Hidle|exact Hrun].
  uncommitted.
Qed.

End RaiseRestores.

(** ** Runs that return have met no fault *)

Lemma fault_blind_ret {A : Type} (a : A) : fault_blind (mret a : M A).
Proof. by intros w a' w' [= <- <-]. Qed.

Lemma fault_blind_bind {A B : Type} (m : M A) (k : A → M B) :
  fault_blind m → (∀ a, fault_blind (k a)) → fault_blind (m ≫= k).
Proof.
  intros Hm Hk w b w'. rewrite !run_bind.
  destruct (m w) as [[a|e] w1] eqn:Hmw; [|done].
  intros Hkw. rewrite (Hm _ _ _ Hmw). by apply Hk.
Qed.

Lemma fault_blind_db_call {A : Type} (op : Sql A) : fault_blind (db_call op).
Proof.
  intros [db ks lg f] a w'. unfold db_call. rewrite !run_bind.
  unfold storage_fault, run_sql. cbn.
  destruct f as [[|n]|]; cbn; [done|..];
    destruct (op db) as [[a1|e1] db1]; intros [= <- <-]; done.
Qed.

Lemma fault_blind_db_rollback : fault_blind db_rollback.
Proof. by intros [db ks lg f] a w' [= <- <-]. Qed.

Lemma fault_blind_log_and_notify (text : string) : fault_blind (log_and_notify text).
Proof. by intros [db ks lg f] a w' [= <- <-]. Qed.

Lemma fault_blind_read_kill_switch : fault_blind read_kill_switch.
Proof. by intros [db ks lg f] a w' [= <- <-]. Qed.

Lemma fault_blind_lift_result {A : Type} (r : Result A) : fault_blind (lift_result r).
Proof. by intros [db ks lg f] a w' [= -> <-]. Qed.

Lemma fault_blind_try {A : Type} (body : M A) :
  fault_blind body → fault_blind (try_rollback_raise body).
Proof.
  intros Hb w a w'. rewrite !run_try_rollback_raise.
  destruct (body w) as [[a1|e1] w1] eqn:Hbw; [|done].
  intros [= <- <-]. by rewrite (Hb _ _ _ Hbw).
Qed.

Ltac blind :=
  repeat first
    [ apply fault_blind_db_call
    | apply fault_blind_try
    | apply fault_blind_bind; [|intros ?]
    | apply fault_blind_db_rollback
    | apply fault_blind_log_and_notify
    | apply fault_blind_read_kill_switch
    | apply fault_blind_lift_result
    | apply fault_blind_ret
    | progress cbv zeta
    | case_match ].

Section FaultBlind.
Context `{PyRuntime} `{BrokerBase}.

Lemma ingest_fault_blind news mapper :
  fault_blind (ingest_and_create_signal_from news mapper).
Proof. unfold ingest_and_create_signal_from. blind. Qed.

Lemma entry_fault_blind td sid tk qty : fault_blind (execute_signal_entry td sid tk qty).
Proof. unfold execute_signal_entry. blind. Qed.

Lemma exit_fault_blind sid tk qty pid : fault_blind (execute_signal_exit sid tk qty pid).
Proof. unfold execute_signal_exit. blind. Qed.

(** A transaction that returns was started on an idle connection. *)
Lemma begun_idle {A : Type} (body : M A) (w : World) (a : A) (w' : World) :
  (db_call begin ≫= λ _, body) w = (Ok a, w') → tx (conn w) = None.
Proof.
  rewrite run_bind. unfold db_call. rewrite run_bind. unfold storage_fault, run_sql, begin.
  destruct w as [[c [t|]] ks lg f]; [|done]. cbn.
  by destruct f as [[|n]|].
Qed.

End FaultBlind.

(** ** Phase 3 fails after Phase 2 has committed *)

Section SettlementFailure.
Context `{PyRuntime} `{BrokerBase}.

(** What a returned Tx #2 has committed, whatever the engine's faults were. *)
Lemma entry_committed (w w1 : World) (td : string) (sid : Z) (tk : string) (qty : float)
    (pid : Z) :
  execute_signal_entry td sid tk qty w = (Ok (Some pid), w1) →
  let s := committed (conn w) in
  let oid := next_rowid (orders s) in
  let key := "entry:" +:+ str_int pid +:+ ":" +:+ str_int oid in
  ∃ r p o,
    send_order (buy_request sid tk qty) = Ok r
    ∧ pid = next_rowid (positions s)
    ∧ tx (conn w1) = None
    ∧ rows (positions (committed (conn w1))) !! pid = Some p
    ∧ pos_status p = OPEN
    ∧ pos_avg_entry_price p = Some (res_avg_price r)
    ∧ pos_opened_value p = Some (res_avg_price r * qty)%float
    ∧ rows (orders (committed (conn w1))) !! oid = Some o
    ∧ ord_position_id o = pid ∧ ord_side o = "BUY" ∧ ord_status o = "FILLED"
    ∧ ord_price o = Some (res_avg_price r)
    ∧ map_Exists (λ _ ev, pev_idempotency_key ev = Some key)
        (rows (position_events (committed (conn w1)))).
Proof.
  intros Hrun s oid key.
  pose proof (begun_idle _ _ _ _ Hrun) as Hidle.
  apply entry_fault_blind in Hrun.
  destruct w as [[c t] ks lg f]. cbn in Hidle, s. subst t.
  unfold set_faults in Hrun at 1. cbn in Hrun. fold (connect c) in Hrun.
  destruct (allowed (can_trade ks (Some (risk_state_dict
              (default default_risk_state (risk_state c !! td)))))) eqn:Hgate;
    [|by rewrite entry_gate_blocked in Hrun].
  destruct (PrimFloat.is_nan qty) eqn:Hqty;
    [by rewrite entry_nan_qty in Hrun|].
  destruct (send_order (buy_request sid tk qty)) as [r|e] eqn:Hsend;
    [|by rewrite (entry_broker_raises c ks lg td sid tk qty e) in Hrun].
  destruct (decide (res_status r = "FILLED")) as [Hst|Hst];
    [|by rewrite (entry_not_filled c ks lg td sid tk qty r) in Hrun].
  rewrite (entry_filled c ks lg td sid tk qty r) in Hrun by done.
  apply pair_equal_spec in Hrun as [Hpid Hw1]. injection Hpid as <-.
  apply (f_equal conn) in Hw1. cbn in Hw1. rewrite <-Hw1. cbn.
  eexists r, _, _.
  split_and!;
    first [ exact Hsend
          | apply lookup_insert_eq
          | apply after_insert_event_key; rewrite !elem_of_cons; by auto
          | reflexivity ].
Qed.

(** C9. If Phase 2 has committed and Phase 3 then raises, whatever the
    exception and wherever in Phase 3 it is raised, [execute_signal] raises
    it and the connection is exactly as Phase 2's commit left it: Phase 3's
    writes (the SELL order, the CLOSED status, the FULL_EXIT event) are
    gone, no transaction is open, the position is still OPEN, the BUY order
    is still FILLED, and the event recorded under the entry key is still
    there. *)
Theorem settlement_failure_keeps_entry (w w1 w2 : World) (td : string) (sid : Z)
    (tk : string) (qty : float) (pid : Z) (e : exn) :
  execute_signal_entry td sid tk qty w = (Ok (Some pid), w1) →
  execute_signal_exit sid tk qty pid w1 = (Raise e, w2) →
  execute_signal td sid tk qty w = (Raise e, w2)
  ∧ conn w2 = conn w1
  ∧ tx (conn w2) = None
  ∧ (∃ p, rows (positions (committed (conn w2))) !! pid = Some p ∧ pos_status p = OPEN)
  ∧ (∃ oid o, rows (orders (committed (conn w2))) !! oid = Some o
              ∧ ord_position_id o = pid ∧ ord_side o = "BUY" ∧ ord_status o = "FILLED"
              ∧ map_Exists (λ _ ev, pev_idempotency_key ev
                                    = Some ("entry:" +:+ str_int pid +:+ ":" +:+ str_int oid))
                  (rows (position_events (committed (conn w2))))).
Proof.
  intros Hentry Hexit.
  destruct (entry_committed _ _ _ _ _ _ _ Hentry)
    as (r & p & o & _ & _ & Hidle & Hp & Hst & _ & _ & Ho & Hopid & Hside & Hfilled & _ & Hev).
  pose proof (exit_raise_restores _ _ _ _ _ _ _ Hidle Hexit) as Hconn.
  split_and!.
  - unfold execute_signal. by rewrite run_bind, Hentry.
  - exact Hconn.
  - by rewrite Hconn.
  - rewrite Hconn. by exists p.
  - rewrite Hconn. by eexists _, o.
Qed.

End SettlementFailure.

Lemma settlement_failure_keeps_entry_witness :
  let w := set_faults (Some 11%nat) world0 in
  let w1 := (@execute_signal_entry toy_runtime PaperBroker "2026-01-01" 1 "005930" 1 w).2 in
  let w2 := (@execute_signal_exit toy_runtime 1 "005930" 1 1 w1).2 in
  @execute_signal toy_runtime PaperBroker "2026-01-01" 1 "005930" 1 w
  = (Raise (SqliteOperationalError "disk I/O error"), w2)
  ∧ conn w2 = conn w1
  ∧ tx (conn w2) = None
  ∧ (∃ p, rows (positions (committed (conn w2))) !! 1 = Some p ∧ pos_status p = OPEN)
  ∧ (∃ oid o, rows (orders (committed (conn w2))) !! oid = Some o
              ∧ ord_position_id o = 1 ∧ ord_side o = "BUY" ∧ ord_status o = "FILLED"
              ∧ map_Exists (λ _ ev, pev_idempotency_key ev
                                    = Some ("entry:" +:+ str_int 1 +:+ ":" +:+ str_int oid))
                  (rows (position_events (committed (conn w2))))).
Proof.
  intros w w1 w2.
  apply (@settlement_failure_keeps_entry toy_runtime PaperBroker w w1 w2
           "2026-01-01" 1 "005930" 1 1 (SqliteOperationalError "disk I/O error"));
    vm_compute; reflexivity.
Defined.

(** ** Pipeline: Tx #1 on a healthy engine *)

#[local] Arguments news_item : simpl never.
#[local] Arguments build_hash : simpl never.

Section Ingest.
Context `{PyRuntime}.

Lemma insert_news_if_new_in_tx (item : NewsRow) (c s : Store) :
  insert_news_if_new item false {| committed := c; tx := Some s |}
  = (Ok match news_violation item (rows (news_events s)) with
        | Some _ => None
        | None => Some (next_rowid (news_events s))
        end,
     {| committed := c;
        tx := Some (set_news_events (after_insert_news item (news_events s)) s) |}).
Proof.
  unfold insert_news_if_new, sql_insert_news, after_insert_news. cbn.
  destruct (news_violation item (rows (news_events s))); cbn.
  - by rewrite set_news_events_same.
  - reflexivity.
Qed.

Lemma insert_event_ticker_in_tx nid tk cn conf meth (c s : Store) :
  PrimFloat.is_nan conf = false →
  insert_event_ticker nid tk cn conf meth false {| committed := c; tx := Some s |}
  = (Ok (next_rowid (event_tickers s)),
     {| committed := c;
        tx := Some (set_event_tickers
                      {| rows := <[next_rowid (event_tickers s) :=
                                     {| etr_news_id := nid; etr_ticker := tk;
                                        etr_company_name := cn;
                                        etr_map_confidence := conf;
                                        etr_mapping_method := meth |}]>
                                   (rows (event_tickers s));
                         seq := next_rowid (event_tickers s) |} s) |}).
Proof. intros Hconf. unfold insert_event_ticker, not_null_real. by rewrite Hconf. Qed.

Lemma insert_signal_in_tx (payload : SignalRow) (c s : Store) :
  signal_not_null payload = None →
  signal_violation payload = None →
  insert_signal payload false {| committed := c; tx := Some s |}
  = (Ok (next_rowid (signal_scores s)),
     {| committed := c;
        tx := Some (set_signal_scores
                      {| rows := <[next_rowid (signal_scores s) := payload]>
                                   (rows (signal_scores s));
                         seq := next_rowid (signal_scores s) |} s) |}).
Proof. intros Hnn Hv. unfold insert_signal. by rewrite Hnn, Hv. Qed.

(** The weights are read from the registry alone. *)
Lemma get_score_weights_registry (db1 db2 : DB) :
  parameter_registry (view db1) = parameter_registry (view db2) →
  get_score_weights db1 = get_score_weights db2.
Proof. intros Hreg. unfold get_score_weights, get_parameter. by rewrite Hreg. Qed.

(** The signal row of Tx #1 always passes the CHECKs of [signal_scores]. *)
Lemma signal_violation_scored nid etid tk comps (weights : option (gmap string float)) :
  signal_violation
    {| sr_news_id := nid; sr_event_ticker_id := etid; sr_ticker := tk;
       sr_raw_score := (compute_scores components_input weights).1;
       sr_total_score := (compute_scores components_input weights).2;
       sr_components := comps; sr_priced_in_flag := "LOW"; sr_decision := "BUY" |} = None.
Proof.
  unfold signal_violation. cbn [sr_total_score sr_priced_in_flag sr_decision].
  rewrite compute_scores_total.
  destruct (clamp_in_range (compute_scores components_input weights).1) as [-> ->].
  rewrite !bool_decide_eq_true_2 by (rewrite !elem_of_cons; auto). done.
Qed.

(** It passes the NOT NULL constraints as soon as the raw score is a number:
    the clamped total is then one too. *)
Lemma signal_not_null_scored nid etid tk comps (weights : option (gmap string float)) :
  PrimFloat.is_nan (compute_scores components_input weights).1 = false →
  signal_not_null
    {| sr_news_id := nid; sr_event_ticker_id := etid; sr_ticker := tk;
       sr_raw_score := (compute_scores components_input weights).1;
       sr_total_score := (compute_scores components_input weights).2;
       sr_components := comps; sr_priced_in_flag := "LOW"; sr_decision := "BUY" |} = None.
Proof.
  intros Hraw. unfold signal_not_null, not_null_real.
  cbn [sr_raw_score sr_total_score]. rewrite Hraw.
  rewrite compute_scores_total.
  destruct (clamp_in_range (compute_scores components_input weights).1) as [Hlo _].
  by rewrite (float_leb_not_nan _ _ Hlo).
Qed.

Lemma ingest_duplicate (s : Store) (ks : KillSwitch) (lg : list string)
    (news : NewsItem) (mapper : string → option MappingResult) :
  is_Some (news_violation (news_item news (build_hash news)) (rows (news_events s))) →
  ingest_and_create_signal_from news mapper
    {| conn := connect s; kill_switch := ks; log := lg; faults := None |}
  = (Ok None,
     {| conn := connect s; kill_switch := ks; log := lg ++ ["DUP_NEWS_SKIPPED"];
        faults := None |}).
Proof.
  intros [msg Hv]. unfold ingest_and_create_signal_from.
  step. rewrite begin_idle. cbn.
  step. step. rewrite insert_news_if_new_in_tx, Hv. cbn.
  repeat step. reflexivity.
Qed.

Lemma ingest_low_confidence (s : Store) (ks : KillSwitch) (lg : list string)
    (news : NewsItem) (mapper : string → option MappingResult) (m : MappingResult) :
  news_violation (news_item news (build_hash news)) (rows (news_events s)) = None →
  mapper (ni_title news +:+ " " +:+ ni_body news) = Some m →
  PrimFloat.ltb (mr_confidence m) default_min_conf = true →
  ingest_and_create_signal_from news mapper
    {| conn := connect s; kill_switch := ks; log := lg; faults := None |}
  = (Raise (IntegrityError "LOW_CONFIDENCE"),
     {| conn := connect s; kill_switch := ks; log := lg; faults := None |}).
Proof.
  intros Hv Hmap Hlow. unfold ingest_and_create_signal_from.
  step. rewrite begin_idle. cbn.
  step. step. rewrite insert_news_if_new_in_tx, Hv. cbn.
  rewrite Hmap.
  step. rewrite insert_event_ticker_in_tx by (by eapply float_ltb_not_nan). cbn.
  step. unfold get_event_ticker. cbn. rewrite lookup_insert_eq. cbn.
  step. rewrite validate_signal_binding_cases. cbn.
  rewrite decide_True by done. rewrite Hlow. reflexivity.
Qed.

Lemma ingest_creates_signal (s : Store) (ks : KillSwitch) (lg : list string)
    (news : NewsItem) (mapper : string → option MappingResult) (m : MappingResult) :
  let item := news_item news (build_hash news) in
  news_violation item (rows (news_events s)) = None →
  mapper (ni_title news +:+ " " +:+ ni_body news) = Some m →
  PrimFloat.ltb (mr_confidence m) default_min_conf = false →
  PrimFloat.is_nan (mr_confidence m) = false →
  PrimFloat.is_nan (compute_scores components_input (get_score_weights (connect s))).1
  = false →
  let nid := next_rowid (news_events s) in
  let etid := next_rowid (event_tickers s) in
  let sgid := next_rowid (signal_scores s) in
  let scores := compute_scores components_input (get_score_weights (connect s)) in
  let s1 := set_news_events {| rows := <[nid := item]> (rows (news_events s)); seq := nid |} s in
  let s2 := set_event_tickers
              {| rows := <[etid := {| etr_news_id := nid; etr_ticker := mr_ticker m;
                                      etr_company_name := mr_company_name m;
                                      etr_map_confidence := mr_confidence m;
                                      etr_mapping_method := mr_method m |}]>
                           (rows (event_tickers s));
                 seq := etid |} s1 in
  let s3 := set_signal_scores
              {| rows := <[sgid := {| sr_news_id := nid; sr_event_ticker_id := etid;
                                      sr_ticker := mr_ticker m;
                                      sr_raw_score := scores.1; sr_total_score := scores.2;
                                      sr_components := json_dumps components;
                                      sr_priced_in_flag := "LOW"; sr_decision := "BUY" |}]>
                           (rows (signal_scores s));
                 seq := sgid |} s2 in
  ingest_and_create_signal_from news mapper
    {| conn := connect s; kill_switch := ks; log := lg; faults := None |}
  = (Ok (Some {| signal_id := sgid; ticker := mr_ticker m |}),
     {| conn := connect s3; kill_switch := ks; log := lg; faults := None |}).
Proof.
  intros item Hv Hmap Hconf Hnum Hraw nid etid sgid scores s1 s2 s3.
  unfold ingest_and_create_signal_from.
  step. rewrite begin_idle. cbn.
  step. step. rewrite insert_news_if_new_in_tx. fold item. rewrite Hv. cbn.
  rewrite Hmap.
  step. rewrite insert_event_ticker_in_tx by done. cbn.
  step. unfold get_event_ticker. cbn. rewrite lookup_insert_eq. cbn.
  step. rewrite validate_signal_binding_cases. cbn.
  rewrite decide_True by done. rewrite Hconf.
  step.
  rewrite (get_score_weights_registry _ (connect s)) by reflexivity.
  rewrite (surjective_pairing (compute_scores _ _)).
  step. rewrite insert_signal_in_tx
    by first [apply signal_violation_scored | by apply signal_not_null_scored]. cbn.
  repeat step.
  unfold s3, s2, s1, scores, nid, etid, sgid, after_insert_news, set_conn, commit, connect.
  fold item. rewrite Hv. reflexivity.
Qed.

End Ingest.

(** ** Signal integrity inside Tx #1 *)

Section IntegrityGate.
Context `{PyRuntime}.

(** C7. [validate_signal_binding] fails with NEWS_MISMATCH when the binding's
    news id differs from the input (checked first, whatever the confidence),
    fails with LOW_CONFIDENCE when the ids agree and the confidence is below
    the minimum (0.92 by default), and succeeds otherwise.  In Tx #1 an
    integrity failure -- like any exception -- leaves the connection rolled
    back with the committed store untouched, so no Signal row (and no
    binding) exists for it; and a binding mapped below 0.92 does make Tx #1
    raise LOW_CONFIDENCE. *)
Theorem integrity_gate :
  (∀ input_news_id et min_conf,
     (et_news_id et ≠ input_news_id →
        validate_signal_binding input_news_id et min_conf
        = Raise (IntegrityError "NEWS_MISMATCH"))
     ∧ (et_news_id et = input_news_id →
        PrimFloat.ltb (et_map_confidence et) min_conf = true →
        validate_signal_binding input_news_id et min_conf
        = Raise (IntegrityError "LOW_CONFIDENCE"))
     ∧ (et_news_id et = input_news_id →
        PrimFloat.ltb (et_map_confidence et) min_conf = false →
        validate_signal_binding input_news_id et min_conf = Ok tt))
  ∧ default_min_conf = 0.92%float
  ∧ (∀ news mapper w e w',
       tx (conn w) = None →
       ingest_and_create_signal_from news mapper w = (Raise e, w') →
       conn w' = conn w
       ∧ signal_scores (committed (conn w')) = signal_scores (committed (conn w))
       ∧ event_tickers (committed (conn w')) = event_tickers (committed (conn w))
       ∧ tx (conn w') = None)
  ∧ (∀ news mapper m w,
       tx (conn w) = None → faults w = None →
       news_violation (news_item news (build_hash news))
         (rows (news_events (committed (conn w)))) = None →
       mapper (ni_title news +:+ " " +:+ ni_body news) = Some m →
       PrimFloat.ltb (mr_confidence m) default_min_conf = true →
       ingest_and_create_signal_from news mapper w
       = (Raise (IntegrityError "LOW_CONFIDENCE"), w)).
Proof.
  split_and!.
  - intros input_news_id et min_conf. rewrite validate_signal_binding_cases.
    split_and!.
    + intros Hne. by rewrite decide_False.
    + intros Heq Hlow. by rewrite decide_True, Hlow.
    + intros Heq Hok. by rewrite decide_True, Hok.
  - reflexivity.
  - intros news mapper w e w' Hidle Hrun.
    pose proof (ingest_raise_restores news mapper w e w' Hidle Hrun) as Hconn.
    by rewrite Hconn.
  - intros news mapper m [[c t] ks lg f]. cbn. intros -> -> Hv Hmap Hlow.
    fold (connect c). by apply (ingest_low_confidence c ks lg news mapper m).
Qed.

End IntegrityGate.

Lemma integrity_gate_witness :
  @ingest_and_create_signal_from toy_runtime (sample_news "2026-01-01T00:00:00+00:00")
    low_confidence_mapper world0
  = (Raise (IntegrityError "LOW_CONFIDENCE"), world0).
Proof.
  apply (@integrity_gate toy_runtime) with
    (m := {| mr_ticker := "005930"; mr_company_name := "Samsung Electronics";
             mr_confidence := 0.5%float; mr_method := "alias_dict" |});
    vm_compute; reflexivity.
Defined.

(** ** Phases 2 and 3 in sequence on a healthy engine *)

Section FullCycle.
Context `{PyRuntime} `{BrokerBase}.

(** With the gate open and the order filled, [execute_signal] returns [True]
    whatever the store holds: neither insert into [position_events] can make
    it fail, taken key or not. *)
Lemma execute_signal_fills (s : Store) (ks : KillSwitch) (lg : list string)
    (td : string) (sid : Z) (tk : string) (qty : float) (r : OrderResult) :
  PrimFloat.is_nan qty = false →
  allowed (can_trade ks (Some (risk_state_dict
             (default default_risk_state (risk_state s !! td))))) = true →
  send_order (buy_request sid tk qty) = Ok r →
  res_status r = "FILLED" →
  let pid := next_rowid (positions s) in
  let oid := next_rowid (orders s) in
  let p := opened (res_avg_price r) (res_avg_price r * qty) (pending_position tk sid qty) in
  let buy := fill_order (res_avg_price r)
               (new_order pid sid tk "BUY" qty "MARKET" "SENT" None) in
  let orders1 := {| rows := <[oid := buy]> (rows (orders s)); seq := oid |} in
  let oid' := next_rowid orders1 in
  let sell := fill_order 83600 (new_order pid sid tk "SELL" qty "MARKET" "SENT" None) in
  ∃ w1 w2,
    execute_signal_entry td sid tk qty
      {| conn := connect s; kill_switch := ks; log := lg; faults := None |}
    = (Ok (Some pid), w1)
    ∧ execute_signal_exit sid tk qty pid w1 = (Ok true, w2)
    ∧ execute_signal td sid tk qty
        {| conn := connect s; kill_switch := ks; log := lg; faults := None |}
      = (Ok true, w2)
    ∧ tx (conn w1) = None ∧ tx (conn w2) = None
    ∧ rows (positions (committed (conn w1))) = <[pid := p]> (rows (positions s))
    ∧ rows (positions (committed (conn w2)))
      = <[pid := closed "TIME_EXIT" p]> (rows (positions s))
    ∧ rows (orders (committed (conn w1))) = <[oid := buy]> (rows (orders s))
    ∧ rows (orders (committed (conn w2))) = <[oid' := sell]> (<[oid := buy]> (rows (orders s)))
    ∧ (∃ ev1 ev2,
         position_events (committed (conn w1))
         = after_insert_event ev1 (position_events s)
         ∧ position_events (committed (conn w2))
           = after_insert_event ev2 (after_insert_event ev1 (position_events s))
         ∧ pev_event_type ev1 = "ENTRY" ∧ pev_event_type ev2 = "FULL_EXIT"
         ∧ pev_action ev1 = "EXECUTED" ∧ pev_action ev2 = "EXECUTED"
         ∧ pev_idempotency_key ev1 = Some ("entry:" +:+ str_int pid +:+ ":" +:+ str_int oid)
         ∧ pev_idempotency_key ev2 = Some ("exit:" +:+ str_int pid +:+ ":" +:+ str_int oid')).
Proof.
  intros Hqty Hok Hsend Hst pid oid p buy orders1 oid' sell.
  pose proof (entry_filled s ks lg td sid tk qty r Hqty Hok Hsend Hst) as Hentry.
  cbv zeta in Hentry. fold pid oid p buy in Hentry.
  match type of Hentry with _ = (_, {| conn := connect ?s4; log := ?lg1 |}) =>
    pose proof (exit_closes s4 ks lg1 sid tk qty pid p) as Hexit
  end.
  cbv zeta in Hexit. cbn in Hexit.
  specialize (Hexit Hqty (lookup_insert_eq _ _ _) eq_refl).
  rewrite ?orders_ensured, ?positions_ensured in Hexit.
  fold orders1 oid' sell in Hexit.
  eexists _, _. split_and!.
  - exact Hentry.
  - exact Hexit.
  - unfold execute_signal. rewrite run_bind, Hentry. exact Hexit.
  - reflexivity.
  - reflexivity.
  - reflexivity.
  - cbn. by rewrite insert_insert_eq.
  - reflexivity.
  - reflexivity.
  - eexists _, _. cbn. split_and!; reflexivity.
Qed.

End FullCycle.

(** ** Idempotency keys *)

Lemma after_insert_event_taken (r : PositionEventRow) (t : Table PositionEventRow)
    (key : string) :
  pev_idempotency_key r = Some key →
  map_Exists (λ _ r', pev_idempotency_key r' = Some key) (rows t) →
  after_insert_event r t = t.
Proof.
  intros Hk Hex. unfold after_insert_event.
  by destruct (position_event_violation_taken r (rows t) key Hk Hex) as [msg ->].
Qed.

Section Idempotency.
Context `{PyRuntime} `{BrokerBase}.

(** C4. Of two [insert_position_event] calls carrying the same key (the key
    not being in the table yet and the first row passing the table's CHECK
    constraints), the first returns a row id and adds exactly one row; the
    second, whatever else it carries, returns [None] and adds no row.  The
    pipeline does not treat the rejection as an error: when the entry key is
    already recorded (and the quantity is a number), Tx #2 still commits,
    adds no event row, and
    [execute_signal] goes on to return [True]. *)
Theorem idempotent_position_events :
  (∀ (db : DB) (key : string) pid1 et1 act1 rc1 dj1 ac1 pid2 et2 act2 rc2 dj2 ac2,
     et1 ∈ ["ENTRY"; "ADD"; "PARTIAL_EXIT"; "FULL_EXIT"; "BLOCK"] →
     act1 ∈ ["EXECUTED"; "SKIPPED"; "BLOCKED"] →
     ¬ map_Exists (λ _ r, pev_idempotency_key r = Some key)
         (rows (position_events (view db))) →
     ∃ rowid db1 db2,
       insert_position_event pid1 et1 act1 rc1 dj1 (Some key) ac1 db = (Ok (Some rowid), db1)
       ∧ rows (position_events (view db)) !! rowid = None
       ∧ rows (position_events (view db1))
         = <[rowid := new_position_event pid1 et1 act1 rc1 dj1 (Some key)]>
             (rows (position_events (view db)))
       ∧ size (rows (position_events (view db1)))
         = S (size (rows (position_events (view db))))
       ∧ insert_position_event pid2 et2 act2 rc2 dj2 (Some key) ac2 db1 = (Ok None, db2)
       ∧ view db2 = view db1
       ∧ committed db2 = committed db1)
  ∧ (∀ (w : World) td sid tk qty r,
       tx (conn w) = None → faults w = None →
       PrimFloat.is_nan qty = false →
       let s := committed (conn w) in
       let pid := next_rowid (positions s) in
       let oid := next_rowid (orders s) in
       allowed (can_trade (kill_switch w) (Some (risk_state_dict
                  (default default_risk_state (risk_state s !! td))))) = true →
       send_order (buy_request sid tk qty) = Ok r → res_status r = "FILLED" →
       map_Exists (λ _ ev, pev_idempotency_key ev
                           = Some ("entry:" +:+ str_int pid +:+ ":" +:+ str_int oid))
         (rows (position_events s)) →
       ∃ w1 w2,
         execute_signal_entry td sid tk qty w = (Ok (Some pid), w1)
         ∧ position_events (committed (conn w1)) = position_events s
         ∧ (∃ p, rows (positions (committed (conn w1))) !! pid = Some p
                 ∧ pos_status p = OPEN)
         ∧ execute_signal td sid tk qty w = (Ok true, w2)).
Proof.
  split.
  - intros db key pid1 et1 act1 rc1 dj1 ac1 pid2 et2 act2 rc2 dj2 ac2 Het Hact Hfresh.
    pose proof (insert_position_event_fresh db pid1 et1 act1 rc1 dj1 (Some key) ac1
                  Het Hact) as Hfirst.
    cbv zeta in Hfirst. rewrite Hfirst by (by intros k [= <-]).
    set (db1 := maybe_commit ac1 _).
    assert (rows (position_events (view db1))
            = <[next_rowid (position_events (view db)) :=
                  new_position_event pid1 et1 act1 rc1 dj1 (Some key)]>
                (rows (position_events (view db)))) as Hrows.
    { unfold db1. by rewrite view_maybe_commit, view_execute_dml. }
    destruct (insert_position_event_taken db1 pid2 et2 act2 rc2 dj2 key ac2)
      as (db2 & Hsecond & Hview & Hcomm).
    { rewrite Hrows. apply map_Exists_lookup. eexists _, _.
      split; [apply lookup_insert_eq|done]. }
    exists (next_rowid (position_events (view db))), db1, db2.
    split_and!; try done.
    + apply next_rowid_fresh.
    + rewrite Hrows. apply map_size_insert_None, next_rowid_fresh.
  - intros [[c t] ks lg f] td sid tk qty r. cbn. intros -> -> Hqty Hok Hsend Hst Htaken.
    fold (connect c).
    destruct (execute_signal_fills c ks lg td sid tk qty r Hqty Hok Hsend Hst)
      as (w1 & w2 & Hentry & Hexit & Hrun & _ & _ & Hpos & _ & _ & _
          & ev1 & ev2 & Hev1 & _ & _ & _ & _ & _ & Hkey1 & _).
    exists w1, w2. split_and!; try done.
    + rewrite Hev1. by eapply after_insert_event_taken.
    + rewrite Hpos. eexists. split; [apply lookup_insert_eq|reflexivity].
Qed.

End Idempotency.

Lemma idempotent_position_events_witness :
  (∃ rowid db1 db2,
    insert_position_event 1 "ENTRY" "EXECUTED" "ENTRY_FILLED" "{}" (Some "entry:1:1") true
      (connect empty_store) = (Ok (Some rowid), db1)
    ∧ rows (position_events (view (connect empty_store))) !! rowid = None
    ∧ rows (position_events (view db1))
      = <[rowid := new_position_event 1 "ENTRY" "EXECUTED" "ENTRY_FILLED" "{}"
                     (Some "entry:1:1")]>
          (rows (position_events (view (connect empty_store))))
    ∧ size (rows (position_events (view db1)))
      = S (size (rows (position_events (view (connect empty_store)))))
    ∧ insert_position_event 1 "ENTRY" "EXECUTED" "ENTRY_FILLED_DUP" "{}" (Some "entry:1:1")
        true db1 = (Ok None, db2)
    ∧ view db2 = view db1
    ∧ committed db2 = committed db1)
  ∧ (∃ w1 w2,
      @execute_signal_entry toy_runtime PaperBroker "2026-01-01" 1 "005930" 1
        {| conn := connect store_with_entry_key; kill_switch := KillSwitch_init;
           log := []; faults := None |} = (Ok (Some 1), w1)
      ∧ position_events (committed (conn w1)) = position_events store_with_entry_key
      ∧ (∃ p, rows (positions (committed (conn w1))) !! 1 = Some p ∧ pos_status p = OPEN)
      ∧ @execute_signal toy_runtime PaperBroker "2026-01-01" 1 "005930" 1
          {| conn := connect store_with_entry_key; kill_switch := KillSwitch_init;
             log := []; faults := None |} = (Ok true, w2)).
Proof.
  split.
  - apply (@idempotent_position_events toy_runtime PaperBroker).
    + rewrite !elem_of_cons. auto.
    + rewrite !elem_of_cons. auto.
    + apply map_Exists_empty.
  - apply (proj2 (@idempotent_position_events toy_runtime PaperBroker)
             {| conn := connect store_with_entry_key; kill_switch := KillSwitch_init;
                log := []; faults := None |} "2026-01-01" 1 "005930" 1%float
             {| res_status := "FILLED"; res_filled_qty := 1; res_avg_price := 83500;
                res_reason_code := None |}).
    + reflexivity.
    + reflexivity.
    + reflexivity.
    + vm_compute. reflexivity.
    + reflexivity.
    + reflexivity.
    + apply map_Exists_lookup. exists 1. eexists. split; vm_compute; reflexivity.
Defined.

(** ** End to end: ingest, enter, settle *)

Lemma news_violation_empty (item : NewsRow) :
  nr_tier item ∈ [1; 2; 3] → news_violation item ∅ = None.
Proof.
  intros Htier. unfold news_violation.
  rewrite (bool_decide_eq_true_2 _ Htier). cbn.
  rewrite !bool_decide_eq_false_2; [done|..]; apply map_Exists_empty.
Qed.

Section ScenarioA.
Context `{PyRuntime} `{BrokerBase}.

(** C2. From the freshly initialised (empty) store, with the kill switch off,
    a healthy engine, an event that maps with confidence not below 0.92, a
    broker that fills every order, and numbers -- not NaN -- for the
    quantity, the confidence and the raw score that the registry's weights
    give: Tx #1 returns signal id 1; Tx #2 leaves the position OPEN with
    [avg_entry_price] the broker's average price and [opened_value] that
    price times [qty]; Tx #3 closes it with [exit_reason_code] TIME_EXIT;
    afterwards there are exactly two orders, a FILLED BUY and a FILLED SELL,
    and exactly two position events. *)
Theorem scenario_A (w0 : World) (news : NewsItem) (mapper : string → option MappingResult)
    (m : MappingResult) (td : string) (qty : float) :
  conn w0 = init (connect empty_store) →
  enabled (kill_switch w0) = false →
  faults w0 = None →
  ni_tier news ∈ [1; 2; 3] →
  mapper (ni_title news +:+ " " +:+ ni_body news) = Some m →
  PrimFloat.ltb (mr_confidence m) default_min_conf = false →
  PrimFloat.is_nan (mr_confidence m) = false →
  PrimFloat.is_nan (compute_scores components_input (get_score_weights (conn w0))).1
  = false →
  PrimFloat.is_nan qty = false →
  (∀ req, ∃ r, send_order req = Ok r ∧ res_status r = "FILLED") →
  ∃ w1 w2 w3 r p_open p_closed buy sell,
    ingest_and_create_signal_from news mapper w0
    = (Ok (Some {| signal_id := 1; ticker := mr_ticker m |}), w1)
    ∧ send_order (buy_request 1 (mr_ticker m) qty) = Ok r
    ∧ execute_signal_entry td 1 (mr_ticker m) qty w1 = (Ok (Some 1), w2)
    ∧ rows (positions (committed (conn w2))) = {[1 := p_open]}
    ∧ pos_status p_open = OPEN
    ∧ pos_avg_entry_price p_open = Some (res_avg_price r)
    ∧ pos_opened_value p_open = Some (res_avg_price r * qty)%float
    ∧ execute_signal td 1 (mr_ticker m) qty w1 = (Ok true, w3)
    ∧ rows (positions (committed (conn w3))) = {[1 := p_closed]}
    ∧ pos_status p_closed = CLOSED
    ∧ pos_exit_reason_code p_closed = Some "TIME_EXIT"
    ∧ pos_avg_entry_price p_closed = Some (res_avg_price r)
    ∧ pos_opened_value p_closed = Some (res_avg_price r * qty)%float
    ∧ rows (orders (committed (conn w3))) = <[2 := sell]> {[1 := buy]}
    ∧ size (rows (orders (committed (conn w3)))) = 2%nat
    ∧ ord_side buy = "BUY" ∧ ord_status buy = "FILLED"
    ∧ ord_price buy = Some (res_avg_price r)
    ∧ ord_side sell = "SELL" ∧ ord_status sell = "FILLED"
    ∧ size (rows (position_events (committed (conn w3)))) = 2%nat.
Proof.
  destruct w0 as [db ks lg f]. cbn.
  intros -> Hks -> Htier Hmap Hconf Hnum Hraw Hqty Hfills.
  destruct (Hfills (buy_request 1 (mr_ticker m) qty)) as (r & Hsend & Hst).
  change (init (connect empty_store)) with (connect (insert_or_ignore_seed empty_store))
    in *.
  pose proof (ingest_creates_signal (insert_or_ignore_seed empty_store) ks lg news mapper m)
    as Hingest.
  cbv zeta in Hingest.
  assert (news_violation (news_item news (build_hash news))
            (rows (news_events (insert_or_ignore_seed empty_store))) = None) as Hv
    by (apply news_violation_empty; exact Htier).
  specialize (Hingest Hv Hmap Hconf Hnum Hraw).
  match type of Hingest with _ = (_, {| conn := connect ?st |}) => set (s3 := st) in * end.
  destruct (execute_signal_fills s3 ks lg td 1 (mr_ticker m) qty r)
    as (w2 & w3 & Hentry & Hexit & Hrun & _ & _ & Hpos2 & Hpos3 & Hord2 & Hord3
        & ev1 & ev2 & Hev2 & Hev3 & Het1 & Het2 & Hact1 & Hact2 & Hkey1 & Hkey2);
    [exact Hqty|by rewrite can_trade_today, Hks|exact Hsend|exact Hst|].
  eexists _, w2, w3, r, _, _, _, _.
  split_and!.
  - exact Hingest.
  - exact Hsend.
  - exact Hentry.
  - rewrite Hpos2. reflexivity.
  - reflexivity.
  - reflexivity.
  - reflexivity.
  - exact Hrun.
  - rewrite Hpos3. reflexivity.
  - reflexivity.
  - reflexivity.
  - reflexivity.
  - reflexivity.
  - rewrite Hord3. reflexivity.
  - rewrite Hord3. reflexivity.
  - reflexivity.
  - reflexivity.
  - reflexivity.
  - reflexivity.
  - reflexivity.
  - rewrite Hev3.
    assert (after_insert_event ev1 (position_events s3)
            = {| rows := {[1 := ev1]}; seq := 1 |}) as ->.
    { unfold after_insert_event.
      rewrite position_event_violation_ok;
        [reflexivity|rewrite Het1|rewrite Hact1|intros ? _; apply map_Exists_empty];
        rewrite !elem_of_cons; auto. }
    unfold after_insert_event.
    rewrite position_event_violation_ok.
    + reflexivity.
    + rewrite Het2, !elem_of_cons. auto.
    + rewrite Hact2, !elem_of_cons. auto.
    + intros k Hk (i & x & Hix & Hxk). cbn in Hix, Hxk.
      apply lookup_singleton_Some in Hix as [_ <-].
      rewrite Hkey2 in Hk. rewrite Hkey1 in Hxk. injection Hk as <-.
      injection Hxk as Hxk. vm_compute in Hxk. discriminate.
Qed.

End ScenarioA.

Lemma scenario_A_witness :
  ∃ w1 w3,
    @ingest_and_create_signal toy_runtime "2026-01-01T00:00:00+00:00" world0
    = (Ok (Some {| signal_id := 1; ticker := "005930" |}), w1)
    ∧ @execute_signal toy_runtime PaperBroker "2026-01-01" 1 "005930" 1 w1 = (Ok true, w3)
    ∧ size (rows (orders (committed (conn w3)))) = 2%nat
    ∧ size (rows (position_events (committed (conn w3)))) = 2%nat.
Proof.
  destruct (@scenario_A toy_runtime PaperBroker world0
              (sample_news "2026-01-01T00:00:00+00:00") map_ticker
              {| mr_ticker := "005930"; mr_company_name := "삼성전자";
                 mr_confidence := 0.98%float; mr_method := "alias_dict" |}
              "2026-01-01" 1)
    as (w1 & w2 & w3 & r & p_open & p_closed & buy & sell & Hingest & _ & _ & _ & _ & _ & _
        & Hrun & _ & _ & _ & _ & _ & _ & Horders & _ & _ & _ & _ & _ & Hevents).
  - reflexivity.
  - reflexivity.
  - reflexivity.
  - rewrite !elem_of_cons. auto.
  - vm_compute. reflexivity.
  - vm_compute. reflexivity.
  - vm_compute. reflexivity.
  - vm_compute. reflexivity.
  - reflexivity.
  - intros req. eexists. split; reflexivity.
  - exists w1, w3. split_and!; [exact Hingest|exact Hrun|exact Horders|exact Hevents].
Defined.

(** ** Parameter registry: the score weights *)

Section ScoreWeights.
Context `{PyRuntime}.

Lemma collect_weights_Some (raw : json) (keys : list string) (m : gmap string float) :
  collect_weights raw keys = Some m ↔
  ∃ fs, Forall2 (λ k f, ∃ v, subscript raw k = Some v ∧ py_float v = Some f) keys fs
        ∧ m = list_to_map (zip keys fs).
Proof.
  revert m. induction keys as [|k keys IH]; intros m; cbn.
  - split.
    + intros [= <-]. exists []. by split; [constructor|].
    + intros (fs & Hfs & ->). by destruct fs.
  - split.
    + destruct (subscript raw k) as [v|] eqn:Hv; [|done].
      destruct (py_float v) as [f|] eqn:Hf; [|done].
      destruct (collect_weights raw keys) as [m'|] eqn:Hm'; [|done].
      intros [= <-]. destruct (proj1 (IH m') eq_refl) as (fs & Hfs & ->).
      exists (f :: fs). split; [|done]. constructor; [by exists v|done].
    + intros (fs & Hfs & ->).
      destruct fs as [|f fs]; inversion Hfs as [|???? (v & Hv & Hf) Hrest]; subst.
      rewrite Hv, Hf.
      assert (collect_weights raw keys = Some (list_to_map (zip keys fs))) as ->
        by (apply IH; by exists fs).
      done.
Qed.

Lemma collect_weights_missing (raw : json) (keys : list string) (k : string) :
  k ∈ keys → subscript raw k = None → collect_weights raw keys = None.
Proof.
  intros Hk Hnone. induction keys as [|k' keys IH]; [by apply elem_of_nil in Hk|].
  cbn. apply elem_of_cons in Hk as [<-|Hk].
  - by rewrite Hnone.
  - rewrite (IH Hk). by repeat case_match.
Qed.

#[local] Arguments collect_weights : simpl never.

(** The scorer without a mapping: the five built-in weights. *)
Lemma compute_scores_builtin (inp : ScoreInput) :
  compute_scores inp None
  = (builtin_weighted_sum inp, clamped_to_0_100 (builtin_weighted_sum inp)).
Proof.
  unfold compute_scores, builtin_weighted_sum.
  rewrite !weight_merged by (unfold score_weight_keys; set_solver).
  by rewrite clamp_documented.
Qed.

(** C10. [get_score_weights] returns a mapping exactly when the
    'score_weights' row exists, its text parses to a non-empty JSON object,
    and each of the five keys is present with a value that [float] accepts;
    the mapping then holds those five floats.  In every other case it returns
    [None] -- in particular for an object that lacks any one of the five
    keys -- and the scorer then runs on the built-in defaults
    0.30/0.20/0.20/0.15/0.15 for all five weights, not key by key: the
    weights that a partial object does hold are not used. *)
Theorem get_score_weights_all_or_nothing (db : DB) :
  (∀ m, get_score_weights db = Some m ↔
        ∃ row kv fs,
          parameter_registry (view db) !! "score_weights" = Some row
          ∧ json_loads (par_value_json row) = Some (JObj kv)
          ∧ kv ≠ ∅
          ∧ Forall2 (λ k f, ∃ v, kv !! k = Some v ∧ py_float v = Some f)
              score_weight_keys fs
          ∧ m = list_to_map (zip score_weight_keys fs))
  ∧ (∀ row kv k,
        parameter_registry (view db) !! "score_weights" = Some row →
        json_loads (par_value_json row) = Some (JObj kv) →
        k ∈ score_weight_keys → kv !! k = None →
        get_score_weights db = None)
  ∧ (get_score_weights db = None →
     ∀ inp, compute_scores inp (get_score_weights db)
            = (builtin_weighted_sum inp, clamped_to_0_100 (builtin_weighted_sum inp)))
  ∧ (∀ row kv k,
        parameter_registry (view db) !! "score_weights" = Some row →
        json_loads (par_value_json row) = Some (JObj kv) →
        k ∈ score_weight_keys → kv !! k = None →
        ∀ inp, compute_scores inp (get_score_weights db)
               = (builtin_weighted_sum inp, clamped_to_0_100 (builtin_weighted_sum inp))).
Proof.
  assert (∀ row kv k,
            parameter_registry (view db) !! "score_weights" = Some row →
            json_loads (par_value_json row) = Some (JObj kv) →
            k ∈ score_weight_keys → kv !! k = None →
            get_score_weights db = None) as Hmissing.
  { intros row kv k Hrow Hraw Hk Hnone.
    unfold get_score_weights, get_parameter. rewrite Hrow, Hraw. cbn.
    destruct (negb (size kv =? 0)%nat); [|done]. cbn.
    by apply (collect_weights_missing _ _ k). }
  split_and!.
  - intros m. unfold get_score_weights, get_parameter. split.
    + destruct (parameter_registry (view db) !! "score_weights") as [row|] eqn:Hrow;
        [|done]. 
      destruct (json_loads (par_value_json row)) as [raw|] eqn:Hraw; [|done]. cbn.
      destruct (truthy raw) eqn:Htruthy; [|done]. cbn.
      intros Hcollect. apply collect_weights_Some in Hcollect as (fs & Hfs & ->).
      assert (∃ kv, raw = JObj kv) as [kv ->].
      { inversion Hfs as [|???? (v & Hv & _) _]; subst.
        destruct raw; try done. by eexists. }
      exists row, kv, fs. split_and!; try done.
      intros ->. vm_compute in Htruthy. discriminate.
    + intros (row & kv & fs & -> & Hraw & Hne & Hfs & ->). rewrite Hraw. cbn.
      assert (size kv ≠ 0%nat) as Hsize by by rewrite map_size_empty_iff.
      apply Nat.eqb_neq in Hsize. rewrite Hsize. cbn.
      apply collect_weights_Some. by exists fs.
  - exact Hmissing.
  - intros -> inp. apply compute_scores_builtin.
  - intros row kv k Hrow Hraw Hk Hnone inp.
    rewrite (Hmissing row kv k) by done. apply compute_scores_builtin.
Qed.

End ScoreWeights.

(** ** News ingestion: duplicates and other refused rows *)

(** An item whose url or raw hash is already stored creates no row and comes
    back as [None]. *)
Lemma duplicate_news_returns_none (db : DB) (item : NewsRow) (ac : bool) :
  map_Exists (λ _ r, nr_url r = nr_url item) (rows (news_events (view db)))
  ∨ map_Exists (λ _ r, nr_raw_hash r = nr_raw_hash item) (rows (news_events (view db))) →
  ∃ db', insert_news_if_new item ac db = (Ok None, db')
         ∧ view db' = view db ∧ committed db' = committed db.
Proof.
  intros Hdup. unfold insert_news_if_new, sql_insert_news.
  assert (is_Some (news_violation item (rows (news_events (view db))))) as [msg ->].
  { unfold news_violation. repeat (case_match; [by eexists|]).
    exfalso. destruct Hdup as [Hdup|Hdup].
    - by rewrite bool_decide_eq_true_2 in * by done.
    - by rewrite (bool_decide_eq_true_2 _ Hdup) in *. }
  eexists. by split_and!.
Qed.

(** So does an item that no stored row resembles, when a CHECK refuses it. *)
Lemma refused_news_returns_none (db : DB) (item : NewsRow) (ac : bool) :
  nr_tier item ∉ [1; 2; 3] →
  ∃ db', insert_news_if_new item ac db = (Ok None, db')
         ∧ view db' = view db ∧ committed db' = committed db.
Proof.
  intros Htier. unfold insert_news_if_new, sql_insert_news, news_violation.
  rewrite (bool_decide_eq_false_2 _ Htier). cbn.
  eexists. by split_and!.
Qed.

(** The same (source, url, title) submitted twice: the second ingestion is the
    benign skip, and the table still holds the one row. *)
Lemma second_submission_skipped `{PyRuntime} (s : Store) (ks : KillSwitch)
    (lg : list string) (news news' : NewsItem) (mapper : string → option MappingResult)
    (m : MappingResult) :
  news_violation (news_item news (build_hash news)) (rows (news_events s)) = None →
  mapper (ni_title news +:+ " " +:+ ni_body news) = Some m →
  PrimFloat.ltb (mr_confidence m) default_min_conf = false →
  PrimFloat.is_nan (mr_confidence m) = false →
  PrimFloat.is_nan (compute_scores components_input (get_score_weights (connect s))).1
  = false →
  ni_url news' = ni_url news →
  ∃ b w1 w2,
    ingest_and_create_signal_from news mapper
      {| conn := connect s; kill_switch := ks; log := lg; faults := None |} = (Ok (Some b), w1)
    ∧ ingest_and_create_signal_from news' mapper w1 = (Ok None, w2)
    ∧ log w2 = lg ++ ["DUP_NEWS_SKIPPED"]
    ∧ conn w2 = conn w1
    ∧ size (rows (news_events (committed (conn w2)))) = S (size (rows (news_events s))).
Proof.
  intros Hv Hmap Hconf Hnum Hraw Hurl.
  rewrite (ingest_creates_signal s ks lg news mapper m) by done. cbv zeta.
  eexists _, _, _. split; [reflexivity|].
  rewrite ingest_duplicate.
  - split_and!; try reflexivity. cbn.
    apply map_size_insert_None, next_rowid_fresh.
  - cbn. unfold news_violation. repeat (case_match; [by eexists|]).
    exfalso.
    match goal with Hx : bool_decide (map_Exists (λ _ r, nr_url r = _) _) = false |- _ =>
      apply bool_decide_eq_false in Hx; apply Hx end.
    apply map_Exists_lookup. eexists _, _. split; [apply lookup_insert_eq|].
    unfold news_item. cbn. by rewrite Hurl.
Qed.

(** C5 (the code at the failing input). An item of tier 4 that shares neither
    url nor hash with any stored row: the INSERT fails on the CHECK
    constraint, not on a uniqueness constraint, and yet [insert_news_if_new]
    returns [None] and Tx #1 reports DUP_NEWS_SKIPPED. *)
Theorem check_failure_reported_as_duplicate :
  let item := news_item tier4_news (@build_hash toy_runtime tier4_news) in
  ¬ map_Exists (λ _ r, nr_url r = nr_url item ∨ nr_raw_hash r = nr_raw_hash item)
      (rows (news_events (view (conn world0))))
  ∧ (sql_insert_news item (conn world0)).1
    = Raise (SqliteIntegrityError "CHECK constraint failed: tier in (1,2,3)")
  ∧ (insert_news_if_new item true (conn world0)).1 = Ok None
  ∧ rows (news_events (view (insert_news_if_new item true (conn world0)).2)) = ∅
  ∧ (@ingest_and_create_signal_from toy_runtime tier4_news map_ticker world0).1 = Ok None
  ∧ log (@ingest_and_create_signal_from toy_runtime tier4_news map_ticker world0).2
    = ["DUP_NEWS_SKIPPED"].
Proof.
  intros item. split_and!.
  - apply map_Exists_empty.
  - vm_compute. reflexivity.
  - vm_compute. reflexivity.
  - vm_compute. reflexivity.
  - vm_compute. reflexivity.
  - vm_compute. reflexivity.
Qed.

Lemma get_score_weights_all_or_nothing_witness :
  @get_score_weights toy_runtime (conn world0)
  = Some (list_to_map (zip score_weight_keys
                         [0.30%float; 0.20%float; 0.20%float; 0.15%float; 0.15%float]))
  ∧ @get_score_weights partial_runtime (connect store_with_partial_weights) = None
  ∧ compute_scores components_input
      (@get_score_weights partial_runtime (connect store_with_partial_weights))
    = (builtin_weighted_sum components_input,
       clamped_to_0_100 (builtin_weighted_sum components_input)).
Proof.
  split_and!.
  - apply (@get_score_weights_all_or_nothing toy_runtime (conn world0)).
    exists {| par_id := 1; par_value_json := seed_score_weights; par_scope := "global";
              par_tune_required := 0; par_target_phase := None;
              par_rationale := Some "v1.2.3 base"; par_evidence_link := None |},
           (JFloat <$> DEFAULT_WEIGHTS),
           [0.30%float; 0.20%float; 0.20%float; 0.15%float; 0.15%float].
    split_and!.
    + vm_compute. reflexivity.
    + vm_compute. reflexivity.
    + intros Hempty. apply (f_equal (λ kv : gmap string json, size kv)) in Hempty.
      vm_compute in Hempty. discriminate.
    + unfold score_weight_keys.
      repeat (constructor; [eexists; split; vm_compute; reflexivity|]). constructor.
    + reflexivity.
  - apply (proj1 (proj2 (@get_score_weights_all_or_nothing partial_runtime
                           (connect store_with_partial_weights)))
             {| par_id := 1; par_value_json := partial_weights_text; par_scope := "global";
                par_tune_required := 0; par_target_phase := None;
                par_rationale := None; par_evidence_link := None |}
             {["impact" := JFloat 0.9%float]} "novelty").
    + vm_compute. reflexivity.
    + vm_compute. reflexivity.
    + unfold score_weight_keys. rewrite !elem_of_cons. auto.
    + vm_compute. reflexivity.
  - apply (proj2 (proj2 (proj2 (@get_score_weights_all_or_nothing partial_runtime
                                  (connect store_with_partial_weights))))
             {| par_id := 1; par_value_json := partial_weights_text; par_scope := "global";
                par_tune_required := 0; par_target_phase := None;
                par_rationale := None; par_evidence_link := None |}
             {["impact" := JFloat 0.9%float]} "novelty").
    + vm_compute. reflexivity.
    + vm_compute. reflexivity.
    + unfold score_weight_keys. rewrite !elem_of_cons. auto.
    + vm_compute. reflexivity.
Defined.

(** ** Examples *)

Example sorted_aliases :
  sorted_by_len_desc (fst <$> ALIASES) = ["SK하이닉스"; "삼성전자"; "삼성"].
Proof. vm_compute. reflexivity. Qed.

Example map_ticker_sample_news :
  map_ticker (ni_title (sample_news "t") +:+ " " +:+ ni_body (sample_news "t"))
  = Some {| mr_ticker := "005930"; mr_company_name := "삼성전자";
            mr_confidence := 0.98%float; mr_method := "alias_dict" |}.
Proof. vm_compute. reflexivity. Qed.

Example map_ticker_ambiguous : map_ticker "삼성 그룹 인사" = None.
Proof. vm_compute. reflexivity. Qed.

Example compute_scores_components :
  compute_scores components_input None = (59.5%float, 59.5%float).
Proof. vm_compute. reflexivity. Qed.

Example clamp_nan : clamp PrimFloat.nan 0 100 = 100%float.
Proof. vm_compute. reflexivity. Qed.

Example paper_broker_fills :
  PaperBroker_send_order (buy_request 1 "005930" 1)
  = Ok {| res_status := "FILLED"; res_filled_qty := 1; res_avg_price := 83500;
          res_reason_code := None |}.
Proof. reflexivity. Qed.

(** The kill switch blocks a run end to end, and nothing is stored. *)
Example kill_switch_blocks_run :
  @execute_signal toy_runtime PaperBroker "2026-01-01" 1 "005930" 1
    {| conn := conn world0; kill_switch := KillSwitch_on KillSwitch_init; log := [];
       faults := None |}
  = (Ok false,
     {| conn := conn world0; kill_switch := KillSwitch_on KillSwitch_init;
        log := ["BLOCKED:KILL_SWITCH_ON"]; faults := None |}).
Proof. vm_compute. reflexivity. Qed.

Example float_of_int_small : float_of_int 75 = Some 75%float.
Proof. vm_compute. reflexivity. Qed.

Example float_of_int_overflow : float_of_int (2 ^ 1024) = None.
Proof. vm_compute. reflexivity. Qed.

Example duplicate_submission :
  (@ingest_and_create_signal toy_runtime "t2"
     (@ingest_and_create_signal toy_runtime "t1" world0).2).1 = Ok None.
Proof. vm_compute. reflexivity. Qed.

(** * Further properties of the code *)

(** ** Scorer: the clamp on every binary64 value *)

(** X1. Whatever the components and the weights -- NaN and infinities
    included -- the total score that [compute_scores] returns lies in
    [0, 100]: it is the raw score when that lies strictly inside, 100 when
    the raw score is not below 100, and 0 when it is not above 0.  So the
    CHECK [total_score >= 0 and total_score <= 100] of [signal_scores] never
    refuses a scored row whose flag and decision are valid. *)
Theorem total_score_within_bounds (inp : ScoreInput) (weights : option (gmap string float)) :
  let raw := (compute_scores inp weights).1 in
  let total := (compute_scores inp weights).2 in
  PrimFloat.leb 0 total = true ∧ PrimFloat.leb total 100 = true
  ∧ (PrimFloat.ltb 0 raw = true → PrimFloat.ltb raw 100 = true → total = raw)
  ∧ (PrimFloat.ltb raw 100 = false → total = 100%float)
  ∧ (PrimFloat.ltb raw 100 = true → PrimFloat.ltb 0 raw = false → total = 0%float)
  ∧ (∀ r, sr_total_score r = total →
          sr_priced_in_flag r ∈ ["LOW"; "MEDIUM"; "HIGH"] →
          sr_decision r ∈ ["BUY"; "HOLD"; "IGNORE"; "BLOCK"] →
          signal_violation r = None).
Proof.
  intros raw total. unfold total. rewrite compute_scores_total. fold raw.
  destruct (clamp_in_range raw) as [Hlo Hhi].
  destruct (clamp_cases raw) as (Hin & Habove & Hbelow).
  split_and!; try done.
  intros r Hr Hflag Hdec. unfold signal_violation.
  rewrite Hr, Hlo, Hhi. cbn.
  by rewrite !bool_decide_eq_true_2.
Qed.

(** X2. A raw score that is NaN -- as soon as one component or weight is
    NaN -- is not rejected: the clamp turns it into the upper bound, so
    [compute_scores] reports the maximal total score 100. *)
Theorem nan_score_is_clamped_to_100 (inp : ScoreInput) (weights : option (gmap string float)) :
  PrimFloat.is_nan (compute_scores inp weights).1 = true →
  (compute_scores inp weights).2 = 100%float.
Proof.
  intros Hnan. rewrite compute_scores_total.
  apply clamp_cases. by apply float_nan_ltb.
Qed.

Lemma nan_score_is_clamped_to_100_witness :
  PrimFloat.is_nan (compute_scores nan_input None).1 = true
  ∧ (compute_scores nan_input None).2 = 100%float.
Proof.
  split; [vm_compute; reflexivity|].
  apply (nan_score_is_clamped_to_100 nan_input None). vm_compute. reflexivity.
Defined.

(** ** Ticker mapper *)

Lemma map_ticker_aliases (text : string) :
  map_ticker text
  = if str_contains "SK하이닉스" text then
      Some {| mr_ticker := "000660"; mr_company_name := "SK하이닉스";
              mr_confidence := 0.98%float; mr_method := "alias_dict" |}
    else if str_contains "삼성전자" text then
      Some {| mr_ticker := "005930"; mr_company_name := "삼성전자";
              mr_confidence := 0.98%float; mr_method := "alias_dict" |}
    else None.
Proof.
  unfold map_ticker.
  change (sorted_by_len_desc (fst <$> ALIASES)) with ["SK하이닉스"; "삼성전자"; "삼성"].
  cbn [map_ticker_scan].
  destruct (str_contains "SK하이닉스" text); [vm_compute; reflexivity|].
  destruct (str_contains "삼성전자" text); [vm_compute; reflexivity|].
  destruct (str_contains "삼성" text); vm_compute; reflexivity.
Qed.

(** What [map_ticker] returns is bound to one of the two listed instruments
    with confidence 0.98, which is not below the integrity threshold. *)
Lemma map_ticker_confident (text : string) (m : MappingResult) :
  map_ticker text = Some m →
  mr_ticker m ∈ ["005930"; "000660"]
  ∧ mr_confidence m = 0.98%float
  ∧ PrimFloat.ltb (mr_confidence m) default_min_conf = false.
Proof.
  rewrite map_ticker_aliases. repeat case_match; intros [= <-]; cbn;
    (split_and!; [set_solver|reflexivity|vm_compute; reflexivity]).
Qed.

(** X3. [map_ticker] tries the aliases longest first: a text that contains
    SK하이닉스 is bound to 000660, even when it names 삼성전자 as well;
    otherwise a text that contains 삼성전자 is bound to 005930, although it
    then also contains the ambiguous alias 삼성; every other text -- one that
    contains only 삼성, or no alias at all -- is bound to nothing.  Whatever
    it returns has a ticker and passes [validate_signal_binding] at the
    default threshold for the news item it was mapped from. *)
Theorem map_ticker_longest_alias_first (text : string) :
  map_ticker text
  = (if str_contains "SK하이닉스" text then
       Some {| mr_ticker := "000660"; mr_company_name := "SK하이닉스";
               mr_confidence := 0.98%float; mr_method := "alias_dict" |}
     else if str_contains "삼성전자" text then
       Some {| mr_ticker := "005930"; mr_company_name := "삼성전자";
               mr_confidence := 0.98%float; mr_method := "alias_dict" |}
     else None)
  ∧ (str_contains "SK하이닉스" text = false → str_contains "삼성전자" text = false →
     map_ticker text = None)
  ∧ (∀ m news_id id,
       map_ticker text = Some m →
       mr_ticker m ≠ ""
       ∧ validate_signal_binding news_id
           {| et_id := id; et_news_id := news_id; et_map_confidence := mr_confidence m |}
           default_min_conf = Ok tt).
Proof.
  split_and!.
  - unfold map_ticker.
    change (sorted_by_len_desc (fst <$> ALIASES)) with ["SK하이닉스"; "삼성전자"; "삼성"].
    cbn [map_ticker_scan].
    destruct (str_contains "SK하이닉스" text); [vm_compute; reflexivity|].
    destruct (str_contains "삼성전자" text); [vm_compute; reflexivity|].
    destruct (str_contains "삼성" text); vm_compute; reflexivity.
  - intros Hsk Hsamsung. by rewrite map_ticker_aliases, Hsk, Hsamsung.
  - intros m news_id id Hm.
    destruct (map_ticker_confident _ _ Hm) as (Htk & _ & Hconf). split.
    + intros Hempty. rewrite Hempty in Htk.
      apply elem_of_cons in Htk as [Htk|Htk]; [discriminate|].
      apply elem_of_cons in Htk as [Htk|Htk]; [discriminate|].
      by apply elem_of_nil in Htk.
    + rewrite validate_signal_binding_cases. cbn [et_news_id et_map_confidence].
      rewrite decide_True by done. by rewrite Hconf.
Qed.

(** ** Tx #1: texts that map and texts that do not *)

#[local] Arguments map_ticker : simpl never.

Section IngestMapper.
Context `{PyRuntime}.

Lemma ingest_no_mapping (s : Store) (ks : KillSwitch) (lg : list string)
    (news : NewsItem) (mapper : string → option MappingResult) :
  news_violation (news_item news (build_hash news)) (rows (news_events s)) = None →
  mapper (ni_title news +:+ " " +:+ ni_body news) = None →
  ingest_and_create_signal_from news mapper
    {| conn := connect s; kill_switch := ks; log := lg; faults := None |}
  = (Ok None,
     {| conn := connect s; kill_switch := ks; log := lg ++ ["NO_MAPPING"];
        faults := None |}).
Proof.
  intros Hv Hmap. unfold ingest_and_create_signal_from.
  step. rewrite begin_idle. cbn.
  step. step. rewrite insert_news_if_new_in_tx, Hv. cbn.
  rewrite Hmap.
  repeat step. reflexivity.
Qed.

Lemma insert_signal_in_tx_nan (payload : SignalRow) (msg : string) (c s : Store) :
  signal_not_null payload = Some msg →
  insert_signal payload false {| committed := c; tx := Some s |}
  = (Raise (SqliteIntegrityError msg), {| committed := c; tx := Some s |}).
Proof. intros Hnn. unfold insert_signal. by rewrite Hnn. Qed.

(** A raw score that is NaN stops Tx #1 at the INSERT of the signal. *)
Lemma ingest_nan_score (s : Store) (ks : KillSwitch) (lg : list string)
    (news : NewsItem) (mapper : string → option MappingResult) (m : MappingResult) :
  news_violation (news_item news (build_hash news)) (rows (news_events s)) = None →
  mapper (ni_title news +:+ " " +:+ ni_body news) = Some m →
  PrimFloat.ltb (mr_confidence m) default_min_conf = false →
  PrimFloat.is_nan (mr_confidence m) = false →
  PrimFloat.is_nan (compute_scores components_input (get_score_weights (connect s))).1
  = true →
  ingest_and_create_signal_from news mapper
    {| conn := connect s; kill_switch := ks; log := lg; faults := None |}
  = (Raise (SqliteIntegrityError "NOT NULL constraint failed: signal_scores.raw_score"),
     {| conn := connect s; kill_switch := ks; log := lg; faults := None |}).
Proof.
  intros Hv Hmap Hconf Hnum Hraw. unfold ingest_and_create_signal_from.
  step. rewrite begin_idle. cbn.
  step. step. rewrite insert_news_if_new_in_tx, Hv. cbn.
  rewrite Hmap.
  step. rewrite insert_event_ticker_in_tx by done. cbn.
  step. unfold get_event_ticker. cbn. rewrite lookup_insert_eq. cbn.
  step. rewrite validate_signal_binding_cases. cbn.
  rewrite decide_True by done. rewrite Hconf.
  step.
  rewrite (get_score_weights_registry _ (connect s)) by reflexivity.
  rewrite (surjective_pairing (compute_scores _ _)).
  step.
  rewrite (insert_signal_in_tx_nan _ "NOT NULL constraint failed: signal_scores.raw_score")
    by (unfold signal_not_null, not_null_real; cbn [sr_raw_score]; by rewrite Hraw).
  cbn. reflexivity.
Qed.

(** X4. With the shipped alias dictionary, Tx #1 never fails the integrity
    check.  On an idle connection and a healthy engine, for a news item that
    the store accepts: when the registry's weights give a raw score that is a
    number, the text either maps -- then the signal is created, for 005930
    or 000660, and its row is committed -- or does not map -- then the run
    ends with NO_MAPPING and the connection as it was; no third outcome (no
    LOW_CONFIDENCE, no EVENT_TICKER_NOT_FOUND) is possible.  When the weights
    give a NaN, a text that maps makes the run raise the
    [sqlite3.IntegrityError] of [signal_scores.raw_score real not null] and
    leave the world as it was. *)
Theorem shipped_mapper_never_low_confidence (w : World) (news : NewsItem) :
  tx (conn w) = None → faults w = None →
  news_violation (news_item news (build_hash news))
    (rows (news_events (committed (conn w)))) = None →
  let raw := (compute_scores components_input (get_score_weights (conn w))).1 in
  (PrimFloat.is_nan raw = false →
   ∃ r w',
     ingest_and_create_signal_from news map_ticker w = (Ok r, w')
     ∧ match map_ticker (ni_title news +:+ " " +:+ ni_body news) with
       | Some m =>
           r = Some {| signal_id := next_rowid (signal_scores (committed (conn w)));
                       ticker := mr_ticker m |}
           ∧ mr_ticker m ∈ ["005930"; "000660"]
           ∧ log w' = log w
           ∧ tx (conn w') = None
           ∧ size (rows (signal_scores (committed (conn w'))))
             = S (size (rows (signal_scores (committed (conn w)))))
       | None => r = None ∧ conn w' = conn w ∧ log w' = log w ++ ["NO_MAPPING"]
       end)
  ∧ (PrimFloat.is_nan raw = true →
     ∀ m, map_ticker (ni_title news +:+ " " +:+ ni_body news) = Some m →
          ingest_and_create_signal_from news map_ticker w
          = (Raise (SqliteIntegrityError
                      "NOT NULL constraint failed: signal_scores.raw_score"), w)).
Proof.
  destruct w as [[c t] ks lg f]. cbn. intros -> -> Hv. fold (connect c) in *. split.
  - intros Hraw.
    destruct (map_ticker (ni_title news +:+ " " +:+ ni_body news)) as [m|] eqn:Hmap.
    + destruct (map_ticker_confident _ _ Hmap) as (Htk & H98 & Hconf).
      assert (PrimFloat.is_nan (mr_confidence m) = false) as Hnum by (by rewrite H98).
      rewrite (ingest_creates_signal c ks lg news map_ticker m) by done. cbv zeta.
      eexists _, _. split; [reflexivity|]. split_and!; try done.
      cbn. apply map_size_insert_None, next_rowid_fresh.
    + rewrite ingest_no_mapping by done. eexists _, _. by split_and!.
  - intros Hraw m Hmap.
    destruct (map_ticker_confident _ _ Hmap) as (Htk & H98 & Hconf).
    assert (PrimFloat.is_nan (mr_confidence m) = false) as Hnum by (by rewrite H98).
    by apply ingest_nan_score with m.
Qed.

(** X5. When the mapper finds no instrument, Tx #1 rolls back the news row it
    has just inserted: the run returns [None], logs NO_MAPPING and leaves the
    connection as it was.  The item is therefore not remembered as seen: a
    later ingestion of the same item, with a mapper that does bind it (with
    a confidence that is a number not below the threshold, and weights that
    give a raw score that is a number), is not a duplicate and creates the
    signal. *)
Theorem no_mapping_leaves_no_news_row (w : World) (news : NewsItem)
    (mapper : string → option MappingResult) :
  tx (conn w) = None → faults w = None →
  news_violation (news_item news (build_hash news))
    (rows (news_events (committed (conn w)))) = None →
  mapper (ni_title news +:+ " " +:+ ni_body news) = None →
  ingest_and_create_signal_from news mapper w
  = (Ok None, set_log (log w ++ ["NO_MAPPING"]) w)
  ∧ ∀ mapper' m,
      mapper' (ni_title news +:+ " " +:+ ni_body news) = Some m →
      PrimFloat.ltb (mr_confidence m) default_min_conf = false →
      PrimFloat.is_nan (mr_confidence m) = false →
      PrimFloat.is_nan (compute_scores components_input (get_score_weights (conn w))).1
      = false →
      ∃ b w2,
        ingest_and_create_signal_from news mapper' (set_log (log w ++ ["NO_MAPPING"]) w)
        = (Ok (Some b), w2)
        ∧ ticker b = mr_ticker m
        ∧ size (rows (news_events (committed (conn w2))))
          = S (size (rows (news_events (committed (conn w))))).
Proof.
  destruct w as [[c t] ks lg f]. cbn. intros -> -> Hv Hmap. fold (connect c). split.
  - by rewrite ingest_no_mapping.
  - intros mapper' m Hmap' Hconf Hnum Hraw. unfold set_log. cbn.
    rewrite (ingest_creates_signal c ks (lg ++ ["NO_MAPPING"]) news mapper' m) by done.
    cbv zeta. eexists _, _. split_and!; try reflexivity.
    cbn. apply map_size_insert_None, next_rowid_fresh.
Qed.

End IngestMapper.

Lemma shipped_mapper_never_low_confidence_witness :
  let w_nan := {| conn := connect store_with_nan_weights; kill_switch := KillSwitch_init;
                  log := []; faults := None |} in
  (∃ r w',
     @ingest_and_create_signal_from toy_runtime unmapped_news map_ticker world0 = (Ok r, w')
     ∧ match map_ticker (ni_title unmapped_news +:+ " " +:+ ni_body unmapped_news) with
       | Some m =>
           r = Some {| signal_id := next_rowid (signal_scores (committed (conn world0)));
                       ticker := mr_ticker m |}
           ∧ mr_ticker m ∈ ["005930"; "000660"]
           ∧ log w' = log world0
           ∧ tx (conn w') = None
           ∧ size (rows (signal_scores (committed (conn w'))))
             = S (size (rows (signal_scores (committed (conn world0)))))
       | None => r = None ∧ conn w' = conn world0 ∧ log w' = log world0 ++ ["NO_MAPPING"]
       end)
  ∧ @ingest_and_create_signal_from nan_runtime (sample_news "t") map_ticker w_nan
    = (Raise (SqliteIntegrityError "NOT NULL constraint failed: signal_scores.raw_score"),
       w_nan).
Proof.
  intros w_nan. split.
  - refine (proj1 (@shipped_mapper_never_low_confidence toy_runtime world0 unmapped_news
                     _ _ _) _); vm_compute; reflexivity.
  - refine (proj2 (@shipped_mapper_never_low_confidence nan_runtime w_nan (sample_news "t")
                     _ _ _) _
              {| mr_ticker := "005930"; mr_company_name := "삼성전자";
                 mr_confidence := 0.98%float; mr_method := "alias_dict" |} _);
      vm_compute; reflexivity.
Defined.

Lemma no_mapping_leaves_no_news_row_witness :
  let m := {| mr_ticker := "373220"; mr_company_name := "LG에너지솔루션";
              mr_confidence := 0.95%float; mr_method := "alias_dict" |} in
  @ingest_and_create_signal_from toy_runtime unmapped_news map_ticker world0
  = (Ok None, set_log (log world0 ++ ["NO_MAPPING"]) world0)
  ∧ ∃ b w2,
      @ingest_and_create_signal_from toy_runtime unmapped_news (λ _, Some m)
        (set_log (log world0 ++ ["NO_MAPPING"]) world0) = (Ok (Some b), w2)
      ∧ ticker b = "373220"
      ∧ size (rows (news_events (committed (conn w2))))
        = S (size (rows (news_events (committed (conn world0))))).
Proof.
  intros m.
  destruct (@no_mapping_leaves_no_news_row toy_runtime world0 unmapped_news map_ticker)
    as [Hfirst Hlater]; [vm_compute; reflexivity..|].
  split; [exact Hfirst|].
  apply (Hlater (λ _, Some m) m); vm_compute; reflexivity.
Defined.

(** ** News hash *)

Lemma string_app_assoc (a b c : string) : (a +:+ b) +:+ c = a +:+ (b +:+ c).
Proof.
  induction a as [|x a IH]; [reflexivity|].
  change (String x ((a +:+ b) +:+ c) = String x (a +:+ (b +:+ c))). by rewrite IH.
Qed.

Lemma string_app_length (a b : string) :
  String.length (a +:+ b) = (String.length a + String.length b)%nat.
Proof.
  induction a as [|x a IH]; [reflexivity|].
  change (S (String.length (a +:+ b)) = S (String.length a + String.length b)).
  by rewrite IH.
Qed.

(** X6. [build_hash] joins source, url and title with a bare [|]: an item
    whose source is [a|b] and whose url is [u] gets the hash of the item
    whose source is [a] and whose url is [b|u], under every hash function.
    The two items differ in source and in url, and yet once the first is
    stored, [insert_news_if_new] turns the second away ([None], no row). *)
Theorem build_hash_separator_collision `{PyRuntime} (a b u : string) (n1 n2 : NewsItem) :
  ni_source n1 = a +:+ "|" +:+ b → ni_url n1 = u →
  ni_source n2 = a → ni_url n2 = b +:+ "|" +:+ u →
  ni_title n1 = ni_title n2 →
  build_hash n1 = build_hash n2
  ∧ ni_source n1 ≠ ni_source n2
  ∧ ni_url n1 ≠ ni_url n2
  ∧ ∀ db ac,
      map_Exists (λ _ r, nr_raw_hash r = build_hash n1) (rows (news_events (view db))) →
      ∃ db', insert_news_if_new (news_item n2 (build_hash n2)) ac db = (Ok None, db')
             ∧ view db' = view db.
Proof.
  intros Hs1 Hu1 Hs2 Hu2 Ht.
  assert (build_hash n1 = build_hash n2) as Hhash.
  { unfold build_hash. rewrite Hs1, Hu1, Hs2, Hu2, Ht.
    by rewrite !string_app_assoc. }
  split_and!.
  - exact Hhash.
  - rewrite Hs1, Hs2. intros Heq. apply (f_equal String.length) in Heq.
    rewrite !string_app_length in Heq. cbn in Heq. lia.
  - rewrite Hu1, Hu2. intros Heq. apply (f_equal String.length) in Heq.
    rewrite !string_app_length in Heq. cbn in Heq. lia.
  - intros db ac Hex.
    destruct (duplicate_news_returns_none db (news_item n2 (build_hash n2)) ac)
      as (db' & Hrun & Hview & _).
    + right. unfold news_item at 1. cbn. by rewrite <-Hhash.
    + by exists db'.
Qed.

Lemma build_hash_separator_collision_witness :
  let n1 := {| ni_source := "wire|desk"; ni_tier := 1; ni_title := "t"; ni_body := "";
               ni_url := "x"; ni_published_at := "" |} in
  let n2 := {| ni_source := "wire"; ni_tier := 1; ni_title := "t"; ni_body := "";
               ni_url := "desk|x"; ni_published_at := "" |} in
  @build_hash toy_runtime n1 = @build_hash toy_runtime n2.
Proof.
  intros n1 n2.
  apply (@build_hash_separator_collision toy_runtime "wire" "desk" "x" n1 n2); reflexivity.
Defined.

(** ** Event store: risk state and parameters *)

(** X7. [ensure_risk_state_today] is an insert-or-ignore: afterwards the row
    of the date exists, so [get_risk_state] never returns [None] for it; a row
    that was already there is left exactly as it was (a day on which trading
    was disabled stays disabled); a new row carries the defaults, with
    [trading_enabled] 1; the rows of other dates are untouched; and a second
    call changes nothing. *)
Theorem ensure_risk_state_today_keeps_existing (db : DB) (td : string) (ac : bool) :
  let db' := (ensure_risk_state_today td ac db).2 in
  (ensure_risk_state_today td ac db).1 = Ok tt
  ∧ risk_state (view db') !! td
    = Some (default default_risk_state (risk_state (view db) !! td))
  ∧ (∀ td', td' ≠ td → risk_state (view db') !! td' = risk_state (view db) !! td')
  ∧ is_Some (get_risk_state td db')
  ∧ (∀ r, risk_state (view db) !! td = Some r →
          view db' = view db ∧ get_risk_state td db' = Some (risk_state_dict r))
  ∧ (risk_state (view db) !! td = None →
     get_risk_state td db' = Some (risk_state_dict default_risk_state)
     ∧ risk_state_dict default_risk_state !! "trading_enabled" = Some 1)
  ∧ view (ensure_risk_state_today td ac db').2 = view db'.
Proof.
  intros db'. unfold db', ensure_risk_state_today, get_risk_state. cbn.
  repeat (rewrite view_maybe_commit || rewrite view_execute_dml).
  rewrite !insert_or_ignore_risk_state_lookup.
  split_and!.
  - done.
  - done.
  - intros td' Hne. unfold insert_or_ignore_risk_state.
    destruct (risk_state (view db) !! td); [done|]. cbn. by rewrite lookup_insert_ne.
  - by eexists.
  - intros r Hr. unfold insert_or_ignore_risk_state. by rewrite Hr.
  - by intros ->.
  - pose proof (insert_or_ignore_risk_state_lookup td (view db)) as Hrow.
    set (s' := insert_or_ignore_risk_state td (view db)) in *.
    unfold insert_or_ignore_risk_state. by rewrite Hrow.
Qed.

Lemma insert_or_ignore_seed_lookup (s : Store) :
  is_Some (parameter_registry (insert_or_ignore_seed s) !! "score_weights").
Proof.
  unfold insert_or_ignore_seed.
  destruct (parameter_registry s !! "score_weights") as [row|] eqn:Hrow.
  - by rewrite Hrow.
  - cbn. rewrite lookup_insert_eq. by eexists.
Qed.

Lemma insert_or_ignore_seed_idem (s : Store) :
  insert_or_ignore_seed (insert_or_ignore_seed s) = insert_or_ignore_seed s.
Proof.
  destruct (insert_or_ignore_seed_lookup s) as [row Hrow].
  set (s' := insert_or_ignore_seed s) in *.
  unfold insert_or_ignore_seed. by rewrite Hrow.
Qed.

(** X8. [init] seeds the [score_weights] parameter once: a row that is
    already there -- tuned weights included -- is never overwritten, a missing
    one is created with the documented text, no other parameter and none of
    the seven other tables is touched, the connection is left idle with
    everything committed, and a second [init] changes nothing. *)
Theorem init_seeds_score_weights_once (db : DB) :
  let db' := init db in
  tx db' = None
  ∧ committed db' = view db'
  ∧ (∀ row, parameter_registry (view db) !! "score_weights" = Some row →
            view db' = view db)
  ∧ (parameter_registry (view db) !! "score_weights" = None →
     ∃ row, parameter_registry (view db') !! "score_weights" = Some row
            ∧ par_value_json row = seed_score_weights
            ∧ par_scope row = "global" ∧ par_tune_required row = 0)
  ∧ (∀ name, name ≠ "score_weights" →
             parameter_registry (view db') !! name = parameter_registry (view db) !! name)
  ∧ news_events (view db') = news_events (view db)
  ∧ event_tickers (view db') = event_tickers (view db)
  ∧ signal_scores (view db') = signal_scores (view db)
  ∧ positions (view db') = positions (view db)
  ∧ orders (view db') = orders (view db)
  ∧ position_events (view db') = position_events (view db)
  ∧ risk_state (view db') = risk_state (view db)
  ∧ init db' = db'.
Proof.
  intros db'. unfold db', init. rewrite !view_commit, !view_execute_dml.
  split_and!; try reflexivity.
  - intros row Hrow. unfold insert_or_ignore_seed. by rewrite Hrow.
  - intros Hnone. unfold insert_or_ignore_seed. rewrite Hnone. cbn.
    rewrite lookup_insert_eq. by eexists.
  - intros name Hne. unfold insert_or_ignore_seed.
    destruct (parameter_registry (view db) !! "score_weights"); [done|]. cbn.
    by rewrite lookup_insert_ne.
  - unfold insert_or_ignore_seed. by destruct (parameter_registry (view db) !! _).
  - unfold insert_or_ignore_seed. by destruct (parameter_registry (view db) !! _).
  - unfold insert_or_ignore_seed. by destruct (parameter_registry (view db) !! _).
  - unfold insert_or_ignore_seed. by destruct (parameter_registry (view db) !! _).
  - unfold insert_or_ignore_seed. by destruct (parameter_registry (view db) !! _).
  - unfold insert_or_ignore_seed. by destruct (parameter_registry (view db) !! _).
  - unfold insert_or_ignore_seed. by destruct (parameter_registry (view db) !! _).
  - unfold commit, execute_dml. cbn. by rewrite insert_or_ignore_seed_idem.
Qed.

(** ** Event store: orders *)

Lemma set_orders_same (s : Store) :
  set_orders {| rows := rows (orders s); seq := seq (orders s) |} s = s.
Proof. by destruct s as [? ? ? ? [] ? ? ?]. Qed.

(** X9. [update_order_filled] has no guard: on an id that no order carries it
    returns normally and changes nothing (it does not look at the row count);
    on an existing order it sets status FILLED, the price and the fill time
    whatever the status was -- a CANCELLED or REJECTED order becomes FILLED --
    and keeps the eight other columns as they were; no other order, no
    counter and none of the seven other tables is touched. *)
Theorem update_order_filled_has_no_guard `{PyRuntime} (db : DB) (oid : Z) (price : float)
    (ac : bool) :
  let db' := (update_order_filled oid price ac db).2 in
  (update_order_filled oid price ac db).1 = Ok tt
  ∧ (rows (orders (view db)) !! oid = None → view db' = view db)
  ∧ (∀ o, rows (orders (view db)) !! oid = Some o →
          rows (orders (view db')) !! oid
          = Some {| ord_position_id := ord_position_id o;
                    ord_signal_id := ord_signal_id o;
                    ord_ticker := ord_ticker o; ord_side := ord_side o;
                    ord_qty := ord_qty o; ord_order_type := ord_order_type o;
                    ord_price := Some price; ord_status := "FILLED";
                    ord_broker_order_id := ord_broker_order_id o;
                    ord_attempt_no := ord_attempt_no o;
                    ord_filled_at := Some current_timestamp |})
  ∧ (∀ oid', oid' ≠ oid →
             rows (orders (view db')) !! oid' = rows (orders (view db)) !! oid')
  ∧ seq (orders (view db')) = seq (orders (view db))
  ∧ news_events (view db') = news_events (view db)
  ∧ event_tickers (view db') = event_tickers (view db)
  ∧ signal_scores (view db') = signal_scores (view db)
  ∧ positions (view db') = positions (view db)
  ∧ position_events (view db') = position_events (view db)
  ∧ risk_state (view db') = risk_state (view db)
  ∧ parameter_registry (view db') = parameter_registry (view db).
Proof.
  intros db'. unfold db', update_order_filled. cbn.
  rewrite !view_maybe_commit, !view_execute_dml. unfold mark_order_filled.
  split_and!; try reflexivity.
  - intros Hnone. rewrite alter_id; [apply set_orders_same|].
    intros o Ho. by rewrite Hnone in Ho.
  - intros o Ho. cbn. by rewrite lookup_alter_eq, Ho.
  - intros oid' Hne. cbn. by rewrite lookup_alter_ne.
Qed.

Lemma update_order_filled_has_no_guard_witness :
  rows (orders (view (@update_order_filled toy_runtime 1 83500 true
                        (connect store_with_cancelled_order)).2)) !! 1
  = Some {| ord_position_id := 1; ord_signal_id := 1; ord_ticker := "005930";
            ord_side := "BUY"; ord_qty := 1; ord_order_type := "MARKET";
            ord_price := Some 83500%float; ord_status := "FILLED";
            ord_broker_order_id := None; ord_attempt_no := 1;
            ord_filled_at := Some "2026-01-01 00:00:00" |}.
Proof.
  apply (proj1 (proj2 (proj2 (@update_order_filled_has_no_guard toy_runtime
                                (connect store_with_cancelled_order) 1 83500 true)))
           (new_order 1 1 "005930" "BUY" 1 "MARKET" "CANCELLED" None)).
  vm_compute. reflexivity.
Defined.

(** X10. [insert_order] lets the constraints of [orders] speak: with a
    quantity that is NaN (bound as NULL, which [qty real not null] refuses),
    a side outside BUY/SELL, an order type or a status outside the schema's
    lists it raises [sqlite3.IntegrityError] -- the error is not swallowed,
    unlike in [insert_news_if_new] -- and adds no row; otherwise it adds
    exactly one row, under an id that no order carried, holding the eight
    values of the call, [attempt_no] 1, no broker order id and no fill
    time. *)
Theorem insert_order_checks (db : DB) (pid sid : Z) (tk side : string) (qty : float)
    (ot st : string) (price : option float) (ac : bool) :
  let valid := PrimFloat.is_nan qty = false
               ∧ side ∈ ["BUY"; "SELL"]
               ∧ ot ∈ ["MARKET"; "LIMIT"; "STOP"; "STOP_LIMIT"]
               ∧ st ∈ ["NEW"; "SENT"; "PARTIAL_FILLED"; "FILLED"; "CANCELLED";
                       "REJECTED"; "EXPIRED"] in
  (valid →
   ∃ id db', insert_order pid sid tk side qty ot st price ac db = (Ok id, db')
     ∧ rows (orders (view db)) !! id = None
     ∧ rows (orders (view db'))
       = <[id := {| ord_position_id := pid; ord_signal_id := sid; ord_ticker := tk;
                    ord_side := side; ord_qty := qty; ord_order_type := ot;
                    ord_price := price; ord_status := st;
                    ord_broker_order_id := None; ord_attempt_no := 1;
                    ord_filled_at := None |}]> (rows (orders (view db))))
  ∧ (¬ valid →
     ∃ msg db', insert_order pid sid tk side qty ot st price ac db
                = (Raise (SqliteIntegrityError msg), db')
       ∧ view db' = view db ∧ committed db' = committed db)
  ∧ (PrimFloat.is_nan qty = true →
     ∃ db', insert_order pid sid tk side qty ot st price ac db
            = (Raise (SqliteIntegrityError "NOT NULL constraint failed: orders.qty"), db')).
Proof.
  intros valid. unfold insert_order, not_null_real, order_violation.
  change (ord_side (new_order pid sid tk side qty ot st price)) with side.
  change (ord_order_type (new_order pid sid tk side qty ot st price)) with ot.
  change (ord_status (new_order pid sid tk side qty ot st price)) with st.
  split_and!.
  - intros (Hqty & Hside & Hot & Hst). rewrite Hqty.
    rewrite !bool_decide_eq_true_2 by done. cbn.
    eexists _, _. split; [reflexivity|].
    rewrite view_maybe_commit, view_execute_dml. cbn.
    split_and!; try reflexivity. apply next_rowid_fresh.
  - intros Hinvalid.
    destruct (PrimFloat.is_nan qty) eqn:Hqty;
      [eexists _, _; split_and!; reflexivity|].
    destruct (bool_decide (side ∈ ["BUY"; "SELL"])) eqn:Hside; cbn;
      [|eexists _, _; split_and!; reflexivity].
    destruct (bool_decide (ot ∈ ["MARKET"; "LIMIT"; "STOP"; "STOP_LIMIT"])) eqn:Hot; cbn;
      [|eexists _, _; split_and!; reflexivity].
    destruct (bool_decide (st ∈ ["NEW"; "SENT"; "PARTIAL_FILLED"; "FILLED"; "CANCELLED";
                                 "REJECTED"; "EXPIRED"])) eqn:Hst; cbn;
      [|eexists _, _; split_and!; reflexivity].
    exfalso. apply Hinvalid.
    apply bool_decide_eq_true in Hside, Hot, Hst. done.
  - intros ->. by eexists.
Qed.

Lemma insert_order_checks_witness :
  (∃ msg db', insert_order 1 1 "005930" "HOLD" 1 "MARKET" "SENT" None true
                (connect empty_store)
              = (Raise (SqliteIntegrityError msg), db')
     ∧ view db' = view (connect empty_store)
     ∧ committed db' = committed (connect empty_store))
  ∧ ∃ db', insert_order 1 1 "005930" "BUY" PrimFloat.nan "MARKET" "SENT" None true
             (connect empty_store)
           = (Raise (SqliteIntegrityError "NOT NULL constraint failed: orders.qty"), db').
Proof.
  split.
  - apply (proj1 (proj2 (insert_order_checks (connect empty_store) 1 1 "005930" "HOLD" 1
                           "MARKET" "SENT" None true))).
    intros (_ & Hside & _). apply elem_of_cons in Hside as [Hside|Hside]; [discriminate|].
    apply elem_of_cons in Hside as [Hside|Hside]; [discriminate|].
    by apply elem_of_nil in Hside.
  - apply (proj2 (proj2 (insert_order_checks (connect empty_store) 1 1 "005930" "BUY"
                           PrimFloat.nan "MARKET" "SENT" None true))).
    reflexivity.
Defined.

(** ** Event store: what autocommit does to the enclosing transaction *)

Ltac commits :=
  let Hrun := fresh "Hrun" in
  intros db a db' Hrun _;
  unfold table_insert in *; cbn in Hrun |- *;
  repeat (case_match; simplify_eq); simplify_eq;
  split_and!; [reflexivity|reflexivity|eexists; split; reflexivity].

Section Autocommit.
Context `{PyRuntime}.

(** X11. Every writing method of [DB], called with its default
    [autocommit=True], commits on return -- and with its own row everything
    that was pending on the connection: the caller's open transaction is
    ended, so a later [rollback] can no longer undo what came before the
    call.  What the connection shows is what the deferred call shows.  (For
    the two inserts that answer [None] this holds when they answer an id.) *)
Theorem autocommit_ends_the_transaction :
  (∀ tk sid qty, commits_on_return (create_position tk sid qty) (λ _, true))
  ∧ (∀ nid tk cn conf meth,
       commits_on_return (insert_event_ticker nid tk cn conf meth) (λ _, true))
  ∧ (∀ payload, commits_on_return (insert_signal payload) (λ _, true))
  ∧ (∀ pid sid tk side qty ot st price,
       commits_on_return (insert_order pid sid tk side qty ot st price) (λ _, true))
  ∧ (∀ oid price, commits_on_return (update_order_filled oid price) (λ _, true))
  ∧ (∀ pid avg val, commits_on_return (set_position_open pid avg val) (λ _, true))
  ∧ (∀ pid reason, commits_on_return (set_position_closed pid reason) (λ _, true))
  ∧ (∀ td, commits_on_return (ensure_risk_state_today td) (λ _, true))
  ∧ (∀ item, commits_on_return (insert_news_if_new item) (λ id, bool_decide (is_Some id)))
  ∧ (∀ pid et act rc dj key,
       commits_on_return (insert_position_event pid et act rc dj key)
         (λ id, bool_decide (is_Some id))).
Proof.
  split_and!; intros.
  - unfold create_position, not_null_real. commits.
  - unfold insert_event_ticker, not_null_real. commits.
  - unfold insert_signal, signal_not_null, not_null_real. commits.
  - unfold insert_order, not_null_real. commits.
  - unfold update_order_filled. commits.
  - unfold set_position_open. commits.
  - unfold set_position_closed. commits.
  - unfold ensure_risk_state_today. commits.
  - unfold insert_news_if_new, sql_insert_news. intros db a db' Hrun Ha.
    destruct (news_violation item (rows (news_events (view db)))); cbn in Hrun.
    + injection Hrun as <- <-. by apply bool_decide_eq_true, is_Some_None in Ha.
    + injection Hrun as <- <-. split_and!; try reflexivity. by eexists.
  - unfold insert_position_event, sql_insert_position_event. intros db a db' Hrun Ha.
    destruct (position_event_violation _ (rows (position_events (view db))));
      cbn in Hrun.
    + injection Hrun as <- <-. by apply bool_decide_eq_true, is_Some_None in Ha.
    + injection Hrun as <- <-. split_and!; try reflexivity. by eexists.
Qed.

End Autocommit.

Lemma autocommit_ends_the_transaction_witness :
  let db' := (create_position "000660" 2 1 true db_with_pending_position).2 in
  tx db' = None ∧ committed db' = view db'
  ∧ ∃ db'', create_position "000660" 2 1 false db_with_pending_position = (Ok 2, db'')
            ∧ view db'' = view db'.
Proof.
  intros db'.
  apply (proj1 (@autocommit_ends_the_transaction toy_runtime) "000660" 2 1%float
           db_with_pending_position 2 db'); reflexivity.
Defined.

(** ** Event store: writes that fail after their statement ran *)

Lemma left_in_transaction_intro (db db' : DB) :
  tx db = None → tx db' = Some (committed db) → committed db' = committed db →
  left_in_transaction db db'.
Proof.
  destruct db as [c t], db' as [c' t']. cbn. intros -> -> ->.
  unfold left_in_transaction, rollback, begin. cbn. by split_and!.
Qed.

Lemma execute_dml_same_idle (f : Store → Store) (db : DB) :
  tx db = None → f (view db) = view db → left_in_transaction db (execute_dml f db).
Proof.
  intros Hidle Hf. apply left_in_transaction_intro; [done| |done].
  unfold execute_dml. cbn [tx]. rewrite Hf. unfold view. by rewrite Hidle.
Qed.

Lemma execute_dml_id_idle (db : DB) :
  tx db = None → left_in_transaction db (execute_dml id db).
Proof. intros Hidle. by apply execute_dml_same_idle. Qed.

Lemma update_position_where_zero (pid : Z) (expected : PositionStatus)
    (f : PositionRow → PositionRow) (t t' : Table PositionRow) (rc : Z) :
  update_position_where pid expected f t = (t', rc) → (rc =? 0) = true → t' = t.
Proof.
  unfold update_position_where. intros Hup Hrc.
  repeat case_match; simplify_eq; done.
Qed.

Section FailedWrites.
Context `{PyRuntime}.

(** X12. A write that fails on an idle connection leaves the implicit
    transaction of its statement open, whatever [autocommit] says: after the
    [None] of [insert_news_if_new] or [insert_position_event], and after the
    exception of [set_position_open], [set_position_closed], [insert_order]
    or [insert_signal], nothing is committed, a rollback brings the
    connection back to where it was, and until then [begin] raises
    [OperationalError]. *)
Theorem failed_write_leaves_transaction_open (db : DB) :
  tx db = None →
  (∀ item ac db', insert_news_if_new item ac db = (Ok None, db') →
                  left_in_transaction db db')
  ∧ (∀ pid et act rc dj key ac db',
       insert_position_event pid et act rc dj key ac db = (Ok None, db') →
       left_in_transaction db db')
  ∧ (∀ pid avg val ac e db',
       set_position_open pid avg val ac db = (Raise e, db') → left_in_transaction db db')
  ∧ (∀ pid reason ac e db',
       set_position_closed pid reason ac db = (Raise e, db') → left_in_transaction db db')
  ∧ (∀ pid sid tk side qty ot st price ac e db',
       insert_order pid sid tk side qty ot st price ac db = (Raise e, db') →
       left_in_transaction db db')
  ∧ (∀ payload ac e db',
       insert_signal payload ac db = (Raise e, db') → left_in_transaction db db').
Proof.
  intros Hidle. split_and!.
  - intros item ac db'. unfold insert_news_if_new, sql_insert_news.
    destruct (news_violation item _); cbn; intros [= <-]. by apply execute_dml_id_idle.
  - intros pid et act rc dj key ac db'.
    unfold insert_position_event, sql_insert_position_event.
    destruct (position_event_violation _ _); cbn; intros [= <-].
    by apply execute_dml_id_idle.
  - intros pid avg val ac e db'. unfold set_position_open.
    destruct (update_position_where pid PENDING_ENTRY _ (positions (view db)))
      as [t rc] eqn:Hup.
    destruct (rc =? 0) eqn:Hrc; [|done]. intros [= <- <-].
    rewrite (update_position_where_zero _ _ _ _ _ _ Hup Hrc).
    apply execute_dml_same_idle; [done|apply set_positions_same].
  - intros pid reason ac e db'. unfold set_position_closed.
    destruct (update_position_where pid OPEN _ (positions (view db)))
      as [t rc] eqn:Hup.
    destruct (rc =? 0) eqn:Hrc; [|done]. intros [= <- <-].
    rewrite (update_position_where_zero _ _ _ _ _ _ Hup Hrc).
    apply execute_dml_same_idle; [done|apply set_positions_same].
  - intros pid sid tk side qty ot st price ac e db'. unfold insert_order.
    destruct (not_null_real _ _); [intros [= <- <-]; by apply execute_dml_id_idle|].
    destruct (order_violation _); cbn; intros [= <- <-]. by apply execute_dml_id_idle.
  - intros payload ac e db'. unfold insert_signal.
    destruct (signal_not_null _); [intros [= <- <-]; by apply execute_dml_id_idle|].
    destruct (signal_violation _); cbn; intros [= <- <-]. by apply execute_dml_id_idle.
Qed.

End FailedWrites.

Lemma failed_write_leaves_transaction_open_witness :
  left_in_transaction (connect empty_store)
    (@set_position_closed toy_runtime 1 "TIME_EXIT" true (connect empty_store)).2.
Proof.
  refine (proj1 (proj2 (proj2 (proj2
            (@failed_write_leaves_transaction_open toy_runtime (connect empty_store)
               eq_refl))))
          1 "TIME_EXIT" true
          (IllegalTransitionError "Invalid transition to CLOSED for position_id=1") _ _).
  vm_compute. reflexivity.
Defined.

(** ** Event store: rows and their ids *)

(** X13. What [insert_event_ticker] stores, [get_event_ticker] reads back:
    for a confidence that is a number, the id it returns was unused before,
    the lookup by that id yields the five values of the call together with
    the id, and every other id reads as before.  A confidence that is NaN is
    bound as NULL and refused by [map_confidence real not null]: the call
    raises [sqlite3.IntegrityError] and stores nothing. *)
Theorem event_ticker_round_trip (db : DB) (nid : Z) (tk cn : string) (conf : float)
    (meth : string) (ac : bool) :
  (PrimFloat.is_nan conf = false →
   ∃ id db',
     insert_event_ticker nid tk cn conf meth ac db = (Ok id, db')
     ∧ get_event_ticker id db = None
     ∧ get_event_ticker id db'
       = Some (id, {| etr_news_id := nid; etr_ticker := tk; etr_company_name := cn;
                      etr_map_confidence := conf; etr_mapping_method := meth |})
     ∧ ∀ id', id' ≠ id → get_event_ticker id' db' = get_event_ticker id' db)
  ∧ (PrimFloat.is_nan conf = true →
     ∃ db',
       insert_event_ticker nid tk cn conf meth ac db
       = (Raise (SqliteIntegrityError
                   "NOT NULL constraint failed: event_tickers.map_confidence"), db')
       ∧ view db' = view db ∧ committed db' = committed db).
Proof.
  unfold insert_event_ticker, not_null_real, get_event_ticker, table_insert. split.
  - intros ->. cbn. eexists _, _. split; [reflexivity|].
    rewrite view_maybe_commit, view_execute_dml. cbn. split_and!.
    + by rewrite next_rowid_fresh.
    + by rewrite lookup_insert_eq.
    + intros id' Hne. by rewrite lookup_insert_ne.
  - intros ->. eexists. by split_and!.
Qed.

Lemma event_ticker_round_trip_witness :
  (∃ id db',
     insert_event_ticker 1 "005930" "삼성전자" 0.98 "alias_dict" true (connect empty_store)
     = (Ok id, db')
     ∧ get_event_ticker id (connect empty_store) = None
     ∧ get_event_ticker id db'
       = Some (id, {| etr_news_id := 1; etr_ticker := "005930";
                      etr_company_name := "삼성전자"; etr_map_confidence := 0.98;
                      etr_mapping_method := "alias_dict" |})
     ∧ ∀ id', id' ≠ id → get_event_ticker id' db' = get_event_ticker id' (connect empty_store))
  ∧ ∃ db',
      insert_event_ticker 1 "005930" "삼성전자" PrimFloat.nan "alias_dict" true
        (connect empty_store)
      = (Raise (SqliteIntegrityError
                  "NOT NULL constraint failed: event_tickers.map_confidence"), db')
      ∧ view db' = view (connect empty_store)
      ∧ committed db' = committed (connect empty_store).
Proof.
  split.
  - apply (proj1 (event_ticker_round_trip (connect empty_store) 1 "005930" "삼성전자" 0.98
                    "alias_dict" true)). reflexivity.
  - apply (proj2 (event_ticker_round_trip (connect empty_store) 1 "005930" "삼성전자"
                    PrimFloat.nan "alias_dict" true)). reflexivity.
Defined.

Lemma max_rowid_le {A : Type} (m : gmap Z A) (b : Z) :
  0 ≤ b → (∀ k x, m !! k = Some x → k ≤ b) → max_rowid m ≤ b.
Proof.
  intros Hb. unfold max_rowid.
  apply (map_fold_weak_ind (λ r m, (∀ k x, m !! k = Some x → k ≤ b) → r ≤ b)).
  - done.
  - intros i y m' r Hi IH Hall.
    assert (i ≤ b) by (apply (Hall i y), lookup_insert_eq).
    assert (r ≤ b); [|lia].
    apply IH. intros k x Hk. apply (Hall k x).
    rewrite lookup_insert_ne; [done|]. intros ->. by rewrite Hi in Hk.
Qed.

Lemma max_rowid_nonneg {A : Type} (m : gmap Z A) : 0 ≤ max_rowid m.
Proof.
  unfold max_rowid. apply (map_fold_weak_ind (λ r _, 0 ≤ r)); [done|].
  intros. lia.
Qed.

(** The id after the one just handed out is the next integer. *)
Lemma next_rowid_table_insert {A : Type} (row : A) (t : Table A) :
  next_rowid (table_insert row t).2 = next_rowid t + 1.
Proof.
  unfold table_insert. cbn. unfold next_rowid at 1. cbn.
  pose proof (max_rowid_nonneg (rows t)).
  assert (max_rowid (<[next_rowid t := row]> (rows t)) ≤ next_rowid t); [|lia].
  apply max_rowid_le; [unfold next_rowid; lia|].
  intros k x Hk. destruct (decide (k = next_rowid t)) as [->|Hne]; [done|].
  rewrite lookup_insert_ne in Hk by done.
  apply max_rowid_ge in Hk. unfold next_rowid. lia.
Qed.

(** X14. The ids of [positions] are handed out in increasing order: for
    quantities that are numbers, the id that [create_position] returns is
    positive and larger than the id of every position the connection sees,
    and the next call returns the next integer.  Both rows are there
    afterwards, in status PENDING_ENTRY, and no earlier row is replaced.  A
    quantity that is NaN is bound as NULL and refused by [qty real not
    null]: the call raises [sqlite3.IntegrityError] and stores nothing. *)
Theorem position_ids_are_fresh_and_consecutive (db : DB) (tk1 tk2 : string) (sid1 sid2 : Z)
    (q1 q2 : float) (ac1 ac2 : bool) :
  (PrimFloat.is_nan q1 = false → PrimFloat.is_nan q2 = false →
   ∃ id db1 db2,
     create_position tk1 sid1 q1 ac1 db = (Ok id, db1)
     ∧ create_position tk2 sid2 q2 ac2 db1 = (Ok (id + 1), db2)
     ∧ 0 < id
     ∧ (∀ k p, rows (positions (view db)) !! k = Some p → k < id)
     ∧ rows (positions (view db2))
       = <[id + 1 := pending_position tk2 sid2 q2]>
           (<[id := pending_position tk1 sid1 q1]> (rows (positions (view db))))
     ∧ size (rows (positions (view db2))) = S (S (size (rows (positions (view db)))))
     ∧ pos_status (pending_position tk1 sid1 q1) = PENDING_ENTRY)
  ∧ (PrimFloat.is_nan q1 = true →
     ∃ db', create_position tk1 sid1 q1 ac1 db
            = (Raise (SqliteIntegrityError "NOT NULL constraint failed: positions.qty"), db')
            ∧ view db' = view db ∧ committed db' = committed db).
Proof.
  split; [|intros Hq1; unfold create_position, not_null_real; rewrite Hq1;
           eexists; by split_and!].
  intros Hq1 Hq2.
  set (id := next_rowid (positions (view db))).
  set (t1 := {| rows := <[id := pending_position tk1 sid1 q1]> (rows (positions (view db)));
                seq := id |}).
  set (db1 := maybe_commit ac1 (execute_dml (set_positions t1) db)).
  assert (positions (view db1) = t1) as Hpos1.
  { unfold db1. by rewrite view_maybe_commit, view_execute_dml. }
  assert (next_rowid (positions (view db1)) = id + 1) as Hnext.
  { rewrite Hpos1.
    apply (next_rowid_table_insert (pending_position tk1 sid1 q1) (positions (view db))). }
  set (t2 := {| rows := <[id + 1 := pending_position tk2 sid2 q2]> (rows t1);
                seq := id + 1 |}).
  exists id, db1, (maybe_commit ac2 (execute_dml (set_positions t2) db1)).
  pose proof (max_rowid_nonneg (rows (positions (view db)))) as Hmax.
  assert (rows (positions (view (maybe_commit ac2 (execute_dml (set_positions t2) db1))))
          = rows t2) as Hrows2.
  { by rewrite view_maybe_commit, view_execute_dml. }
  split_and!.
  - unfold create_position, not_null_real. by rewrite Hq1.
  - unfold create_position, not_null_real, table_insert.
    rewrite Hq2, Hnext, Hpos1. reflexivity.
  - unfold id, next_rowid. lia.
  - intros k p Hk. apply max_rowid_ge in Hk. unfold id, next_rowid. lia.
  - by rewrite Hrows2.
  - rewrite Hrows2. cbn [rows t1 t2].
    rewrite !map_size_insert_None; [done|apply next_rowid_fresh|].
    rewrite lookup_insert_ne by lia.
    destruct (rows (positions (view db)) !! (id + 1)) as [p|] eqn:Hp; [|done].
    apply max_rowid_ge in Hp. unfold id, next_rowid in Hp. lia.
  - reflexivity.
Qed.

Lemma position_ids_are_fresh_and_consecutive_witness :
  ∃ id db1 db2,
    create_position "005930" 1 1 true (connect empty_store) = (Ok id, db1)
    ∧ create_position "000660" 2 3 false db1 = (Ok (id + 1), db2)
    ∧ 0 < id
    ∧ (∀ k p, rows (positions (view (connect empty_store))) !! k = Some p → k < id)
    ∧ rows (positions (view db2))
      = <[id + 1 := pending_position "000660" 2 3]>
          (<[id := pending_position "005930" 1 1]>
             (rows (positions (view (connect empty_store)))))
    ∧ size (rows (positions (view db2)))
      = S (S (size (rows (positions (view (connect empty_store))))))
    ∧ pos_status (pending_position "005930" 1 1) = PENDING_ENTRY.
Proof.
  apply (proj1 (position_ids_are_fresh_and_consecutive (connect empty_store)
                  "005930" "000660" 1 2 1 3 true false)); reflexivity.
Defined.

(** ** Event store: deferred writes *)

Lemma rollback_after {A : Type} (op : Sql A) (db : DB) :
  sql_keeps_committed op → rollback (op db).2 = rollback db.
Proof.
  intros Hop. destruct (op db) as [r db'] eqn:Hrun. cbn.
  unfold rollback. by rewrite (Hop _ _ _ Hrun).
Qed.

(** X15. Called with [autocommit=False], no writing method of [DB] commits,
    whether it returns, answers [None] or raises: a rollback right after the
    call leaves the connection where a rollback before the call would have
    left it, so none of the call's writes survive. *)
Theorem deferred_writes_are_rolled_back `{PyRuntime} (db : DB) :
  (∀ item, rollback (insert_news_if_new item false db).2 = rollback db)
  ∧ (∀ nid tk cn conf meth,
       rollback (insert_event_ticker nid tk cn conf meth false db).2 = rollback db)
  ∧ (∀ payload, rollback (insert_signal payload false db).2 = rollback db)
  ∧ (∀ td, rollback (ensure_risk_state_today td false db).2 = rollback db)
  ∧ (∀ tk sid qty, rollback (create_position tk sid qty false db).2 = rollback db)
  ∧ (∀ pid sid tk side qty ot st price,
       rollback (insert_order pid sid tk side qty ot st price false db).2 = rollback db)
  ∧ (∀ oid price, rollback (update_order_filled oid price false db).2 = rollback db)
  ∧ (∀ pid avg val, rollback (set_position_open pid avg val false db).2 = rollback db)
  ∧ (∀ pid reason, rollback (set_position_closed pid reason false db).2 = rollback db)
  ∧ (∀ pid et act rc dj key,
       rollback (insert_position_event pid et act rc dj key false db).2 = rollback db).
Proof. split_and!; intros; apply rollback_after; eauto with frames. Qed.

(** ** Phase 2: exceptions, fills, and the paper broker *)

Lemma gate_open (ks : KillSwitch) (r : RiskStateRow) :
  enabled ks = false → rs_trading_enabled r = 1 →
  allowed (can_trade ks (Some (risk_state_dict r))) = true.
Proof. intros Hks Hflag. by rewrite can_trade_today, Hks, Hflag. Qed.

Section EntryOutcomes.
Context `{PyRuntime} `{BrokerBase}.

(** X16. Whatever Phase 2 raises -- the broker's transport error or a failure
    of the storage engine, at any statement -- [execute_signal] passes the
    exception on and the connection is exactly as it was found: the position
    and the order inserted before the failure are rolled back and no
    transaction is left open.  In particular, when the gate is open, the
    quantity is a number and [send_order] raises, the run raises that
    exception and leaves the world untouched, log included; and when the
    quantity is NaN the run raises the [sqlite3.IntegrityError] of
    [positions.qty real not null] before the broker is asked, whatever the
    broker would answer, and leaves the world untouched as well. *)
Theorem entry_exception_leaves_no_trace (td : string) (sid : Z) (tk : string) (qty : float) :
  (∀ w w' e,
     tx (conn w) = None →
     execute_signal_entry td sid tk qty w = (Raise e, w') →
     execute_signal td sid tk qty w = (Raise e, w')
     ∧ conn w' = conn w ∧ tx (conn w') = None)
  ∧ (∀ w e,
     tx (conn w) = None → faults w = None →
     enabled (kill_switch w) = false →
     rs_trading_enabled
       (default default_risk_state (risk_state (committed (conn w)) !! td)) = 1 →
     PrimFloat.is_nan qty = false →
     send_order (buy_request sid tk qty) = Raise e →
     execute_signal td sid tk qty w = (Raise e, w))
  ∧ (∀ w,
     tx (conn w) = None → faults w = None →
     enabled (kill_switch w) = false →
     rs_trading_enabled
       (default default_risk_state (risk_state (committed (conn w)) !! td)) = 1 →
     PrimFloat.is_nan qty = true →
     execute_signal td sid tk qty w
     = (Raise (SqliteIntegrityError "NOT NULL constraint failed: positions.qty"), w)).
Proof.
  split_and!.
  - intros w w' e Hidle Hrun.
    pose proof (entry_raise_restores _ _ _ _ _ _ _ Hidle Hrun) as Hconn.
    split_and!; [|done|by rewrite Hconn].
    unfold execute_signal. by rewrite run_bind, Hrun.
  - intros [[c t] ks lg f] e. cbn. intros -> -> Hks Hflag Hqty Hsend.
    unfold execute_signal. rewrite run_bind. fold (connect c).
    rewrite (entry_broker_raises c ks lg td sid tk qty e);
      [done|done|by apply gate_open|done].
  - intros [[c t] ks lg f]. cbn. intros -> -> Hks Hflag Hqty.
    unfold execute_signal. rewrite run_bind. fold (connect c).
    rewrite (entry_nan_qty c ks lg td sid tk qty); [done|done|by apply gate_open].
Qed.

(** X17. A filled run never reuses anything: whatever the store already
    holds -- earlier positions of the same signal included -- every call of
    [execute_signal] with a quantity that is a number that passes the gate
    and is filled adds exactly one position, under an id no position carried, and exactly two orders; the
    position ends CLOSED with reason TIME_EXIT, bound to the signal, with the
    broker's average price as entry price.  The pipeline does not
    de-duplicate runs per signal. *)
Theorem every_filled_run_adds_a_position (w : World) (td : string) (sid : Z) (tk : string)
    (qty : float) (r : OrderResult) :
  tx (conn w) = None → faults w = None →
  enabled (kill_switch w) = false →
  rs_trading_enabled
    (default default_risk_state (risk_state (committed (conn w)) !! td)) = 1 →
  PrimFloat.is_nan qty = false →
  send_order (buy_request sid tk qty) = Ok r → res_status r = "FILLED" →
  ∃ w2 pid p,
    execute_signal td sid tk qty w = (Ok true, w2)
    ∧ tx (conn w2) = None
    ∧ rows (positions (committed (conn w))) !! pid = None
    ∧ rows (positions (committed (conn w2)))
      = <[pid := p]> (rows (positions (committed (conn w))))
    ∧ pos_status p = CLOSED ∧ pos_exit_reason_code p = Some "TIME_EXIT"
    ∧ pos_signal_id p = sid ∧ pos_ticker p = tk ∧ pos_qty p = qty
    ∧ pos_avg_entry_price p = Some (res_avg_price r)
    ∧ size (rows (positions (committed (conn w2))))
      = S (size (rows (positions (committed (conn w)))))
    ∧ size (rows (orders (committed (conn w2))))
      = S (S (size (rows (orders (committed (conn w)))))).
Proof.
  destruct w as [[c t] ks lg f]. cbn. intros -> -> Hks Hflag Hqty Hsend Hst.
  fold (connect c).
  destruct (execute_signal_fills c ks lg td sid tk qty r)
    as (w1 & w2 & _ & _ & Hrun & _ & Hidle & _ & Hpos & _ & Hord & _);
    [done|by apply gate_open|done|done|].
  eexists w2, _, _. split_and!.
  - exact Hrun.
  - exact Hidle.
  - apply next_rowid_fresh.
  - exact Hpos.
  - reflexivity.
  - reflexivity.
  - reflexivity.
  - reflexivity.
  - reflexivity.
  - reflexivity.
  - rewrite Hpos. apply map_size_insert_None, next_rowid_fresh.
  - rewrite Hord. rewrite map_size_insert_None.
    + f_equal. apply map_size_insert_None, next_rowid_fresh.
    + match goal with |- _ !! next_rowid ?t = None => exact (next_rowid_fresh t) end.
Qed.

End EntryOutcomes.

Lemma entry_exception_leaves_no_trace_witness :
  @execute_signal toy_runtime RaisingBroker "2026-01-01" 1 "005930" 1 world0
  = (Raise (BrokerError "order failed: HTTP 500"), world0)
  ∧ @execute_signal toy_runtime PaperBroker "2026-01-01" 1 "005930" PrimFloat.nan world0
    = (Raise (SqliteIntegrityError "NOT NULL constraint failed: positions.qty"), world0).
Proof.
  split.
  - apply (proj1 (proj2 (@entry_exception_leaves_no_trace toy_runtime RaisingBroker
                           "2026-01-01" 1 "005930" 1))); reflexivity.
  - apply (proj2 (proj2 (@entry_exception_leaves_no_trace toy_runtime PaperBroker
                           "2026-01-01" 1 "005930" PrimFloat.nan))); reflexivity.
Defined.

Lemma every_filled_run_adds_a_position_witness :
  ∃ w2 pid p,
    @execute_signal toy_runtime PaperBroker "2026-01-01" 1 "005930" 1 world0 = (Ok true, w2)
    ∧ tx (conn w2) = None
    ∧ rows (positions (committed (conn world0))) !! pid = None
    ∧ rows (positions (committed (conn w2)))
      = <[pid := p]> (rows (positions (committed (conn world0))))
    ∧ pos_status p = CLOSED ∧ pos_exit_reason_code p = Some "TIME_EXIT"
    ∧ pos_signal_id p = 1 ∧ pos_ticker p = "005930" ∧ pos_qty p = 1%float
    ∧ pos_avg_entry_price p = Some 83500%float
    ∧ size (rows (positions (committed (conn w2))))
      = S (size (rows (positions (committed (conn world0)))))
    ∧ size (rows (orders (committed (conn w2))))
      = S (S (size (rows (orders (committed (conn world0)))))).
Proof.
  apply (@every_filled_run_adds_a_position toy_runtime PaperBroker world0 "2026-01-01" 1
           "005930" 1
           {| res_status := "FILLED"; res_filled_qty := 1; res_avg_price := 83500;
              res_reason_code := None |}); reflexivity.
Defined.

(** X18. [PaperBroker.send_order] fills every order in full, at the caller's
    expected price and at 100.0 when none is given, and never raises.  With
    the paper broker, therefore, a run with a quantity that is a number that
    passes the gate on a healthy engine always returns [True]: the position
    is entered at the expected price 83500 that [execute_signal] puts in the request, with opened value
    83500 times the quantity, and is closed by Phase 3. *)
Theorem paper_broker_always_fills `{PyRuntime} :
  (∀ req, PaperBroker_send_order req
          = Ok {| res_status := "FILLED"; res_filled_qty := rq_qty req;
                  res_avg_price := default 100%float (rq_expected_price req);
                  res_reason_code := None |})
  ∧ (∀ w td sid tk qty,
       tx (conn w) = None → faults w = None →
       enabled (kill_switch w) = false →
       rs_trading_enabled
         (default default_risk_state (risk_state (committed (conn w)) !! td)) = 1 →
       PrimFloat.is_nan qty = false →
       ∃ w2 p,
         @execute_signal _ PaperBroker td sid tk qty w = (Ok true, w2)
         ∧ rows (positions (committed (conn w2)))
             !! next_rowid (positions (committed (conn w))) = Some p
         ∧ pos_status p = CLOSED
         ∧ pos_avg_entry_price p = Some 83500%float
         ∧ pos_opened_value p = Some (83500 * qty)%float).
Proof.
  split; [reflexivity|].
  intros [[c t] ks lg f] td sid tk qty. cbn. intros -> -> Hks Hflag Hqty.
  fold (connect c).
  destruct (@execute_signal_fills _ PaperBroker c ks lg td sid tk qty
              {| res_status := "FILLED"; res_filled_qty := qty; res_avg_price := 83500;
                 res_reason_code := None |})
    as (w1 & w2 & _ & _ & Hrun & _ & _ & _ & Hpos & _);
    [done|by apply gate_open|reflexivity|reflexivity|].
  eexists w2, _. split_and!.
  - exact Hrun.
  - rewrite Hpos. apply lookup_insert_eq.
  - reflexivity.
  - reflexivity.
  - reflexivity.
Qed.

Lemma paper_broker_always_fills_witness :
  ∃ w2 p,
    @execute_signal toy_runtime PaperBroker "2026-01-01" 7 "000660" 3 world0 = (Ok true, w2)
    ∧ rows (positions (committed (conn w2)))
        !! next_rowid (positions (committed (conn world0))) = Some p
    ∧ pos_status p = CLOSED
    ∧ pos_avg_entry_price p = Some 83500%float
    ∧ pos_opened_value p = Some (83500 * 3)%float.
Proof.
  apply (proj2 (@paper_broker_always_fills toy_runtime) world0 "2026-01-01" 7 "000660"
           3%float);
    reflexivity.
Defined.

(** ** Phase 3 on a position that is not open *)

Lemma set_position_closed_in_tx_miss `{PyRuntime} (pid : Z) (reason : string) (c s : Store) :
  (∀ p, rows (positions s) !! pid = Some p → pos_status p ≠ OPEN) →
  set_position_closed pid reason false {| committed := c; tx := Some s |}
  = (Raise (IllegalTransitionError
              ("Invalid transition to CLOSED for position_id=" +:+ str_int pid)),
     {| committed := c; tx := Some s |}).
Proof.
  intros Hmiss. unfold set_position_closed. cbn [view tx default].
  rewrite update_position_where_miss by done. cbn.
  unfold execute_dml, view. cbn. by rewrite set_positions_same.
Qed.

(** X19. Settlement needs an OPEN position: when the position is missing,
    still PENDING_ENTRY, or already CLOSED, Phase 3 raises
    [IllegalTransitionError] and the SELL order it had inserted and marked
    FILLED is rolled back with it.  The world is left exactly as it was, so a
    repeated settlement of a closed position adds no second SELL order and
    no second exit event.  (With a quantity that is NaN the SELL order is
    not even inserted: [orders.qty real not null] refuses it, Phase 3 raises
    that [sqlite3.IntegrityError] instead, and the world is left as it was
    all the same.) *)
Theorem settlement_needs_open_position `{PyRuntime} (w : World) (sid : Z) (tk : string)
    (qty : float) (pid : Z) :
  tx (conn w) = None → faults w = None →
  (∀ p, rows (positions (committed (conn w))) !! pid = Some p → pos_status p ≠ OPEN) →
  execute_signal_exit sid tk qty pid w
  = (Raise (if PrimFloat.is_nan qty
            then SqliteIntegrityError "NOT NULL constraint failed: orders.qty"
            else IllegalTransitionError
                   ("Invalid transition to CLOSED for position_id=" +:+ str_int pid)), w).
Proof.
  destruct w as [[c t] ks lg f]. cbn. intros -> -> Hmiss. fold (connect c).
  unfold execute_signal_exit.
  step. rewrite begin_idle. cbn.
  destruct (PrimFloat.is_nan qty) eqn:Hqty.
  - step. step. rewrite insert_order_in_tx_nan by done. cbn. reflexivity.
  - step. step. rewrite insert_order_in_tx
      by first [done | by apply order_violation_market; set_solver]. cbn.
    step. rewrite update_order_filled_in_tx. cbn.
    step. rewrite set_position_closed_in_tx_miss by done. cbn.
    reflexivity.
Qed.

Lemma settlement_needs_open_position_witness :
  let w := {| conn := connect (store_with_position CLOSED); kill_switch := KillSwitch_init;
              log := []; faults := None |} in
  @execute_signal_exit toy_runtime 1 "005930" 1 1 w
  = (Raise (IllegalTransitionError
              ("Invalid transition to CLOSED for position_id=" +:+ str_int 1)), w).
Proof.
  intros w.
  apply (@settlement_needs_open_position toy_runtime w 1 "005930" 1 1);
    [reflexivity|reflexivity|].
  intros p Hp. vm_compute in Hp. by injection Hp as <-.
Defined.

(** ** The three phases on a connection that is not idle *)

Lemma begin_busy (c s : Store) :
  begin {| committed := c; tx := Some s |}
  = (Raise (SqliteOperationalError "cannot start a transaction within a transaction"),
     {| committed := c; tx := Some s |}).
Proof. reflexivity. Qed.

(** X20. Each phase starts with [db.begin()], outside its [try]: on a
    connection that is already inside a transaction -- for instance after a
    write that failed with [autocommit=True] and was not rolled back -- the
    phase raises [OperationalError] at once, without running a statement and
    without the rollback of its handler: the pending transaction is left
    open and the world is unchanged. *)
Theorem phases_refuse_an_open_transaction `{PyRuntime} `{BrokerBase} (w : World)
    (s : Store) :
  tx (conn w) = Some s → faults w = None →
  let e := SqliteOperationalError "cannot start a transaction within a transaction" in
  (∀ news mapper, ingest_and_create_signal_from news mapper w = (Raise e, w))
  ∧ (∀ td sid tk qty, execute_signal td sid tk qty w = (Raise e, w))
  ∧ (∀ sid tk qty pid, execute_signal_exit sid tk qty pid w = (Raise e, w)).
Proof.
  destruct w as [[c t] ks lg f]. cbn. intros -> ->. split_and!.
  - intros news mapper. unfold ingest_and_create_signal_from.
    step. rewrite begin_busy. reflexivity.
  - intros td sid tk qty. unfold execute_signal, execute_signal_entry.
    rewrite run_bind. step. rewrite begin_busy. reflexivity.
  - intros sid tk qty pid. unfold execute_signal_exit.
    step. rewrite begin_busy. reflexivity.
Qed.

Lemma phases_refuse_an_open_transaction_witness :
  let w := {| conn := (insert_news_if_new
                         (news_item tier4_news (@build_hash toy_runtime tier4_news)) true
                         (conn world0)).2;
              kill_switch := KillSwitch_init; log := []; faults := None |} in
  @execute_signal toy_runtime PaperBroker "2026-01-01" 1 "005930" 1 w
  = (Raise (SqliteOperationalError "cannot start a transaction within a transaction"), w).
Proof.
  intros w.
  apply (@phases_refuse_an_open_transaction toy_runtime PaperBroker w
           (committed (conn world0))); reflexivity.
Defined.

(** ** The demo, run again *)

Lemma news_violation_duplicate (item : NewsRow) (m : gmap Z NewsRow) :
  map_Exists (λ _ r, nr_url r = nr_url item) m → is_Some (news_violation item m).
Proof.
  intros Hdup. unfold news_violation. repeat (case_match; [by eexists|]).
  exfalso. by rewrite bool_decide_eq_true_2 in * by done.
Qed.

Lemma news_events_seeded (s : Store) :
  news_events (insert_or_ignore_seed s) = news_events s.
Proof. unfold insert_or_ignore_seed. by destruct (parameter_registry s !! _). Qed.

(** X21. [sample_news] always carries the same url, so the demo trades once:
    on a store that already holds a news row with that url,
    [run_happy_path_demo] ends after Tx #1 with DUP_NEWS_SKIPPED -- whatever
    the clock reads and whatever the broker would answer -- and leaves
    behind what [init] leaves: no signal, position, order or event is
    added. *)
Theorem demo_rerun_is_skipped `{PyRuntime} `{BrokerBase} (w : World) (now td : string) :
  tx (conn w) = None → faults w = None →
  map_Exists (λ _ r, nr_url r = "https://example.com/news/1")
    (rows (news_events (committed (conn w)))) →
  run_happy_path_demo now td w
  = (Ok tt, set_log (log w ++ ["DUP_NEWS_SKIPPED"]) (set_conn (init (conn w)) w))
  ∧ news_events (committed (init (conn w))) = news_events (committed (conn w))
  ∧ signal_scores (committed (init (conn w))) = signal_scores (committed (conn w))
  ∧ positions (committed (init (conn w))) = positions (committed (conn w))
  ∧ orders (committed (init (conn w))) = orders (committed (conn w))
  ∧ position_events (committed (init (conn w))) = position_events (committed (conn w)).
Proof.
  destruct w as [[c t] ks lg f]. cbn. intros -> -> Hex.
  change (init {| committed := c; tx := None |}) with (connect (insert_or_ignore_seed c)).
  split.
  - unfold run_happy_path_demo, ingest_and_create_signal.
    rewrite run_bind. unfold run_sql. cbn.
    change (init {| committed := c; tx := None |}) with (connect (insert_or_ignore_seed c)).
    rewrite run_bind. unfold set_conn. cbn [kill_switch log faults].
    rewrite ingest_duplicate; [reflexivity|].
    rewrite news_events_seeded. by apply news_violation_duplicate.
  - cbn. unfold insert_or_ignore_seed. by destruct (parameter_registry c !! _).
Qed.

Lemma demo_rerun_is_skipped_witness :
  let w0 := {| conn := connect empty_store; kill_switch := KillSwitch_init; log := [];
               faults := None |} in
  let w1 := (@run_happy_path_demo toy_runtime PaperBroker "t1" "2026-01-01" w0).2 in
  @run_happy_path_demo toy_runtime PaperBroker "t2" "2026-01-02" w1
  = (Ok tt, set_log (log w1 ++ ["DUP_NEWS_SKIPPED"]) (set_conn (init (conn w1)) w1)).
Proof.
  intros w0 w1.
  apply (@demo_rerun_is_skipped toy_runtime PaperBroker w1 "t2" "2026-01-02");
    [vm_compute; reflexivity|vm_compute; reflexivity|].
  apply map_Exists_lookup. exists 1. eexists. split; vm_compute; reflexivity.
Defined.

(** ** KIS broker: how a venue response becomes an order result *)

#[local] Arguments py_round : simpl never.
#[local] Arguments py_str : simpl never.
#[local] Arguments Z_to_float : simpl never.
#[local] Arguments float_or : simpl never.
#[local] Arguments py_or : simpl never.

Section KIS.
Context `{PyRuntime} `{PyRepr} `{KISTransport}.

Lemma kis_send_order_rejected (req : OrderRequest) (n : Z) (kv : gmap string json) :
  py_round (rq_qty req) = Ok n →
  post_order_cash req (Z.max 1 n) = Ok (JObj kv) →
  py_str (default (JStr "") (kv !! "rt_cd")) ≠ "0" →
  KISBroker_send_order req
  = Ok {| res_status := "REJECTED"; res_filled_qty := Z_to_float 0;
          res_avg_price := 0%float;
          res_reason_code :=
            Some (py_str (py_or (default JNull (kv !! "msg1"))
                            (py_or (default JNull (kv !! "msg_cd"))
                               (JStr "KIS_ORDER_REJECTED")))) |}.
Proof.
  intros Hround Hpost Hrt. unfold KISBroker_send_order, KISBroker_order_cash.
  rewrite Hround. cbn [Result_bind]. rewrite Hpost. cbn [Result_bind json_get].
  apply String.eqb_neq in Hrt. rewrite Hrt. reflexivity.
Qed.

Lemma kis_send_order_accepted (req : OrderRequest) (n : Z) (kv okv : gmap string json) :
  py_round (rq_qty req) = Ok n →
  post_order_cash req (Z.max 1 n) = Ok (JObj kv) →
  py_str (default (JStr "") (kv !! "rt_cd")) = "0" →
  default (JObj ∅) (kv !! "output") = JObj okv →
  let ord_no := py_or (default JNull (okv !! "ODNO"))
                  (py_or (default JNull (okv !! "odno")) (JStr "")) in
  KISBroker_send_order req
  = Ok {| res_status := "FILLED"; res_filled_qty := Z_to_float (Z.max 1 n);
          res_avg_price := float_or (rq_expected_price req) 0;
          res_reason_code :=
            Some (if truthy ord_no then "ORDER_ACCEPTED:" +:+ py_str ord_no
                  else "ORDER_ACCEPTED") |}.
Proof.
  intros Hround Hpost Hrt Hout ord_no. unfold KISBroker_send_order, KISBroker_order_cash.
  rewrite Hround. cbn [Result_bind]. rewrite Hpost. cbn [Result_bind json_get].
  apply String.eqb_eq in Hrt. rewrite Hrt. cbn [negb]. rewrite Hout.
  cbn [Result_bind json_get]. reflexivity.
Qed.

(** X22. Whatever the venue answers, a result of [KISBroker.send_order] is
    one of two kinds.  REJECTED, when [str(rt_cd)] is not "0": nothing is
    filled and the average price is 0.0.  FILLED, when it is "0": the filled
    quantity is the quantity that was sent to the venue,
    [max(1, int(round(qty)))], hence at least one share however small the
    requested quantity, and the average price is the caller's expected price
    (0.0 when none or zero was given) -- the response is not consulted for
    either.  There is no partial fill, and a reason code is always set. *)
Theorem kis_send_order_results (req : OrderRequest) (r : OrderResult) :
  KISBroker_send_order req = Ok r →
  ∃ n kv,
    py_round (rq_qty req) = Ok n
    ∧ post_order_cash req (Z.max 1 n) = Ok (JObj kv)
    ∧ is_Some (res_reason_code r)
    ∧ ((res_status r = "REJECTED"
        ∧ py_str (default (JStr "") (kv !! "rt_cd")) ≠ "0"
        ∧ res_filled_qty r = Z_to_float 0 ∧ res_avg_price r = 0%float)
       ∨ (res_status r = "FILLED"
          ∧ py_str (default (JStr "") (kv !! "rt_cd")) = "0"
          ∧ res_filled_qty r = Z_to_float (Z.max 1 n) ∧ 1 ≤ Z.max 1 n
          ∧ res_avg_price r = float_or (rq_expected_price req) 0)).
Proof.
  unfold KISBroker_send_order, KISBroker_order_cash.
  destruct (py_round (rq_qty req)) as [n|e] eqn:Hround; [|done]. cbn [Result_bind].
  destruct (post_order_cash req (Z.max 1 n)) as [data|e] eqn:Hpost; [|done].
  cbn [Result_bind].
  destruct data as [| | | | | |kv]; try done. cbn [json_get Result_bind].
  destruct (String.eqb (py_str (default (JStr "") (kv !! "rt_cd"))) "0") eqn:Hrt;
    cbn [negb].
  - destruct (default (JObj ∅) (kv !! "output")) as [| | | | | |okv]; try done.
    cbn [json_get Result_bind]. intros [= <-].
    exists n, kv. split_and!; [done|done|by eexists|]. right.
    apply String.eqb_eq in Hrt. split_and!; try done. lia.
  - intros [= <-]. exists n, kv. split_and!; [done|done|by eexists|]. left.
    apply String.eqb_neq in Hrt. by split_and!.
Qed.

(** [int(round(x))] returns only on a number. *)
Lemma py_round_not_nan (x : float) (n : Z) : py_round x = Ok n → PrimFloat.is_nan x = false.
Proof.
  unfold py_round, PrimFloat.is_nan. rewrite FloatAxioms.eqb_spec. unfold SFeqb.
  destruct (Prim2SF x) as [s|s| |s m e]; try done; by rewrite SFcompare_refl.
Qed.

Lemma py_round_nan (x : float) :
  PrimFloat.is_nan x = true →
  py_round x = Raise (BrokerError "ValueError: cannot convert float NaN to integer").
Proof.
  unfold py_round, PrimFloat.is_nan. rewrite FloatAxioms.eqb_spec. unfold SFeqb.
  destruct (Prim2SF x) as [s|s| |s m e]; [| |done|]; by rewrite SFcompare_refl.
Qed.

Lemma py_round_infinity (x : float) :
  PrimFloat.is_infinity x = true →
  py_round x = Raise (BrokerError "OverflowError: cannot convert float infinity to integer").
Proof.
  unfold py_round, PrimFloat.is_infinity.
  rewrite FloatAxioms.eqb_spec, abs_spec. unfold SFeqb.
  change (Prim2SF infinity) with (S754_infinity false).
  by destruct (Prim2SF x) as [s|s| |s m e].
Qed.

(** X23. The edges of the response mapping.  A quantity that is NaN or
    infinite makes [send_order] raise -- the [ValueError] or [OverflowError]
    of [int(round(qty))] -- before anything is sent, whatever the venue would
    answer.  A body that is not a JSON object makes it raise.  An object
    without [rt_cd], like one whose [rt_cd] does not read "0", is a
    rejection, with reason [str(msg1)] when [msg1] is truthy, else
    [str(msg_cd)] when [msg_cd] is truthy, else KIS_ORDER_REJECTED (an empty
    or missing message counts as absent); for messages that are non-empty
    strings the reason is the message itself.  The integer 0 is accepted as
    [rt_cd] like the string "0".  And an accepted response whose [output] is
    present but not an object makes [send_order] raise, although the venue
    has accepted the order. *)
Theorem kis_response_edges (req : OrderRequest) :
  (∀ e, py_round (rq_qty req) = Raise e → KISBroker_send_order req = Raise e)
  ∧ (PrimFloat.is_nan (rq_qty req) = true →
     KISBroker_send_order req
     = Raise (BrokerError "ValueError: cannot convert float NaN to integer"))
  ∧ (PrimFloat.is_infinity (rq_qty req) = true →
     KISBroker_send_order req
     = Raise (BrokerError "OverflowError: cannot convert float infinity to integer"))
  ∧ (∀ n data,
       py_round (rq_qty req) = Ok n → post_order_cash req (Z.max 1 n) = Ok data →
       (∀ kv, data ≠ JObj kv) →
       ∃ e, KISBroker_send_order req = Raise e)
  ∧ (∀ n kv,
       py_round (rq_qty req) = Ok n → post_order_cash req (Z.max 1 n) = Ok (JObj kv) →
       kv !! "rt_cd" = None ∨ py_str (default (JStr "") (kv !! "rt_cd")) ≠ "0" →
       let msg1 := default JNull (kv !! "msg1") in
       let msg_cd := default JNull (kv !! "msg_cd") in
       ∃ r, KISBroker_send_order req = Ok r ∧ res_status r = "REJECTED"
            ∧ (truthy msg1 = true → res_reason_code r = Some (py_str msg1))
            ∧ (truthy msg1 = false → truthy msg_cd = true →
               res_reason_code r = Some (py_str msg_cd))
            ∧ (truthy msg1 = false → truthy msg_cd = false →
               res_reason_code r = Some "KIS_ORDER_REJECTED")
            ∧ (kv !! "msg1" = None ∨ kv !! "msg1" = Some (JStr "") →
               kv !! "msg_cd" = None ∨ kv !! "msg_cd" = Some (JStr "") →
               res_reason_code r = Some "KIS_ORDER_REJECTED")
            ∧ (∀ m, m ≠ "" → kv !! "msg1" = Some (JStr m) → res_reason_code r = Some m)
            ∧ (∀ m, m ≠ "" →
                    kv !! "msg1" = None ∨ kv !! "msg1" = Some (JStr "") →
                    kv !! "msg_cd" = Some (JStr m) → res_reason_code r = Some m))
  ∧ (∀ n kv,
       py_round (rq_qty req) = Ok n → post_order_cash req (Z.max 1 n) = Ok (JObj kv) →
       kv !! "rt_cd" = Some (JInt 0) → kv !! "output" = None →
       ∃ r, KISBroker_send_order req = Ok r ∧ res_status r = "FILLED"
            ∧ res_reason_code r = Some "ORDER_ACCEPTED")
  ∧ (∀ n kv out,
       py_round (rq_qty req) = Ok n → post_order_cash req (Z.max 1 n) = Ok (JObj kv) →
       kv !! "rt_cd" = Some (JStr "0") → kv !! "output" = Some out →
       (∀ okv, out ≠ JObj okv) →
       ∃ e, KISBroker_send_order req = Raise e).
Proof.
  split_and!.
  - intros e Hround. unfold KISBroker_send_order, KISBroker_order_cash.
    by rewrite Hround.
  - intros Hnan. unfold KISBroker_send_order, KISBroker_order_cash.
    by rewrite py_round_nan.
  - intros Hinf. unfold KISBroker_send_order, KISBroker_order_cash.
    by rewrite py_round_infinity.
  - intros n data Hround Hpost Hdata. unfold KISBroker_send_order, KISBroker_order_cash.
    rewrite Hround. cbn [Result_bind]. rewrite Hpost. cbn [Result_bind].
    destruct data as [| | | | | |kv]; try by eexists. by destruct (Hdata kv).
  - intros n kv Hround Hpost Hrt msg1 msg_cd.
    rewrite (kis_send_order_rejected req n kv Hround Hpost);
      [|destruct Hrt as [Hrt|Hrt]; [rewrite Hrt; unfold py_str; cbn; discriminate|done]].
    eexists. split; [reflexivity|]. split; [reflexivity|]. cbn [res_reason_code].
    fold msg1 msg_cd. unfold py_or. split_and!.
    + by intros ->.
    + by intros -> ->.
    + by intros -> ->.
    + unfold msg1, msg_cd. intros [->| ->] [->| ->]; reflexivity.
    + unfold msg1. intros m Hm ->. cbn.
      apply String.eqb_neq in Hm. by rewrite Hm.
    + unfold msg1, msg_cd. intros m Hm Hmsg1 ->. cbn.
      apply String.eqb_neq in Hm. rewrite Hm. cbn.
      by destruct Hmsg1 as [->| ->].
  - intros n kv Hround Hpost Hrt Hout.
    rewrite (kis_send_order_accepted req n kv ∅ Hround Hpost);
      [|by rewrite Hrt|by rewrite Hout].
    cbv zeta. eexists. split; [reflexivity|]. split; reflexivity.
  - intros n kv out Hround Hpost Hrt Hout Hnot.
    unfold KISBroker_send_order, KISBroker_order_cash.
    rewrite Hround. cbn [Result_bind]. rewrite Hpost. cbn [Result_bind json_get].
    rewrite Hrt, Hout. cbn.
    destruct out as [| | | | | |okv]; try by eexists. by destruct (Hnot okv).
Qed.

(** X24. The KIS broker inside the pipeline, gate open, healthy engine.  When
    the venue rejects the order, [execute_signal] returns [False], logs
    BLOCKED with the venue's message -- [msg1], else [msg_cd], else
    KIS_ORDER_REJECTED, and ORDER_NOT_FILLED should that read as the empty
    string -- and stores nothing.  When the venue accepts it, the run returns
    [True] and the position is entered at the expected price 83500 that
    [execute_signal] put in the request, with the requested quantity -- not
    the rounded quantity that was sent to the venue -- and is closed by
    Phase 3. *)
Theorem kis_broker_in_the_pipeline (w : World) (td : string) (sid : Z) (tk : string)
    (qty : float) (n : Z) (kv : gmap string json) :
  tx (conn w) = None → faults w = None →
  enabled (kill_switch w) = false →
  rs_trading_enabled
    (default default_risk_state (risk_state (committed (conn w)) !! td)) = 1 →
  py_round qty = Ok n →
  post_order_cash (buy_request sid tk qty) (Z.max 1 n) = Ok (JObj kv) →
  (py_str (default (JStr "") (kv !! "rt_cd")) ≠ "0" →
   let msg := py_or (default JNull (kv !! "msg1"))
                (py_or (default JNull (kv !! "msg_cd")) (JStr "KIS_ORDER_REJECTED")) in
   @execute_signal _ KISBroker td sid tk qty w
   = (Ok false,
      set_log (log w ++ ["BLOCKED:" +:+ str_or (Some (py_str msg)) "ORDER_NOT_FILLED"]) w)
   ∧ (∀ m, m ≠ "" → kv !! "msg1" = Some (JStr m) →
           @execute_signal _ KISBroker td sid tk qty w
           = (Ok false, set_log (log w ++ ["BLOCKED:" +:+ m]) w))
   ∧ (∀ m, m ≠ "" → kv !! "msg1" = None ∨ kv !! "msg1" = Some (JStr "") →
           kv !! "msg_cd" = Some (JStr m) →
           @execute_signal _ KISBroker td sid tk qty w
           = (Ok false, set_log (log w ++ ["BLOCKED:" +:+ m]) w))
   ∧ (kv !! "msg1" = None ∨ kv !! "msg1" = Some (JStr "") →
      kv !! "msg_cd" = None ∨ kv !! "msg_cd" = Some (JStr "") →
      @execute_signal _ KISBroker td sid tk qty w
      = (Ok false, set_log (log w ++ ["BLOCKED:KIS_ORDER_REJECTED"]) w)))
  ∧ (py_str (default (JStr "") (kv !! "rt_cd")) = "0" →
     (∃ okv, default (JObj ∅) (kv !! "output") = JObj okv) →
     ∃ w2 p,
       @execute_signal _ KISBroker td sid tk qty w = (Ok true, w2)
       ∧ rows (positions (committed (conn w2)))
           !! next_rowid (positions (committed (conn w))) = Some p
       ∧ pos_status p = CLOSED
       ∧ pos_avg_entry_price p = Some 83500%float
       ∧ pos_qty p = qty).
Proof.
  destruct w as [[c t] ks lg f]. cbn. intros -> -> Hks Hflag Hround Hpost.
  pose proof (py_round_not_nan _ _ Hround) as Hqty.
  fold (connect c). split.
  - intros Hrt.
    pose proof (kis_send_order_rejected (buy_request sid tk qty) n kv Hround Hpost Hrt)
      as Hsend.
    assert (@execute_signal _ KISBroker td sid tk qty
              {| conn := connect c; kill_switch := ks; log := lg; faults := None |}
            = (Ok false,
               set_log (lg ++ ["BLOCKED:" +:+
                  str_or (Some (py_str (py_or (default JNull (kv !! "msg1"))
                                           (py_or (default JNull (kv !! "msg_cd"))
                                              (JStr "KIS_ORDER_REJECTED")))))
                    "ORDER_NOT_FILLED"])
                 {| conn := connect c; kill_switch := ks; log := lg; faults := None |}))
      as Hrun.
    { unfold execute_signal. rewrite run_bind.
      rewrite (@entry_not_filled _ KISBroker c ks lg td sid tk qty _ Hqty
                 (gate_open _ _ Hks Hflag) Hsend); [reflexivity|discriminate]. }
    split_and!.
    + exact Hrun.
    + intros m Hm Hmsg1. rewrite Hrun, Hmsg1. unfold py_or, py_str, str_or. cbn.
      apply String.eqb_neq in Hm. rewrite !Hm. cbn. by rewrite Hm.
    + intros m Hm Hmsg1 Hmsg_cd. rewrite Hrun, Hmsg_cd. unfold py_or, py_str, str_or.
      apply String.eqb_neq in Hm.
      destruct Hmsg1 as [->| ->]; cbn; rewrite !Hm; cbn; by rewrite Hm.
    + intros Hmsg1 Hmsg_cd. rewrite Hrun. unfold py_or, py_str, str_or.
      by destruct Hmsg1 as [->| ->], Hmsg_cd as [->| ->].
  - intros Hrt [okv Hout].
    pose proof (kis_send_order_accepted (buy_request sid tk qty) n kv okv
                  Hround Hpost Hrt Hout) as Hsend.
    cbv zeta in Hsend.
    destruct (@execute_signal_fills _ KISBroker c ks lg td sid tk qty _ Hqty
                (gate_open _ _ Hks Hflag) Hsend eq_refl)
      as (w1 & w2 & _ & _ & Hrun & _ & _ & _ & Hpos & _).
    eexists w2, _. split_and!.
    + exact Hrun.
    + rewrite Hpos. apply lookup_insert_eq.
    + reflexivity.
    + reflexivity.
    + reflexivity.
Qed.

End KIS.

Lemma kis_send_order_results_witness :
  ∃ n kv,
    py_round (rq_qty kis_test_request) = Ok n
    ∧ @post_order_cash accepting_transport kis_test_request (Z.max 1 n) = Ok (JObj kv)
    ∧ is_Some (Some "ORDER_ACCEPTED:12345")
    ∧ (("FILLED" = "REJECTED"
        ∧ @py_str toy_runtime toy_repr (default (JStr "") (kv !! "rt_cd")) ≠ "0"
        ∧ Z_to_float 1 = Z_to_float 0 ∧ 83500%float = 0%float)
       ∨ ("FILLED" = "FILLED"
          ∧ @py_str toy_runtime toy_repr (default (JStr "") (kv !! "rt_cd")) = "0"
          ∧ Z_to_float 1 = Z_to_float (Z.max 1 n) ∧ 1 ≤ Z.max 1 n
          ∧ 83500%float = float_or (rq_expected_price kis_test_request) 0)).
Proof.
  apply (@kis_send_order_results toy_runtime toy_repr accepting_transport kis_test_request
           {| res_status := "FILLED"; res_filled_qty := Z_to_float 1;
              res_avg_price := 83500; res_reason_code := Some "ORDER_ACCEPTED:12345" |}).
  vm_compute. reflexivity.
Defined.

Lemma kis_response_edges_witness :
  (∃ r, @KISBroker_send_order toy_runtime toy_repr silent_transport kis_test_request = Ok r
        ∧ res_status r = "REJECTED"
        ∧ res_reason_code r = Some "KIS_ORDER_REJECTED")
  ∧ @KISBroker_send_order toy_runtime toy_repr accepting_transport
      {| rq_signal_id := 1; rq_ticker := "005930"; rq_side := "BUY";
         rq_qty := PrimFloat.infinity; rq_order_type := "MARKET";
         rq_expected_price := None |}
    = Raise (BrokerError "OverflowError: cannot convert float infinity to integer").
Proof.
  split.
  - destruct (@kis_response_edges toy_runtime toy_repr silent_transport kis_test_request)
      as (_ & _ & _ & _ & Hrejected & _).
    destruct (Hrejected 1 ∅) as (r & Hrun & Hst & _ & _ & Hreason & _);
      [vm_compute; reflexivity|reflexivity|by left|].
    exists r. split_and!; [exact Hrun|exact Hst|].
    apply Hreason; reflexivity.
  - apply (proj1 (proj2 (proj2 (@kis_response_edges toy_runtime toy_repr accepting_transport
                                  {| rq_signal_id := 1; rq_ticker := "005930";
                                     rq_side := "BUY"; rq_qty := PrimFloat.infinity;
                                     rq_order_type := "MARKET";
                                     rq_expected_price := None |})))).
    reflexivity.
Defined.

Lemma kis_broker_in_the_pipeline_witness :
  @execute_signal toy_runtime (@KISBroker toy_runtime toy_repr rejecting_transport)
    "2026-01-01" 1 "005930" 1 world0
  = (Ok false, set_log (log world0 ++ ["BLOCKED:rejected"]) world0).
Proof.
  assert (@py_str toy_runtime toy_repr
            (default (JStr "")
               ((list_to_map [("rt_cd", JStr "1"); ("msg1", JStr "rejected")]
                 : gmap string json) !! "rt_cd")) ≠ "0") as Hrt
    by (vm_compute; discriminate).
  apply (proj1 (proj2 (proj1 (@kis_broker_in_the_pipeline toy_runtime toy_repr
                                rejecting_transport world0 "2026-01-01" 1 "005930" 1 1
                                (list_to_map [("rt_cd", JStr "1"); ("msg1", JStr "rejected")])
                                eq_refl eq_refl eq_refl eq_refl eq_refl eq_refl)
                               Hrt))
           "rejected"); [discriminate|reflexivity].
Defined.

Example kis_accepts_test_order :
  @KISBroker_send_order toy_runtime toy_repr accepting_transport kis_test_request
  = Ok {| res_status := "FILLED"; res_filled_qty := 1; res_avg_price := 83500;
          res_reason_code := Some "ORDER_ACCEPTED:12345" |}.
Proof. vm_compute. reflexivity. Qed.

Example kis_rejects_test_order :
  @KISBroker_send_order toy_runtime toy_repr rejecting_transport kis_test_request
  = Ok {| res_status := "REJECTED"; res_filled_qty := 0; res_avg_price := 0;
          res_reason_code := Some "rejected" |}.
Proof. vm_compute. reflexivity. Qed.

(** ** Position events: what the idempotency key does not cover *)

(** X25. Idempotency rests on the key alone: two inserts of the same event
    without a key ([idempotency_key=None], the default) both succeed, under
    consecutive ids, and leave two rows -- NULL keys never collide. *)
Theorem keyless_events_are_never_deduplicated (db : DB) (pid : Z)
    (et act rc dj : string) (ac1 ac2 : bool) :
  et ∈ ["ENTRY"; "ADD"; "PARTIAL_EXIT"; "FULL_EXIT"; "BLOCK"] →
  act ∈ ["EXECUTED"; "SKIPPED"; "BLOCKED"] →
  ∃ id db1 db2,
    insert_position_event pid et act rc dj None ac1 db = (Ok (Some id), db1)
    ∧ insert_position_event pid et act rc dj None ac2 db1 = (Ok (Some (id + 1)), db2)
    ∧ rows (position_events (view db2))
      = <[id + 1 := new_position_event pid et act rc dj None]>
          (<[id := new_position_event pid et act rc dj None]>
             (rows (position_events (view db))))
    ∧ size (rows (position_events (view db2)))
      = S (S (size (rows (position_events (view db))))).
Proof.
  intros Het Hact.
  set (id := next_rowid (position_events (view db))).
  set (row := new_position_event pid et act rc dj None).
  set (t1 := {| rows := <[id := row]> (rows (position_events (view db))); seq := id |}).
  set (db1 := maybe_commit ac1 (execute_dml (set_position_events t1) db)).
  assert (position_events (view db1) = t1) as Hev1.
  { unfold db1. by rewrite view_maybe_commit, view_execute_dml. }
  assert (next_rowid (position_events (view db1)) = id + 1) as Hnext.
  { rewrite Hev1. apply (next_rowid_table_insert row (position_events (view db))). }
  set (t2 := {| rows := <[id + 1 := row]> (rows t1); seq := id + 1 |}).
  exists id, db1, (maybe_commit ac2 (execute_dml (set_position_events t2) db1)).
  assert (rows (position_events
                  (view (maybe_commit ac2 (execute_dml (set_position_events t2) db1))))
          = rows t2) as Hrows2.
  { by rewrite view_maybe_commit, view_execute_dml. }
  pose proof (max_rowid_nonneg (rows (position_events (view db)))) as Hmax.
  split_and!.
  - by rewrite insert_position_event_fresh.
  - rewrite insert_position_event_fresh by done. cbv zeta.
    rewrite Hnext, Hev1. reflexivity.
  - by rewrite Hrows2.
  - rewrite Hrows2. cbn [rows t1 t2].
    rewrite !map_size_insert_None; [done|apply next_rowid_fresh|].
    rewrite lookup_insert_ne by lia.
    destruct (rows (position_events (view db)) !! (id + 1)) as [p|] eqn:Hp; [|done].
    apply max_rowid_ge in Hp. unfold id, next_rowid in Hp. lia.
Qed.

Lemma keyless_events_are_never_deduplicated_witness :
  ∃ id db1 db2,
    insert_position_event 1 "ENTRY" "EXECUTED" "ENTRY_FILLED" "{}" None true
      (connect empty_store) = (Ok (Some id), db1)
    ∧ insert_position_event 1 "ENTRY" "EXECUTED" "ENTRY_FILLED" "{}" None true db1
      = (Ok (Some (id + 1)), db2)
    ∧ rows (position_events (view db2))
      = <[id + 1 := new_position_event 1 "ENTRY" "EXECUTED" "ENTRY_FILLED" "{}" None]>
          (<[id := new_position_event 1 "ENTRY" "EXECUTED" "ENTRY_FILLED" "{}" None]>
             (rows (position_events (view (connect empty_store)))))
    ∧ size (rows (position_events (view db2)))
      = S (S (size (rows (position_events (view (connect empty_store)))))).
Proof.
  apply (keyless_events_are_never_deduplicated (connect empty_store) 1 "ENTRY" "EXECUTED"
           "ENTRY_FILLED" "{}" true true); rewrite !elem_of_cons; auto.
Defined.

(** X26. [insert_position_event] answers [None] for every constraint failure,
    not only for a taken key: an event type or an action outside the schema's
    lists is refused by a CHECK, the exception is swallowed by the handler
    written for the key conflict, and the caller is told [None] although no
    stored event carries the key -- or although no key was given at all.  No
    row is added. *)
Theorem refused_event_is_reported_as_conflict (db : DB) (pid : Z)
    (et act rc dj : string) (key : option string) (ac : bool) :
  et ∉ ["ENTRY"; "ADD"; "PARTIAL_EXIT"; "FULL_EXIT"; "BLOCK"]
  ∨ act ∉ ["EXECUTED"; "SKIPPED"; "BLOCKED"] →
  ∃ db', insert_position_event pid et act rc dj key ac db = (Ok None, db')
         ∧ view db' = view db ∧ committed db' = committed db.
Proof.
  intros Hbad. unfold insert_position_event, sql_insert_position_event.
  assert (is_Some (position_event_violation (new_position_event pid et act rc dj key)
                     (rows (position_events (view db))))) as [msg ->].
  { unfold position_event_violation.
    change (pev_event_type (new_position_event pid et act rc dj key)) with et.
    change (pev_action (new_position_event pid et act rc dj key)) with act.
    destruct Hbad as [Hbad|Hbad].
    - rewrite (bool_decide_eq_false_2 _ Hbad). by eexists.
    - destruct (bool_decide (et ∈ _)); cbn; [|by eexists].
      rewrite (bool_decide_eq_false_2 _ Hbad). by eexists. }
  eexists. by split_and!.
Qed.

Lemma refused_event_is_reported_as_conflict_witness :
  ∃ db', insert_position_event 1 "EXIT" "EXECUTED" "TIME_EXIT" "{}" None true
           (connect empty_store) = (Ok None, db')
         ∧ view db' = view (connect empty_store)
         ∧ committed db' = committed (connect empty_store).
Proof.
  apply (refused_event_is_reported_as_conflict (connect empty_store) 1 "EXIT" "EXECUTED"
           "TIME_EXIT" "{}" None true).
  left. rewrite !elem_of_cons, elem_of_nil.
  intros [?|[?|[?|[?|[?|[]]]]]]; discriminate.
Defined.

(** ** Tx #1: what the committed rows refer to *)

(** X27. The schema declares no foreign keys; Tx #1 keeps the references
    itself.  After a run that creates a signal, the signal row is stored
    under the id that is returned, its [news_id] is the id of the news row
    just stored for the item (same url, same hash), its [event_ticker_id] is
    the id of the binding just stored, that binding belongs to the same news
    row and to the same ticker, and the scores are those of
    [compute_scores] on the weights read from the registry.  (The run is one
    in which the confidence and the raw score are numbers.) *)
Theorem signal_refers_to_its_news_and_binding `{PyRuntime} (w : World) (news : NewsItem)
    (mapper : string → option MappingResult) (m : MappingResult) :
  tx (conn w) = None → faults w = None →
  news_violation (news_item news (build_hash news))
    (rows (news_events (committed (conn w)))) = None →
  mapper (ni_title news +:+ " " +:+ ni_body news) = Some m →
  PrimFloat.ltb (mr_confidence m) default_min_conf = false →
  PrimFloat.is_nan (mr_confidence m) = false →
  PrimFloat.is_nan (compute_scores components_input (get_score_weights (conn w))).1
  = false →
  ∃ b w1 sg nrow et,
    ingest_and_create_signal_from news mapper w = (Ok (Some b), w1)
    ∧ tx (conn w1) = None
    ∧ rows (signal_scores (committed (conn w1))) !! signal_id b = Some sg
    ∧ rows (news_events (committed (conn w1))) !! sr_news_id sg = Some nrow
    ∧ nr_url nrow = ni_url news ∧ nr_raw_hash nrow = build_hash news
    ∧ rows (event_tickers (committed (conn w1))) !! sr_event_ticker_id sg = Some et
    ∧ etr_news_id et = sr_news_id sg
    ∧ etr_ticker et = sr_ticker sg
    ∧ sr_ticker sg = ticker b ∧ ticker b = mr_ticker m
    ∧ etr_map_confidence et = mr_confidence m
    ∧ (sr_raw_score sg, sr_total_score sg)
      = compute_scores components_input (get_score_weights (conn w))
    ∧ sr_decision sg = "BUY" ∧ sr_priced_in_flag sg = "LOW".
Proof.
  destruct w as [[c t] ks lg f]. cbn. intros -> -> Hv Hmap Hconf Hnum Hraw.
  fold (connect c) in *.
  rewrite (ingest_creates_signal c ks lg news mapper m) by done. cbv zeta.
  eexists _, _, _, _, _. split; [reflexivity|]. cbn.
  split_and!; first [apply lookup_insert_eq | reflexivity | by destruct (compute_scores _ _)].
Qed.

Lemma signal_refers_to_its_news_and_binding_witness :
  ∃ b w1 sg nrow et,
    @ingest_and_create_signal_from toy_runtime (sample_news "t") map_ticker world0
    = (Ok (Some b), w1)
    ∧ tx (conn w1) = None
    ∧ rows (signal_scores (committed (conn w1))) !! signal_id b = Some sg
    ∧ rows (news_events (committed (conn w1))) !! sr_news_id sg = Some nrow
    ∧ nr_url nrow = ni_url (sample_news "t")
    ∧ nr_raw_hash nrow = @build_hash toy_runtime (sample_news "t")
    ∧ rows (event_tickers (committed (conn w1))) !! sr_event_ticker_id sg = Some et
    ∧ etr_news_id et = sr_news_id sg
    ∧ etr_ticker et = sr_ticker sg
    ∧ sr_ticker sg = ticker b ∧ ticker b = "005930"
    ∧ etr_map_confidence et = 0.98%float
    ∧ (sr_raw_score sg, sr_total_score sg)
      = compute_scores components_input (@get_score_weights toy_runtime (conn world0))
    ∧ sr_decision sg = "BUY" ∧ sr_priced_in_flag sg = "LOW".
Proof.
  apply (@signal_refers_to_its_news_and_binding toy_runtime world0 (sample_news "t")
           map_ticker
           {| mr_ticker := "005930"; mr_company_name := "삼성전자";
              mr_confidence := 0.98%float; mr_method := "alias_dict" |});
    vm_compute; reflexivity.
Defined.

(** [int(round(x))] on ties, small values and large ones. *)
Example py_round_ties :
  py_round 0.5 = Ok 0 ∧ py_round 1.5 = Ok 2 ∧ py_round 2.5 = Ok 2
  ∧ py_round (-0.5) = Ok 0 ∧ py_round (-1.5) = Ok (-2) ∧ py_round 0.4 = Ok 0
  ∧ py_round 83500 = Ok 83500 ∧ py_round 0.6 = Ok 1 ∧ py_round (-2.6) = Ok (-3)
  ∧ py_round 1e22 = Ok (10 ^ 22).
Proof. vm_compute. repeat split. Qed.

(** A fractional quantity is sent, and reported filled, as one share. *)
Example kis_fills_at_least_one_share :
  res_filled_qty <$>
    match @KISBroker_send_order toy_runtime toy_repr accepting_transport
            {| rq_signal_id := 1; rq_ticker := "005930"; rq_side := "BUY";
               rq_qty := 0.3; rq_order_type := "MARKET"; rq_expected_price := None |} with
    | Ok r => Some r
    | Raise _ => None
    end
  = Some 1%float.
Proof. vm_compute. reflexivity. Qed.
